(** * AI-Trend-Agent: curation, deduplication, trend detection, text extraction

    A shallow embedding of the parts of the repository that score, rank,
    deduplicate and summarise articles:

    - [llm_test.py]: [OllamaManager._parse_quality_analysis],
      [analyze_article_quality], [curate_articles], [select_top_articles];
    - [news_extractor.py]: the URL pass of [extract_from_website] and the
      title pass of [extract_multiple_sources];
    - [chroma_db.py]: [detect_trends];
    - [enhanced_content_fetcher.py]: [_extract_article_text].

    Text is modelled as [string] (8-bit characters); the Python string
    methods are those of [str] restricted to the ASCII range, and where
    the code names a character outside ASCII it is held as the bytes of
    its UTF-8 form.  Python [int]
    is [Z], a [float] holding a half-integer is an exact rational [Q], a
    [dict] used as a record is a [Record], a [set] of strings is a
    [gset string], and a list of references to mutable dicts is a list of
    locations into an explicit store. *)

From Stdlib Require Import ZArith QArith Lia Ascii String List Permutation.
From stdpp Require Import base list strings gmap pretty functions sorting.

Local Open Scope Z_scope.

(** ** Python string primitives *)

Module Py.

(** Characters for which [str.isspace] holds, in the ASCII range:
    HT, LF, VT, FF, CR, the separators FS, GS, RS, US, and the space. *)
Definition is_space (c : ascii) : bool :=
  match c with
  | "009" | "010" | "011" | "012" | "013"
  | "028" | "029" | "030" | "031" | " " => true
  | _ => false
  end%char.

Definition is_empty (s : string) : bool :=
  match s with EmptyString => true | String _ _ => false end.

(** [s.lstrip()] *)
Fixpoint lstrip (s : string) : string :=
  match s with
  | EmptyString => EmptyString
  | String c s' => if is_space c then lstrip s' else s
  end.

(** [s.rstrip()] *)
Fixpoint rstrip (s : string) : string :=
  match s with
  | EmptyString => EmptyString
  | String c s' =>
      let r := rstrip s' in
      if is_space c && is_empty r then EmptyString else String c r
  end.

(** [s.strip()] *)
Definition strip (s : string) : string := rstrip (lstrip s).

(** [c.lower()] on one ASCII character. *)
Definition lower_char (c : ascii) : ascii :=
  let n := nat_of_ascii c in
  if (65 <=? n)%nat && (n <=? 90)%nat then ascii_of_nat (n + 32) else c.

(** [s.lower()] *)
Fixpoint lower (s : string) : string :=
  match s with
  | EmptyString => EmptyString
  | String c s' => String (lower_char c) (lower s')
  end.

(** [s.startswith(p)] *)
Definition startswith (p s : string) : bool := String.prefix p s.

(** [s.split(sep)] for a one-character separator: never the empty list. *)
Fixpoint split (sep : ascii) (s : string) : list string :=
  match s with
  | EmptyString => [EmptyString]
  | String c s' =>
      if Ascii.eqb c sep then EmptyString :: split sep s'
      else match split sep s' with
           | h :: t => String c h :: t
           | [] => [String c EmptyString]
           end
  end.

(** [s.split(sep, 1)] for a one-character separator. *)
Fixpoint split1 (sep : ascii) (s : string) : list string :=
  match s with
  | EmptyString => [EmptyString]
  | String c s' =>
      if Ascii.eqb c sep then [EmptyString; s']
      else match split1 sep s' with
           | h :: t => String c h :: t
           | [] => [String c EmptyString]
           end
  end.

(** [sep.join(parts)] *)
Fixpoint join (sep : string) (parts : list string) : string :=
  match parts with
  | [] => EmptyString
  | [p] => p
  | p :: rest => p +:+ sep +:+ join sep rest
  end.

(** [s.count(sub)]: the number of non-overlapping occurrences, scanning
    from the left; [skip] is the number of characters still covered by the
    occurrence found last. *)
Fixpoint count_go (sub s : string) (skip : nat) : nat :=
  match s with
  | EmptyString => O
  | String _ s' =>
      match skip with
      | S k => count_go sub s' k
      | O => if startswith sub s
             then S (count_go sub s' (String.length sub - 1))
             else count_go sub s' O
      end
  end.

Definition count (sub s : string) : nat :=
  if is_empty sub then S (String.length s) else count_go sub s O.

(** The value of a decimal digit, from its code point. *)
Definition digit_of (c : ascii) : option Z :=
  let n := Z.of_nat (nat_of_ascii c) in
  if (48 <=? n) && (n <=? 57) then Some (n - 48) else None.

(** The digits of a decimal literal: at least one digit, single
    underscores allowed between digits only.  Returns the value and the
    number of digits read. *)
Fixpoint digits (s : string) (acc : Z) (n : nat) (after_digit : bool)
  : option (Z * nat) :=
  match s with
  | EmptyString => if after_digit then Some (acc, n) else None
  | String c s' =>
      match digit_of c with
      | Some d => digits s' (10 * acc + d) (S n) true
      | None =>
          if Ascii.eqb c "_" && after_digit then digits s' acc n false
          else None
      end
  end.

(** CPython refuses to convert a decimal string of more than
    [sys.int_info.default_max_str_digits] digits. *)
Definition int_max_str_digits : nat := 4300.

Definition unsigned_int (s : string) : option Z :=
  match digits s 0 O false with
  | Some (v, n) => if (n <=? int_max_str_digits)%nat then Some v else None
  | None => None
  end.

(** [int(s)] in base ten; [None] stands for [ValueError]. *)
Definition int (s : string) : option Z :=
  match strip s with
  | String "+" r => unsigned_int r
  | String "-" r => Z.opp <$> unsigned_int r
  | r => unsigned_int r
  end.

(** [str(n)] for a non-negative integer. *)
Definition str_of_nat (n : nat) : string := pretty n.

(** [l[:stop]] with Python's treatment of a negative bound. *)
Definition slice_to {A} (stop : Z) (l : list A) : list A :=
  if 0 <=? stop then take (Z.to_nat stop) l
  else take (length l - Z.to_nat (- stop)) l.

Definition nl : string := String "010" EmptyString.

(** [l.sort(key=..., reverse=True)] and [sorted(l, key=..., reverse=True)].
    Python specifies the sort as stable, also under [reverse=True]; the
    result of a stable sort is determined by the input, and the insertion
    sort below computes it.  [leb y x] reads: the key of [y] is at most the
    key of [x].  An element goes in front of the first one whose key is not
    larger than its own. *)
Fixpoint insert_desc {A} (leb : A -> A -> bool) (x : A) (l : list A) : list A :=
  match l with
  | [] => [x]
  | y :: l' => if leb y x then x :: y :: l' else y :: insert_desc leb x l'
  end.

Definition sort_desc {A} (leb : A -> A -> bool) (l : list A) : list A :=
  foldr (insert_desc leb) [] l.

End Py.

(** ** More Python primitives, for the code beyond the parser *)

Module PyMore.

(** [c.upper()] on one ASCII character. *)
Definition upper_char (c : ascii) : ascii :=
  let n := nat_of_ascii c in
  if (97 <=? n)%nat && (n <=? 122)%nat then ascii_of_nat (n - 32) else c.

(** [s.upper()] *)
Fixpoint upper (s : string) : string :=
  match s with
  | EmptyString => EmptyString
  | String c s' => String (upper_char c) (upper s')
  end.

(** [sub in s] *)
Fixpoint contains (sub s : string) : bool :=
  Py.startswith sub s
  || match s with
     | EmptyString => false
     | String _ s' => contains sub s'
     end.

(** [s.split()]: the words between runs of whitespace, none of them
    empty. *)
Fixpoint split_ws (s : string) : list string :=
  match s with
  | EmptyString => []
  | String c s' =>
      if Py.is_space c then split_ws s'
      else match s' with
           | EmptyString => [String c EmptyString]
           | String d _ =>
               if Py.is_space d then String c EmptyString :: split_ws s'
               else match split_ws s' with
                    | w :: ws => String c w :: ws
                    | [] => [String c EmptyString]
                    end
           end
  end.

(** [re.split(r'[...]+', s)] for a class of characters [sep]: the pieces
    between the maximal runs of separators, the empty piece before a
    leading run and after a trailing one included.  [after_sep] says that
    the character before was a separator. *)
Fixpoint split_runs (sep : ascii -> bool) (after_sep : bool) (s : string)
  : list string :=
  match s with
  | EmptyString => [EmptyString]
  | String c s' =>
      if sep c then
        if after_sep then split_runs sep true s'
        else EmptyString :: split_runs sep true s'
      else match split_runs sep false s' with
           | h :: t => String c h :: t
           | [] => [String c EmptyString]
           end
  end.

(** [s.replace(c, new)] for a one-character [c]. *)
Fixpoint replace_char (c : ascii) (new : string) (s : string) : string :=
  match s with
  | EmptyString => EmptyString
  | String d s' =>
      if Ascii.eqb d c then new +:+ replace_char c new s'
      else String d (replace_char c new s')
  end.

(** [s[:n]] for [n >= 0]. *)
Fixpoint take_str (n : nat) (s : string) : string :=
  match n, s with
  | S n', String c s' => String c (take_str n' s')
  | _, _ => EmptyString
  end.

(** A byte that continues a character outside ASCII in UTF-8. *)
Definition is_continuation (c : ascii) : bool :=
  (128 <=? nat_of_ascii c)%nat && (nat_of_ascii c <? 192)%nat.

Fixpoint drop_continuation (s : string) : string :=
  match s with
  | EmptyString => EmptyString
  | String c s' => if is_continuation c then drop_continuation s' else s
  end.

(** [s[1:]]: the string without its first character.  A character
    outside ASCII is held as the bytes of its UTF-8 form, which go with
    it; on ASCII text this is the string without its first byte. *)
Definition drop_first (s : string) : string :=
  match s with
  | EmptyString => EmptyString
  | String _ s' => drop_continuation s'
  end.

(** [l[i:j]] for [0 <= i <= j]. *)
Definition slice {A} (i j : nat) (l : list A) : list A := take (j - i) (drop i l).

(** [range(0, stop, step)] for [stop >= 0]: [None] stands for the
    [ValueError] of a zero step; a negative step gives the empty range, a
    positive one the multiples of [step] below [stop]. *)
Definition range_from_zero (stop : nat) (step : Z) : option (list nat) :=
  if step =? 0 then None
  else if step <? 0 then Some []
  else
    let b := Z.to_nat step in
    Some ((fun k => k * b)%nat <$> seq 0 ((stop + b - 1) / b)%nat).

(** [d[k] = v] on a dict given as the list of its items in insertion
    order: the value of a key that is present is replaced in place, a new
    key goes to the end. *)
Fixpoint dict_set {V} (d : list (string * V)) (k : string) (v : V)
  : list (string * V) :=
  match d with
  | [] => [(k, v)]
  | (k', v') :: rest =>
      if String.eqb k' k then (k', v) :: rest
      else (k', v') :: dict_set rest k v
  end.

End PyMore.

(** ** The data model: article dicts and the analysis attached to them *)

(** The dict built by [_parse_quality_analysis] and by the two fallbacks;
    [raw_response] is [None] where the dict has no such key. *)
Record Analysis := mkAnalysis {
  quality_score : Z;
  relevance_score : Z;
  category : string;
  insights : list string;
  reason : string;
  llm_analysis : bool;
  raw_response : option string
}.

(** The keys of an article dict that the modelled code reads or writes.
    [title], [summary] and [source] are always set by the extractors;
    [url] is read with [article.get('url')], [None] standing for a missing
    key; [article_llm_analysis] and [final_score] are the keys
    ['llm_analysis'] and ['final_score'] that curation adds. *)
Record Article := mkArticle {
  title : string;
  summary : string;
  source : string;
  url : option string;
  article_llm_analysis : option Analysis;
  final_score : option Q
}.

(** Articles are mutable dicts held by reference. *)
Abbreviation loc := nat (only parsing).
Abbreviation store := (nat -> Article) (only parsing).

(** ** llm_test.py: OllamaManager *)

Module llm_test.

Definition with_quality_score (v : Z) (r : Analysis) : Analysis :=
  mkAnalysis v (relevance_score r) (category r) (insights r) (reason r)
             (llm_analysis r) (raw_response r).
Definition with_relevance_score (v : Z) (r : Analysis) : Analysis :=
  mkAnalysis (quality_score r) v (category r) (insights r) (reason r)
             (llm_analysis r) (raw_response r).
Definition with_category (v : string) (r : Analysis) : Analysis :=
  mkAnalysis (quality_score r) (relevance_score r) v (insights r) (reason r)
             (llm_analysis r) (raw_response r).
Definition with_insights (v : list string) (r : Analysis) : Analysis :=
  mkAnalysis (quality_score r) (relevance_score r) (category r) v (reason r)
             (llm_analysis r) (raw_response r).
Definition with_reason (v : string) (r : Analysis) : Analysis :=
  mkAnalysis (quality_score r) (relevance_score r) (category r) (insights r) v
             (llm_analysis r) (raw_response r).

(** The prefixes the branches of the loop body test for, in their order. *)
Definition field_prefixes : list string :=
  ["Quality:"; "Relevance:"; "Category:"; "Insights:"; "Reason:"].

(** The lines the loop runs over: [response.strip().split('\n')]. *)
Definition reply_lines (response : string) : list string :=
  Py.split "010" (Py.strip response).

(** [max(1, min(10, score))] *)
Definition clamp (score : Z) : Z := Z.max 1 (Z.min 10 score).

(** [int(line.split(':')[1].split('/')[0].strip())]; [None] when an index
    is out of range or the text is not an integer, the cases the
    surrounding [try] swallows. *)
Definition parse_score (line : string) : option Z :=
  v ← Py.split ":" line !! 1%nat;
  n ← Py.split "/" v !! 0%nat;
  Py.int (Py.strip n).

(** [line.split(':', 1)[1].strip()]; [None] stands for [IndexError], which
    is not caught around the text fields. *)
Definition parse_text (line : string) : option string :=
  v ← Py.split1 ":" line !! 1%nat;
  Some (Py.strip v).

(** The body of the loop over the lines of the reply; [None] when the body
    raises. *)
Definition parse_line (result : Analysis) (line : string) : option Analysis :=
  let line := Py.strip line in
  if Py.startswith "Quality:" line then
    match parse_score line with
    | Some score => Some (with_quality_score (clamp score) result)
    | None => Some result
    end
  else if Py.startswith "Relevance:" line then
    match parse_score line with
    | Some score => Some (with_relevance_score (clamp score) result)
    | None => Some result
    end
  else if Py.startswith "Category:" line then
    category ← parse_text line; Some (with_category category result)
  else if Py.startswith "Insights:" line then
    insights ← parse_text line; Some (with_insights [insights] result)
  else if Py.startswith "Reason:" line then
    reason ← parse_text line; Some (with_reason reason result)
  else Some result.

Fixpoint parse_lines (result : Analysis) (lines : list string) : option Analysis :=
  match lines with
  | [] => Some result
  | line :: rest => result' ← parse_line result line; parse_lines result' rest
  end.

(** The dict the parser starts from. *)
Definition initial_result (response : string) : Analysis :=
  mkAnalysis 5 5 "AI/ML" [] "" true (Some response).

(** The dict returned by the [except] branch of the parser. *)
Definition parse_error_result : Analysis :=
  mkAnalysis 5 5 "AI/ML" ["Parsing error"] "Failed to parse LLM response"
             false None.

Definition _parse_quality_analysis (response : string) (article : Article)
  : Analysis :=
  let lines := reply_lines response in
  match parse_lines (initial_result response) lines with
  | Some result => result
  | None => parse_error_result
  end.

(** The dict returned when the generation call gives nothing. *)
Definition fallback_result : Analysis :=
  mkAnalysis 5 5 "AI/ML" ["Unable to analyze with LLM"] "LLM analysis failed"
             false None.

Definition quality_prompt (article : Article) : string :=
  Py.nl +:+
  "Analyze this AI news article and provide a quality assessment:" +:+ Py.nl +:+
  Py.nl +:+
  "Title: " +:+ title article +:+ Py.nl +:+
  "Summary: " +:+ summary article +:+ Py.nl +:+
  "Source: " +:+ source article +:+ Py.nl +:+
  Py.nl +:+
  "Please evaluate on a scale of 1-10 and provide:" +:+ Py.nl +:+
  "1. Quality Score (1-10): Overall quality and value" +:+ Py.nl +:+
  "2. Relevance Score (1-10): How relevant to AI professionals" +:+ Py.nl +:+
  "3. Category: Research/Industry/Tools/Business/Tutorial" +:+ Py.nl +:+
  "4. Key Insights: 2-3 main takeaways" +:+ Py.nl +:+
  "5. Reason: Brief explanation of the scores" +:+ Py.nl +:+
  Py.nl +:+
  "Format your response as:" +:+ Py.nl +:+
  "Quality: X/10" +:+ Py.nl +:+
  "Relevance: X/10" +:+ Py.nl +:+
  "Category: [Category]" +:+ Py.nl +:+
  "Insights: [Key insights]" +:+ Py.nl +:+
  "Reason: [Brief explanation]" +:+ Py.nl.

(** [(quality_score + relevance_score) / 2]: true division of two integers
    by two, a half-integer that a float holds exactly. *)
Definition half_sum (analysis : Analysis) : Q :=
  Qred ((quality_score analysis + relevance_score analysis) # 2).

Definition set_analysis (analysis : Analysis) (a : Article) : Article :=
  mkArticle (title a) (summary a) (source a) (url a)
            (Some analysis) (Some (half_sum analysis)).

(** [x['final_score']] as read by the sort and by the selection; every
    article that went through the loop of [curate_articles] has the key. *)
Definition score (h : store) (article : loc) : Q :=
  default 0%Q (final_score (h article)).

Section WithService.

(** [generate_response]: the external generation service.  It is given
    the number of the call within the run and the prompt, and answers with
    the text of the reply, or [None] on any failure. *)
Variable generate_response : nat -> string -> option string.

Definition analyze_article_quality (call : nat) (article : Article) : Analysis :=
  match generate_response call (quality_prompt article) with
  | Some response =>
      if Py.is_empty response then fallback_result
      else _parse_quality_analysis response article
  | None => fallback_result
  end.

(** One round of the loop of [curate_articles]: the state is the number of
    calls made, the store and the list [curated_articles]. *)
Definition curate_step (st : nat * store * list loc) (article : loc)
  : nat * store * list loc :=
  let '(i, h, curated_articles) := st in
  let analysis := analyze_article_quality i (h article) in
  (S i, <[article := set_analysis analysis (h article)]> h,
   curated_articles ++ [article]).

Definition curate_articles (articles : list loc) (h : store)
  : list loc * store :=
  match articles with
  | [] => ([], h)
  | _ =>
      let '(_, h', curated_articles) := foldl curate_step (O, h, []) articles in
      (Py.sort_desc (fun y x => Qle_bool (score h' y) (score h' x))
                    curated_articles, h')
  end.

Definition select_top_articles (articles : list loc) (count : Z) (h : store)
  : list loc * store :=
  let '(curated, h') := curate_articles articles h in
  let high_quality := List.filter (fun art => Qle_bool 6 (score h' art)) curated in
  (Py.slice_to count high_quality, h').

(** One line of [article_summaries] in [summarize_trends]. *)
Definition trend_line (i : nat) (article : Article) : string :=
  Py.str_of_nat (i + 1) +:+ ". " +:+ title article +:+ " - " +:+ summary article.

Definition trends_prompt (articles : list Article) : string :=
  let article_summaries := imap trend_line (take 10 articles) in
  let articles_text := Py.join Py.nl article_summaries in
  Py.nl +:+
  "Analyze these AI news articles and identify the top 3 trends or themes:" +:+ Py.nl +:+
  Py.nl +:+
  articles_text +:+ Py.nl +:+
  Py.nl +:+
  "Please provide:" +:+ Py.nl +:+
  "1. Top 3 trends or themes you see across these articles" +:+ Py.nl +:+
  "2. Brief explanation of each trend" +:+ Py.nl +:+
  "3. Which articles support each trend" +:+ Py.nl +:+
  Py.nl +:+
  "Format as:" +:+ Py.nl +:+
  "Trend 1: [Trend name] - [Brief explanation]" +:+ Py.nl +:+
  "Trend 2: [Trend name] - [Brief explanation]  " +:+ Py.nl +:+
  "Trend 3: [Trend name] - [Brief explanation]" +:+ Py.nl.

Definition summarize_trends (call : nat) (articles : list Article) : string :=
  match articles with
  | [] => "No articles to analyze"
  | _ =>
      match generate_response call (trends_prompt articles) with
      | Some response =>
          if Py.is_empty response then "Unable to analyze trends" else response
      | None => "Unable to analyze trends"
      end
  end.

(** One round of the outer loop of [batch_analyze_articles], for the
    start index [i]; the inner loop has the body of the loop of
    [curate_articles] and fills [batch_analyzed]. *)
Definition batch_step (articles : list loc) (batch_size : nat)
           (st : nat * store * list loc) (i : nat) : nat * store * list loc :=
  let '(call, h, all_analyzed) := st in
  let batch := PyMore.slice i (i + batch_size) articles in
  let '(call', h', batch_analyzed) := foldl curate_step (call, h, []) batch in
  (call', h', all_analyzed ++ batch_analyzed).

(** [None] when the call raises (a batch size of zero). *)
Definition batch_analyze_articles (articles : list loc) (batch_size : Z) (h : store)
  : option (list loc * store) :=
  match articles with
  | [] => Some ([], h)
  | _ =>
      starts ← PyMore.range_from_zero (length articles) batch_size;
      let '(_, h', all_analyzed) :=
        foldl (batch_step articles (Z.to_nat batch_size)) (O, h, []) starts in
      Some (Py.sort_desc (fun y x => Qle_bool (score h' y) (score h' x))
                         all_analyzed, h')
  end.

End WithService.

End llm_test.

(** ** news_extractor.py: the two deduplication passes *)

Module news_extractor.

(** One round of the loop over [articles] at the end of
    [extract_from_website]; the state is [seen_urls], [unique_articles]. *)
Definition url_step (st : gset string * list Article) (article : Article)
  : gset string * list Article :=
  let '(seen_urls, unique_articles) := st in
  match url article with
  | Some u =>
      if negb (Py.is_empty u) && bool_decide (u ∉ seen_urls)
      then ({[u]} ∪ seen_urls, unique_articles ++ [article])
      else st
  | None => st
  end.

(** [unique_articles] of [extract_from_website], as handed to the content
    fetcher; under [if articles:] an empty list stays as it is. *)
Definition unique_articles_by_url (articles : list Article) : list Article :=
  match articles with
  | [] => articles
  | _ => (foldl url_step (∅, []) articles).2
  end.

(** One round of the loop over [articles] in [extract_multiple_sources];
    the state is [seen_titles], [unique_articles]. *)
Definition title_step (st : gset string * list Article) (article : Article)
  : gset string * list Article :=
  let '(seen_titles, unique_articles) := st in
  let title_lower := Py.lower (title article) in
  if bool_decide (title_lower ∉ seen_titles)
     && (15 <? String.length title_lower)%nat
  then ({[title_lower]} ∪ seen_titles, unique_articles ++ [article])
  else st.

(** [unique_articles] of [extract_multiple_sources]. *)
Definition unique_articles_by_title (articles : list Article) : list Article :=
  (foldl title_step (∅, []) articles).2.

(** The feeds known to [extract_from_website]. *)
Definition rss_urls : gmap string string :=
  {[ "kdnuggets" := "https://www.kdnuggets.com/feed";
     "the_new_stack" := "https://thenewstack.io/blog/ai/feed/" ]}.

Section FetchChain.

(** The three strategies and the content fetcher reach the network: each
    is given as what its one call returns for its arguments. *)
Variable extract_from_rss : string -> string -> list Article.
Variable extract_from_website_basic : string -> string -> list Article.
Variable extract_from_website_selenium : string -> string -> list Article.
Variable enhance_articles_with_content : list Article -> list Article.

(** [articles] of [extract_from_website] when the three methods are
    through. *)
Definition found_articles (url source_name : string) : list Article :=
  let articles :=
    match rss_urls !! source_name with
    | Some rss_url => extract_from_rss rss_url source_name
    | None => []
    end in
  let articles :=
    if (length articles <? 5)%nat
    then articles ++ extract_from_website_basic url source_name
    else articles in
  if (length articles <? 5)%nat
  then articles ++ extract_from_website_selenium url source_name
  else articles.

Definition extract_from_website (url source_name : string) : list Article :=
  let articles := found_articles url source_name in
  match articles with
  | [] => articles
  | _ => enhance_articles_with_content (unique_articles_by_url articles)
  end.

(** The per-source dict built by [extract_multiple_sources], without its
    time stamp. *)
Record ExtractionResult := mkExtractionResult {
  result_source : string;
  result_url : string;
  result_articles : list Article;
  article_count : nat;
  success : bool
}.

(** The body of the loop over the enabled sources, each a name with the
    url of its configuration. *)
Definition source_step (all_results : list (string * ExtractionResult))
           (item : string * string) : list (string * ExtractionResult) :=
  let '(source_name, source_url) := item in
  let articles := extract_from_website source_url source_name in
  let unique_articles := unique_articles_by_title articles in
  let result :=
    mkExtractionResult source_name source_url unique_articles
                       (length unique_articles)
                       (0 <? length unique_articles)%nat in
  PyMore.dict_set all_results source_name result.

(** [sources] is the value of [Config.get_enabled_sources()]. *)
Definition extract_multiple_sources (sources : list (string * string))
  : list (string * ExtractionResult) :=
  foldl source_step [] sources.

End FetchChain.

End news_extractor.

(** ** chroma_db.py: ChromaDBManager.detect_trends *)

Module chroma_db.

Definition ai_terms : list string :=
  [ "GPT"; "LLM"; "Large Language Model"; "ChatGPT"; "OpenAI";
    "machine learning"; "deep learning"; "neural network";
    "transformer"; "AI model"; "artificial intelligence";
    "computer vision"; "natural language processing"; "NLP" ].

(** [total_text] after the loop over the articles. *)
Definition total_text (articles : list Article) : string :=
  foldl (fun total article =>
           let article_text := Py.lower (title article +:+ " " +:+ summary article) in
           total +:+ article_text +:+ " ")
        EmptyString articles.

(** [term_counts] after the loop over [ai_terms]: the items of the dict in
    insertion order.  The terms are pairwise distinct, so every assignment
    adds a key at the end. *)
Definition term_counts (total_text : string) : list (string * nat) :=
  foldl (fun counts term =>
           let count := Py.count (Py.lower term) (Py.lower total_text) in
           if (2 <=? count)%nat then counts ++ [(term, count)] else counts)
        [] ai_terms.

Definition describe (item : string * nat) : string :=
  item.1 +:+ " developments (mentioned " +:+ Py.str_of_nat item.2 +:+ " times)".

Definition detect_trends (articles : list Article) : list string :=
  match articles with
  | [] => []
  | _ =>
      let items :=
        Py.sort_desc (fun y x => (y.2 <=? x.2)%nat)
                     (term_counts (total_text articles)) in
      describe <$> take 3 items
  end.

(** The metadata dict of a document, without its time stamp. *)
Record Metadata := mkMetadata {
  meta_title : string;
  meta_source : string;
  meta_author : string;
  meta_date : string;
  meta_url : string;
  meta_category : string
}.

(** The local variables of the loop of [add_articles]; [index] is the
    [i] of [enumerate]. *)
Record Batch := mkBatch {
  index : nat;
  documents : list string;
  metadatas : list Metadata;
  ids : list string;
  added_count : nat;
  skipped_count : nat
}.

(** The dict returned by [add_articles]; [None] stands for a key that the
    dict does not have. *)
Record AddResult := mkAddResult {
  success : bool;
  message : option string;
  error : option string;
  added : option nat;
  skipped : option nat;
  total_in_db : option nat
}.

Section WithCollection.

(** [datetime.now().strftime('%Y%m%d')] in round [i] of the loop. *)
Variable today : nat -> string.

(** [self.collection.add(...)] followed by [self.collection.count()]: the
    count, or the text of the exception raised. *)
Variable collection_add :
  list string -> list Metadata -> list string -> string + nat.

(** One round of the loop; the article dicts hold strings under the keys
    read here. *)
Definition prepare_step (b : Batch) (article : gmap string string) : Batch :=
  let i := index b in
  let title := default EmptyString (article !! "title") in
  let summary := default EmptyString (article !! "summary") in
  if Py.is_empty title then
    mkBatch (S i) (documents b) (metadatas b) (ids b)
            (added_count b) (S (skipped_count b))
  else
    let doc_text := Py.strip (title +:+ ". " +:+ summary) in
    let article_id :=
      default "unknown" (article !! "source") +:+ "_" +:+ today i +:+ "_"
      +:+ Py.str_of_nat i in
    let metadata :=
      mkMetadata title
                 (default EmptyString (article !! "source"))
                 (default EmptyString (article !! "author"))
                 (default EmptyString (article !! "date"))
                 (default EmptyString (article !! "url"))
                 (default "AI/ML" (article !! "category")) in
    mkBatch (S i) (documents b ++ [doc_text]) (metadatas b ++ [metadata])
            (ids b ++ [article_id]) (S (added_count b)) (skipped_count b).

(** The lists and counters when the loop is through. *)
Definition prepared (articles : list (gmap string string)) : Batch :=
  foldl prepare_step (mkBatch O [] [] [] O O) articles.

Definition add_articles (articles : list (gmap string string)) : AddResult :=
  match articles with
  | [] => mkAddResult false (Some "No articles provided") None None None None
  | _ =>
      let b := prepared articles in
      match documents b with
      | [] => mkAddResult false (Some "No valid articles to add") None None None None
      | _ =>
          match collection_add (documents b) (metadatas b) (ids b) with
          | inr total =>
              mkAddResult true None None (Some (added_count b))
                          (Some (skipped_count b)) (Some total)
          | inl e => mkAddResult false None (Some e) None None None
          end
      end
  end.

End WithCollection.

End chroma_db.

(** ** enhanced_content_fetcher.py: SmartContentFetcher._extract_article_text *)

Module enhanced_content_fetcher.

(** A parsed document: text nodes and elements with a tag name, the
    values of the class attribute and the child nodes.  The soup itself is
    the element named [[document]]. *)
#[warnings="-register-all"]
Inductive node :=
| NavigableString (s : string)
| Tag (name : string) (classes : list string) (children : list node).

(** The selectors in use: a tag name, or [.cls]. *)
Inductive selector :=
| ByTag (name : string)
| ByClass (cls : string).

(** The elements and text nodes below a node, in document order. *)
Fixpoint descendants (n : node) : list node :=
  match n with
  | NavigableString _ => []
  | Tag _ _ children => flat_map (fun c => c :: descendants c) children
  end.

(** The text nodes at or below a node, in document order. *)
Fixpoint all_strings (n : node) : list string :=
  match n with
  | NavigableString s => [s]
  | Tag _ _ children => flat_map all_strings children
  end.

(** [elem.get_text(separator, strip)]: with [strip], every piece is
    stripped and the empty ones are left out. *)
Definition get_text (separator : string) (strip : bool) (n : node) : string :=
  Py.join separator
    (if strip
     then List.filter (fun s => negb (Py.is_empty s)) (Py.strip <$> all_strings n)
     else all_strings n).

Definition matches (sel : selector) (n : node) : bool :=
  match n, sel with
  | Tag name _ _, ByTag t => String.eqb name t
  | Tag _ classes _, ByClass c => existsb (String.eqb c) classes
  | NavigableString _, _ => false
  end.

(** [soup.select_one(selector)] *)
Definition select_one (sel : selector) (soup : node) : option node :=
  List.find (matches sel) (descendants soup).

(** [soup.find_all(names)] *)
Definition find_all (names : list string) (soup : node) : list node :=
  List.filter (fun n => match n with
                        | Tag name _ _ => existsb (String.eqb name) names
                        | NavigableString _ => false
                        end)
              (descendants soup).

Definition content_selectors : list selector :=
  [ ByTag "article"; ByClass "article-content"; ByClass "post-content";
    ByClass "entry-content"; ByClass "content"; ByClass "main-content";
    ByTag "main"; ByClass "story-body"; ByClass "article-body";
    ByClass "post-body" ].

(** Strategy 1: the loop over the selectors; [Some text] when it
    returns. *)
Fixpoint strategy1 (soup : node) (selectors : list selector) : option string :=
  match selectors with
  | [] => None
  | sel :: rest =>
      match select_one sel soup with
      | Some content_elem =>
          let text := get_text " " true content_elem in
          if (200 <? String.length text)%nat then Some text
          else strategy1 soup rest
      | None => strategy1 soup rest
      end
  end.

(** Strategy 2: [full_text]. *)
Definition full_text (soup : node) : string :=
  let all_text_elements := find_all ["p"; "div"] soup in
  let text_blocks :=
    List.filter (fun text => (50 <? String.length text)%nat)
                (get_text "" true <$> all_text_elements) in
  Py.join " " text_blocks.

(** Strategy 3: [para_text]. *)
Definition para_text (soup : node) : string :=
  Py.join " " (get_text "" true <$> find_all ["p"] soup).

Definition no_content : string := "No content extracted".

Definition _extract_article_text (soup : node) : string :=
  match strategy1 soup content_selectors with
  | Some text => text
  | None =>
      if (200 <? String.length (full_text soup))%nat then full_text soup
      else if Py.is_empty (para_text soup) then no_content
      else para_text soup
  end.

(** The soup of a document holding the given top-level nodes. *)
Definition document (children : list node) : node :=
  Tag "[document]" [] children.

Definition title_selectors : list selector :=
  [ ByTag "h1"; ByClass "article-title"; ByClass "post-title";
    ByClass "entry-title"; ByTag "title" ].

(** The loop of [_extract_title]; [Some title] when it returns. *)
Fixpoint title_loop (soup : node) (selectors : list selector) : option string :=
  match selectors with
  | [] => None
  | sel :: rest =>
      match select_one sel soup with
      | Some title_elem =>
          let title := get_text EmptyString true title_elem in
          if (10 <? String.length title)%nat then Some title
          else title_loop soup rest
      | None => title_loop soup rest
      end
  end.

Definition _extract_title (soup : node) : string :=
  match title_loop soup title_selectors with
  | Some title => title
  | None => "No title found"
  end.

(** The characters of the class [[.!?]]. *)
Definition is_sentence_end (c : ascii) : bool :=
  match c with
  | "." | "!" | "?" => true
  | _ => false
  end%char.

(** The condition under which a sentence goes to [good_sentences]. *)
Definition good_sentence (sentence : string) : bool :=
  (30 <? String.length sentence)%nat
  && (5 <? length (PyMore.split_ws sentence))%nat
  && negb (existsb (fun p => Py.startswith p (Py.lower sentence))
                   ["click"; "subscribe"; "follow"; "read more"]).

Definition _generate_summary (content : string) : string :=
  if Py.is_empty content || (String.length content <? 100)%nat
  then "No summary available"
  else
    let sentences := PyMore.split_runs is_sentence_end false content in
    let good_sentences := List.filter good_sentence (Py.strip <$> sentences) in
    let summary_sentences := take 3 good_sentences in
    let summary := Py.join ". " summary_sentences in
    let summary :=
      if (300 <? String.length summary)%nat
      then PyMore.take_str 300 summary +:+ "..."
      else summary in
    if Py.is_empty summary then PyMore.take_str 300 content +:+ "..."
    else summary.

(** The names of the elements that [extract_full_article_content]
    removes from the soup. *)
Definition unwanted_tags : list string :=
  [ "script"; "style"; "nav"; "header"; "footer"; "aside"; "iframe";
    "advertisement"; "sidebar"; "menu" ].

(** The tree after [element.decompose()] on every element with one of
    the names. *)
Fixpoint decompose_all (names : list string) (n : node) : node :=
  match n with
  | NavigableString _ => n
  | Tag name classes children =>
      Tag name classes
          (flat_map (fun c => match c with
                              | Tag child_name _ _ =>
                                  if existsb (String.eqb child_name) names then []
                                  else [decompose_all names c]
                              | NavigableString _ => [c]
                              end)
                    children)
  end.

(** The dict returned by [extract_full_article_content], without its time
    stamp; [None] stands for a key that the dict does not have. *)
Record ContentData := mkContentData {
  data_success : bool;
  data_error : option string;
  data_title : string;
  data_content : string;
  data_summary : string;
  data_author : option string;
  data_date : option string;
  data_url : option string;
  data_word_count : option nat
}.

(** What a request for a page gives: the parsed soup, and what
    [_extract_author] and [_extract_date] read from it, attributes
    included. *)
Record Page := mkPage {
  page_soup : node;
  page_author : string;
  page_date : string
}.

(** The keys that [enhance_articles_with_content] adds to an article
    dict. *)
Record Enhancement := mkEnhancement {
  content : option string;
  author : option string;
  date : option string;
  word_count : option nat;
  content_extracted : option bool;
  extraction_error : option string
}.

(** The update of the keys title and summary. *)
Definition set_title_summary (new_title new_summary : string) (a : Article)
  : Article :=
  mkArticle new_title new_summary (source a) (url a)
            (article_llm_analysis a) (final_score a).

Section WithNetwork.

(** The request of a page, with the number of the request within the run:
    the page, or the text of the exception raised. *)
Variable fetch : nat -> string -> Page + string.

(** [_clean_text], a function of the text alone. *)
Variable _clean_text : string -> string.

Definition extract_full_article_content (call : nat) (url title : string)
  : ContentData :=
  if Py.is_empty url then
    mkContentData false (Some "No URL provided") title EmptyString EmptyString
                  None None None None
  else
    match fetch call url with
    | inl page =>
        let soup := decompose_all unwanted_tags (page_soup page) in
        let content := _extract_article_text soup in
        let title := if Py.is_empty title then _extract_title soup else title in
        let author := page_author page in
        let date := page_date page in
        let summary := _generate_summary content in
        let content := _clean_text content in
        mkContentData true None title content summary (Some author) (Some date)
                      (Some url) (Some (length (PyMore.split_ws content)))
    | inr e =>
        mkContentData false (Some e) title EmptyString EmptyString
                      None None (Some url) None
    end.

(** One round of the loop of [enhance_articles_with_content]; the state is
    the number of requests made, the two parts of the article dicts and the
    list [enhanced_articles]. *)
Definition enhance_step
           (st : nat * store * (loc -> Enhancement) * list loc) (article : loc)
  : nat * store * (loc -> Enhancement) * list loc :=
  let '(calls, h, e, enhanced_articles) := st in
  let url := default EmptyString (url (h article)) in
  let title := title (h article) in
  if Py.is_empty url || PyMore.contains "/categories/" url then
    (calls, h, e, enhanced_articles ++ [article])
  else
    let content_data := extract_full_article_content calls url title in
    if data_success content_data then
      (S calls,
       <[article :=
           set_title_summary
             (if Py.is_empty (data_title content_data) then title
              else data_title content_data)
             (data_summary content_data) (h article)]> h,
       <[article :=
           mkEnhancement (Some (PyMore.take_str 2000 (data_content content_data)))
                         (data_author content_data) (data_date content_data)
                         (data_word_count content_data) (Some true)
                         (extraction_error (e article))]> e,
       enhanced_articles ++ [article])
    else
      (S calls, h,
       <[article :=
           mkEnhancement (content (e article)) (author (e article))
                         (date (e article)) (word_count (e article))
                         (Some false) (data_error content_data)]> e,
       enhanced_articles ++ [article]).

Definition enhance_articles_with_content
           (articles : list loc) (h : store) (e : loc -> Enhancement)
  : list loc * store * (loc -> Enhancement) :=
  let '(_, h', e', enhanced_articles) :=
    foldl enhance_step (O, h, e, []) articles in
  (enhanced_articles, h', e').

End WithNetwork.

End enhanced_content_fetcher.

(** ** utils.py *)

Module utils.

Definition clean_text (text : string) : string :=
  if Py.is_empty text then EmptyString
  else
    let cleaned := Py.strip text in
    let cleaned :=
      PyMore.replace_char "013" EmptyString
        (PyMore.replace_char "010" " " cleaned) in
    Py.join " " (PyMore.split_ws cleaned).

Definition required_fields : list string := ["title"].
Definition optional_fields : list string := ["summary"; "url"; "source"; "date"].

(** [article.get(field)] is falsy: the key is missing or holds the empty
    string. *)
Definition falsy (article : gmap string string) (field : string) : bool :=
  match article !! field with
  | Some v => Py.is_empty v
  | None => true
  end.

(** One round of the cleaning loop: a key that is present is cleaned. *)
Definition clean_field (article : gmap string string) (field : string)
  : gmap string string :=
  match article !! field with
  | Some v => <[field := clean_text v]> article
  | None => article
  end.

(** [validate_article] on a dict of strings: the value returned and the
    dict as the call leaves it. *)
Definition validate_article (article : gmap string string)
  : bool * gmap string string :=
  if existsb (falsy article) required_fields then (false, article)
  else (true, foldl clean_field article (required_fields ++ optional_fields)).

(** One round of the loop of [deduplicate_articles]; the state is
    [seen_titles], [unique_articles]. *)
Definition deduplicate_step (st : gset string * list (gmap string string))
           (article : gmap string string)
  : gset string * list (gmap string string) :=
  let '(seen_titles, unique_articles) := st in
  let title := Py.strip (Py.lower (default EmptyString (article !! "title"))) in
  if negb (Py.is_empty title) && bool_decide (title ∉ seen_titles)
  then ({[title]} ∪ seen_titles, unique_articles ++ [article])
  else st.

Definition deduplicate_articles (articles : list (gmap string string))
  : list (gmap string string) :=
  (foldl deduplicate_step (∅, []) articles).2.

End utils.

(** ** enhanced_report_generator.py: parse_detailed_insights *)

Module enhanced_report_generator.

Record Insights := mkInsights {
  takeaways : list string;
  business_impact : string;
  technical_details : string;
  action_items : list string;
  raw_response : string
}.

(** The values of [current_section]; [None] is Python's [None]. *)
Inductive section_name :=
| in_takeaways
| in_business_impact
| in_technical_details
| in_action_items.

(** The first marker of the tuple in [line.startswith((marker, '-'))]:
    the three characters U+00E2, U+20AC, U+00A2 of the source text, held
    as the seven bytes of their UTF-8 form, two of them for the first
    character. *)
Definition bullet_marker : string :=
  String "195" (String "162"
    (String "226" (String "130" (String "172"
      (String "194" (String "162" EmptyString)))))).

(** The test for a bullet line. *)
Definition is_bullet (line : string) : bool :=
  Py.startswith bullet_marker line || Py.startswith "-" line.

(** The body of the loop over the lines of the reply. *)
Definition insights_step (st : option section_name * Insights) (line : string)
  : option section_name * Insights :=
  let '(current_section, insights) := st in
  let line := Py.strip line in
  if PyMore.contains "TAKEAWAYS:" (PyMore.upper line) then
    (Some in_takeaways, insights)
  else if PyMore.contains "BUSINESS IMPACT:" (PyMore.upper line) then
    (Some in_business_impact, insights)
  else if PyMore.contains "TECHNICAL DETAILS:" (PyMore.upper line) then
    (Some in_technical_details, insights)
  else if PyMore.contains "ACTION ITEMS:" (PyMore.upper line) then
    (Some in_action_items, insights)
  else if is_bullet line then
    let bullet_text := Py.strip (PyMore.drop_first line) in
    match current_section with
    | Some in_takeaways =>
        (current_section,
         mkInsights (takeaways insights ++ [bullet_text]) (business_impact insights)
                    (technical_details insights) (action_items insights)
                    (raw_response insights))
    | Some in_action_items =>
        (current_section,
         mkInsights (takeaways insights) (business_impact insights)
                    (technical_details insights)
                    (action_items insights ++ [bullet_text])
                    (raw_response insights))
    | _ => st
    end
  else if negb (Py.is_empty line) then
    match current_section with
    | Some in_business_impact =>
        (current_section,
         mkInsights (takeaways insights)
                    (business_impact insights +:+ line +:+ " ")
                    (technical_details insights) (action_items insights)
                    (raw_response insights))
    | Some in_technical_details =>
        (current_section,
         mkInsights (takeaways insights) (business_impact insights)
                    (technical_details insights +:+ line +:+ " ")
                    (action_items insights) (raw_response insights))
    | _ => st
    end
  else st.

Definition parse_detailed_insights (response : string) : Insights :=
  let insights := mkInsights [] EmptyString EmptyString [] response in
  let '(_, insights) :=
    foldl insights_step (None, insights) (Py.split "010" response) in
  mkInsights (takeaways insights) (Py.strip (business_impact insights))
             (Py.strip (technical_details insights)) (action_items insights)
             (raw_response insights).

End enhanced_report_generator.

(** ** main_pipeline.py *)

Module main_pipeline.

(** The keys of a per-source result that [process_and_filter_articles]
    reads; a missing key is [false], respectively the empty list. *)
Record SourceResult := mkSourceResult {
  success : bool;
  articles : list loc
}.

(** The body of the loop over [extraction_results.items()]. *)
Definition collect_step (all_articles : list loc) (item : string * SourceResult)
  : list loc :=
  let '(source_name, result) := item in
  if success result && negb (bool_decide (articles result = []))
  then all_articles ++ articles result
  else all_articles.

Section WithServices.

Variable generate_response : nat -> string -> option string.

(** The write of the selected articles to a JSON file under data/:
    [false] when it raises. *)
Variable save_processed : list loc -> store -> bool.

(** The dict of results is the list of its items in insertion order.
    An exception inside the [try] can come from the write only, after the
    selection has scored the articles. *)
Definition process_and_filter_articles
           (extraction_results : list (string * SourceResult)) (h : store)
  : list loc * store :=
  let all_articles := foldl collect_step [] extraction_results in
  match all_articles with
  | [] => ([], h)
  | _ =>
      let '(top_articles, h') :=
        llm_test.select_top_articles generate_response all_articles 15 h in
      if save_processed top_articles h' then (top_articles, h')
      else (take 10 all_articles, h')
  end.

End WithServices.

End main_pipeline.

(** ** Auxiliary definitions for the statements and proofs *)

(** Both scores lie between 1 and 10. *)
Definition in_range (r : Analysis) : Prop :=
  (1 <= quality_score r <= 10) /\ (1 <= relevance_score r <= 10).

(** What a line leaves as it was. *)
Definition spares_quality (line : string) : Prop :=
  Py.startswith "Quality:" (Py.strip line) = true ->
  llm_test.parse_score (Py.strip line) = None.
Definition spares_relevance (line : string) : Prop :=
  Py.startswith "Relevance:" (Py.strip line) = true ->
  llm_test.parse_score (Py.strip line) = None.
Definition spares (p : string) (line : string) : Prop :=
  Py.startswith p (Py.strip line) = false.

(** The article at a location carries an analysis and the final score
    computed from it. *)
Definition scored (h : nat -> Article) (a : nat) : Prop :=
  exists analysis,
    article_llm_analysis (h a) = Some analysis
    /\ final_score (h a) = Some (llm_test.half_sum analysis).

Section FirstOccurrenceDefs.
Context {A : Type} (key : A -> string) (keep : A -> bool).

(** The common shape of the two deduplication loops. *)
Definition dedup_step (st : gset string * list A) (a : A) : gset string * list A :=
  let '(seen, unique) := st in
  if keep a && bool_decide (key a ∉ seen)
  then ({[key a]} ∪ seen, unique ++ [a])
  else st.

(** The list such a loop builds, by recursion on its input. *)
Fixpoint first_kept (seen : gset string) (l : list A) : list A :=
  match l with
  | [] => []
  | a :: l' =>
      if keep a && bool_decide (key a ∉ seen)
      then a :: first_kept ({[key a]} ∪ seen) l'
      else first_kept seen l'
  end.

End FirstOccurrenceDefs.

(** The key and the condition of the URL pass and of the title pass. *)
Definition url_key (a : Article) : string := default EmptyString (url a).
Definition url_keep (a : Article) : bool :=
  match url a with
  | Some u => negb (Py.is_empty u)
  | None => false
  end.
Definition title_key (a : Article) : string := Py.lower (title a).
Definition title_keep (a : Article) : bool :=
  (15 <? String.length (Py.lower (title a)))%nat.

(** Elements that the order does not tell apart from [k]. *)
Definition ranked_with {A} (leb : A -> A -> bool) (k : A) (a : A) : bool :=
  leb a k && leb k a.

(** The soup of a document that holds one paragraph with one piece of
    text. *)
Definition one_paragraph (classes : list string) (s : string) : enhanced_content_fetcher.node :=
  enhanced_content_fetcher.document
    [enhanced_content_fetcher.Tag "p" classes
       [enhanced_content_fetcher.NavigableString s]].

(** Two article dicts agree on the keys that curation does not set. *)
Definition same_content (a b : Article) : Prop :=
  title a = title b /\ summary a = summary b
  /\ source a = source b /\ url a = url b.

(** Every character of a string passes a test. *)
Fixpoint all_chars (p : ascii -> bool) (s : string) : bool :=
  match s with
  | EmptyString => true
  | String c s' => p c && all_chars p s'
  end.

(** A word: not empty, and without whitespace. *)
Definition is_word (w : string) : Prop :=
  w <> EmptyString /\ all_chars (fun c => negb (Py.is_space c)) w = true.

(** The string is empty or ends with a character that is not
    whitespace. *)
Fixpoint ends_well (s : string) : bool :=
  match s with
  | EmptyString => true
  | String c EmptyString => negb (Py.is_space c)
  | String _ s' => ends_well s'
  end.

(** The key and the condition of [utils.deduplicate_articles]. *)
Definition dict_title_key (article : gmap string string) : string :=
  Py.strip (Py.lower (default EmptyString (article !! "title"))).
Definition dict_title_keep (article : gmap string string) : bool :=
  negb (Py.is_empty (dict_title_key article)).

(** A selector gives [_extract_title] no title: it selects nothing, or
    the text of the element it selects has at most 10 characters. *)
Definition no_title_from (soup : enhanced_content_fetcher.node)
           (sel : enhanced_content_fetcher.selector) : Prop :=
  match enhanced_content_fetcher.select_one sel soup with
  | Some elem =>
      (String.length (enhanced_content_fetcher.get_text EmptyString true elem)
       <= 10)%nat
  | None => True
  end.

(** The section a stripped line of the insights reply opens, by the four
    tests of the loop in their order. *)
Definition section_header (line : string)
  : option enhanced_report_generator.section_name :=
  if PyMore.contains "TAKEAWAYS:" (PyMore.upper line) then
    Some enhanced_report_generator.in_takeaways
  else if PyMore.contains "BUSINESS IMPACT:" (PyMore.upper line) then
    Some enhanced_report_generator.in_business_impact
  else if PyMore.contains "TECHNICAL DETAILS:" (PyMore.upper line) then
    Some enhanced_report_generator.in_technical_details
  else if PyMore.contains "ACTION ITEMS:" (PyMore.upper line) then
    Some enhanced_report_generator.in_action_items
  else None.

(** A line of the reply that reaches the bullet branch, and the text the
    branch stores for it. *)
Definition item_line (line : string) : bool :=
  match section_header (Py.strip line) with
  | Some _ => false
  | None => enhanced_report_generator.is_bullet (Py.strip line)
  end.
Definition bullet_text (line : string) : string :=
  Py.strip (PyMore.drop_first (Py.strip line)).

(** The section that is open after some lines of the reply: the one of
    the last line among them that holds a header. *)
Definition section_step (current : option enhanced_report_generator.section_name)
           (line : string) : option enhanced_report_generator.section_name :=
  match section_header (Py.strip line) with
  | Some s => Some s
  | None => current
  end.
Definition current_section (lines : list string)
  : option enhanced_report_generator.section_name :=
  foldl section_step None lines.

(** Two results of [parse_detailed_insights] that agree on the four
    parsed fields. *)
Definition same_insights (a b : enhanced_report_generator.Insights) : Prop :=
  enhanced_report_generator.takeaways a = enhanced_report_generator.takeaways b
  /\ enhanced_report_generator.business_impact a
     = enhanced_report_generator.business_impact b
  /\ enhanced_report_generator.technical_details a
     = enhanced_report_generator.technical_details b
  /\ enhanced_report_generator.action_items a
     = enhanced_report_generator.action_items b.

(** The articles of the sources that report success, in the order of the
    results. *)
Definition from_successful_sources
           (extraction_results : list (string * main_pipeline.SourceResult))
  : list loc :=
  concat ((fun item : string * main_pipeline.SourceResult =>
             if main_pipeline.success item.2 then main_pipeline.articles item.2
             else []) <$> extraction_results).

(** The test under which [enhance_articles_with_content] leaves an
    article alone: no url, or a url of a category page. *)
Definition bad_url (a : Article) : bool :=
  Py.is_empty (default EmptyString (url a))
  || PyMore.contains "/categories/" (default EmptyString (url a)).

(** Title and summary as a successful fetch leaves them. *)
Definition enhanced_ok (a : Article) : Prop :=
  title a <> EmptyString /\ summary a <> EmptyString
  /\ (String.length (summary a) <= 303)%nat.

(** Two article dicts agree on the keys that enhancement never writes. *)
Definition same_origin (a b : Article) : Prop :=
  url a = url b /\ source a = source b
  /\ article_llm_analysis a = article_llm_analysis b
  /\ final_score a = final_score b.

(** An element with one of the names, and what [decompose_all] keeps of
    a child. *)
Definition is_named (names : list string) (n : enhanced_content_fetcher.node)
  : bool :=
  match n with
  | enhanced_content_fetcher.Tag name _ _ => existsb (String.eqb name) names
  | enhanced_content_fetcher.NavigableString _ => false
  end.
Definition kept_child (names : list string) (c : enhanced_content_fetcher.node)
  : list enhanced_content_fetcher.node :=
  if is_named names c then []
  else [enhanced_content_fetcher.decompose_all names c].

(** An article dict with a title that is not empty, and the document
    text [add_articles] builds for it. *)
Definition titled (article : gmap string string) : bool :=
  negb (Py.is_empty (default EmptyString (article !! "title"))).
Definition doc_text (article : gmap string string) : string :=
  Py.strip (default EmptyString (article !! "title") +:+ ". "
            +:+ default EmptyString (article !! "summary")).

(** The character is not the underscore. *)
Definition not_underscore (c : ascii) : bool := negb (Ascii.eqb c "_").

(** An id that ends with an underscore and the number of a round before
    round [n]. *)
Definition numbered_below (n : nat) (id : string) : Prop :=
  exists p k, (k < n)%nat /\ id = p +:+ String "_" (Py.str_of_nat k).

(** The insights with another reply in [raw_response]. *)
Definition with_raw (r : string) (ins : enhanced_report_generator.Insights)
  : enhanced_report_generator.Insights :=
  enhanced_report_generator.mkInsights
    (enhanced_report_generator.takeaways ins)
    (enhanced_report_generator.business_impact ins)
    (enhanced_report_generator.technical_details ins)
    (enhanced_report_generator.action_items ins) r.

(** ** Sample inputs *)

(** A page with a script and one short paragraph, and a network that
    serves it for every request. *)
Definition sample_page : enhanced_content_fetcher.Page :=
  enhanced_content_fetcher.mkPage
    (enhanced_content_fetcher.document
       [ enhanced_content_fetcher.Tag "script" []
           [enhanced_content_fetcher.NavigableString "var tracking = 1;"];
         enhanced_content_fetcher.Tag "p" []
           [enhanced_content_fetcher.NavigableString "Short note."] ])
    "A. Writer" "2024-05-01".
Definition sample_fetch (call : nat) (site : string)
  : enhanced_content_fetcher.Page + string :=
  inl sample_page.

(** An insights reply with bullets of both markers, one of them before
    the first header. *)
Definition sample_bullets_reply : string :=
  "- too early" +:+ Py.nl +:+
  "TAKEAWAYS:" +:+ Py.nl +:+
  enhanced_report_generator.bullet_marker +:+ " First" +:+ Py.nl +:+
  "- Second" +:+ Py.nl +:+
  "Action items:" +:+ Py.nl +:+
  "-Act".

(** An insights reply with two lines before its first header, and the
    same reply without them. *)
Definition sample_insights_tail : string :=
  "Key Takeaways:
- first point".
Definition sample_insights_reply : string :=
  "- early bullet
a note
" +:+ sample_insights_tail.

(** A reply in which fields repeat and a score does not parse. *)
Definition sample_reply : string :=
  "Quality: 3/10" +:+ Py.nl +:+
  "Category: Tools" +:+ Py.nl +:+
  "Quality: 8/10" +:+ Py.nl +:+
  "Relevance: 12" +:+ Py.nl +:+
  "Category: Research" +:+ Py.nl +:+
  "Reason: first" +:+ Py.nl +:+
  "Quality: high" +:+ Py.nl +:+
  "Reason: second".

(** A service for the examples: the first call fails, the second replies
    with text that has no field, the third with [sample_reply], the
    others with an empty reply. *)
Definition sample_service (call : nat) (prompt : string) : option string :=
  match call with
  | 0%nat => None
  | 1%nat => Some "I cannot rate this article."
  | 2%nat => Some sample_reply
  | _ => Some EmptyString
  end.

Definition sample_article : Article :=
  mkArticle "OpenAI Releases GPT-4.5 with Enhanced Reasoning"
            "OpenAI announces significant improvements." "test"
            (Some "https://example.org/a") None None.

Definition sample_store : nat -> Article := fun _ => sample_article.

(** Candidates of one source, as the fetch chain may merge them. *)
Definition candidate (t u : string) : Article :=
  mkArticle t EmptyString "the_new_stack" (Some u) None None.

Definition sample_candidates : list Article :=
  [ candidate "Agents in production: lessons" "https://example.org/agents";
    candidate "Vector databases compared" "https://example.org/vectors";
    candidate "Agents in production (feed)" "https://example.org/agents";
    candidate "Short" "https://example.org/short";
    candidate "VECTOR DATABASES COMPARED" "https://example.org/vectors-2" ].

(** A corpus in which GPT occurs three times across two articles and NLP
    once. *)
Definition sample_corpus : list Article :=
  [ mkArticle "GPT-4 is out" "The new GPT model" "openai_blog" None None None;
    mkArticle "NLP news" "Why GPT matters" "kdnuggets" None None None ].

(** Sixty characters of text, laid out with blanks around them. *)
Definition sample_paragraph : string :=
  "  Researchers report a new sparse attention kernel for the GPU  ".

(** * Properties *)

(** ** The string primitives on examples *)

Example strip_example :
  Py.strip "  Quality: 8/10  " = "Quality: 8/10"
  /\ Py.strip (Py.nl +:+ " " +:+ Py.nl) = EmptyString.
Proof. split; reflexivity. Qed.

Example split_example :
  Py.split ":" "Quality: 8/10" = ["Quality"; " 8/10"]
  /\ Py.split ":" "a::b" = ["a"; EmptyString; "b"]
  /\ Py.split ":" EmptyString = [EmptyString]
  /\ Py.split1 ":" "Reason: a: b" = ["Reason"; " a: b"]
  /\ Py.split1 ":" "no colon" = ["no colon"].
Proof. repeat split; reflexivity. Qed.

Example int_example :
  Py.int " 8 " = Some 8 /\ Py.int "-3" = Some (-3) /\ Py.int "+07" = Some 7
  /\ Py.int "1_0" = Some 10 /\ Py.int "1__0" = None /\ Py.int "_1" = None
  /\ Py.int "8 out of 10" = None /\ Py.int "8.5" = None
  /\ Py.int EmptyString = None /\ Py.int "-" = None.
Proof. repeat split; reflexivity. Qed.

Example count_example :
  Py.count "gpt" "gpt chatgpt gp gptgpt" = 4%nat
  /\ Py.count "aa" "aaaaa" = 2%nat
  /\ Py.count "l" EmptyString = 0%nat.
Proof. repeat split; reflexivity. Qed.

Example lower_example : Py.lower "ChatGPT & NLP: 4.5" = "chatgpt & nlp: 4.5".
Proof. reflexivity. Qed.

Example slice_to_example :
  Py.slice_to 2 [1; 2; 3] = [1; 2] /\ Py.slice_to 5 [1; 2; 3] = [1; 2; 3]
  /\ Py.slice_to (-1) [1; 2; 3] = [1; 2] /\ Py.slice_to (-5) [1; 2; 3] = [].
Proof. repeat split; reflexivity. Qed.

Example sort_desc_example :
  Py.sort_desc (fun y x : string * nat => (y.2 <=? x.2)%nat)
               [("a", 2); ("b", 5); ("c", 2); ("d", 5); ("e", 3)]%nat
  = [("b", 5); ("d", 5); ("e", 3); ("a", 2); ("c", 2)]%nat.
Proof. reflexivity. Qed.

(** ** Facts about the string primitives *)

Section PyFacts.

Lemma startswith_inv (p s : string) :
  Py.startswith p s = true -> exists rest, s = p +:+ rest.
Proof.
  revert s. induction p as [|c p IH]; intros s H.
  - exists s. reflexivity.
  - destruct s as [|d s]; [discriminate|].
    cbn in H. destruct (ascii_dec c d) as [->|]; [|discriminate].
    destruct (IH _ H) as [rest ->]. exists rest. reflexivity.
Qed.

Lemma startswith_app (p rest : string) : Py.startswith p (p +:+ rest) = true.
Proof.
  induction p as [|c p IH].
  - destruct rest; reflexivity.
  - change (String c p +:+ rest) with (String c (p +:+ rest)). cbn.
    destruct (ascii_dec c c); [exact IH|congruence].
Qed.

Lemma startswith_lower (p s : string) :
  Py.startswith p s = true -> Py.startswith (Py.lower p) (Py.lower s) = true.
Proof.
  revert s. induction p as [|c p IH]; intros s H.
  - destruct s; reflexivity.
  - destruct s as [|d s]; [discriminate|].
    cbn in H. destruct (ascii_dec c d) as [->|]; [|discriminate].
    cbn. destruct (ascii_dec _ _); [auto|congruence].
Qed.

(** Two prefixes of one string are prefixes of one another. *)
Lemma startswith_both (p q s : string) :
  Py.startswith p s = true -> Py.startswith q s = true ->
  Py.startswith p q = true \/ Py.startswith q p = true.
Proof.
  revert q s. induction p as [|c p IH]; intros q s Hp Hq.
  - left. destruct q; reflexivity.
  - destruct q as [|d q]; [right; reflexivity|].
    destruct s as [|e s]; [discriminate|].
    cbn in Hp, Hq |- *.
    destruct (ascii_dec c e) as [->|]; [|discriminate].
    destruct (ascii_dec d e) as [->|]; [|discriminate].
    destruct (ascii_dec e e); [|congruence]. eauto.
Qed.

End PyFacts.

(** ** The reply parser *)

Section Parser.
Import llm_test.

Lemma clamp_range (score : Z) : 1 <= clamp score <= 10.
Proof. unfold clamp. lia. Qed.

Lemma parse_text_prefixed (p v : string) :
  Py.split1 ":" (p +:+ v) !! 1%nat = Some v ->
  parse_text (p +:+ v) = Some (Py.strip v).
Proof. intros H. unfold parse_text. rewrite H. reflexivity. Qed.

(** Unfolds one round of the loop along the branch its line takes. *)
Ltac parse_cases line :=
  unfold parse_line;
  destruct (Py.startswith "Quality:" (Py.strip line)) eqn:HQ;
  [|destruct (Py.startswith "Relevance:" (Py.strip line)) eqn:HR;
    [|destruct (Py.startswith "Category:" (Py.strip line)) eqn:HC;
      [|destruct (Py.startswith "Insights:" (Py.strip line)) eqn:HI;
        [|destruct (Py.startswith "Reason:" (Py.strip line)) eqn:HS]]]].

(** A text field always finds its value: the index is in range. *)
Lemma parse_text_defined (p line : string) :
  p ∈ ["Category:"; "Insights:"; "Reason:"] ->
  Py.startswith p line = true ->
  exists v, line = p +:+ v /\ parse_text line = Some (Py.strip v).
Proof.
  intros Hp H. destruct (startswith_inv _ _ H) as [v ->]. exists v.
  split; [reflexivity|].
  apply parse_text_prefixed.
  repeat (apply elem_of_cons in Hp as [->|Hp]; [reflexivity|]).
  inversion Hp.
Qed.

(** The loop body never raises. *)
Lemma parse_line_defined (r : Analysis) (line : string) :
  exists r', parse_line r line = Some r'.
Proof.
  parse_cases line.
  - destruct (parse_score _); eauto.
  - destruct (parse_score _); eauto.
  - destruct (parse_text_defined "Category:" _ ltac:(set_solver) HC) as (v & _ & ->).
    cbn. eauto.
  - destruct (parse_text_defined "Insights:" _ ltac:(set_solver) HI) as (v & _ & ->).
    cbn. eauto.
  - destruct (parse_text_defined "Reason:" _ ltac:(set_solver) HS) as (v & _ & ->).
    cbn. eauto.
  - eauto.
Qed.

Lemma parse_lines_defined (lines : list string) (r : Analysis) :
  exists r', parse_lines r lines = Some r'.
Proof.
  revert r. induction lines as [|line lines IH]; intros r; cbn; [eauto|].
  destruct (parse_line_defined r line) as [r1 ->]. cbn. apply IH.
Qed.

Lemma parse_lines_app (pre post : list string) (r : Analysis) :
  parse_lines r (pre ++ post) = parse_lines r pre ≫= fun r1 => parse_lines r1 post.
Proof.
  revert r. induction pre as [|l pre IH]; intros r; cbn; [reflexivity|].
  destruct (parse_line r l) as [r1|]; cbn; [apply IH|reflexivity].
Qed.

Lemma parse_line_range (r r' : Analysis) (line : string) :
  parse_line r line = Some r' -> in_range r -> in_range r'.
Proof.
  unfold in_range. intros H Hr. revert H. parse_cases line; intros H.
  - destruct (parse_score _); simplify_eq; cbn; [|tauto].
    split; [apply clamp_range|tauto].
  - destruct (parse_score _); simplify_eq; cbn; [|tauto].
    split; [tauto|apply clamp_range].
  - destruct (parse_text _); cbn in H; simplify_eq. exact Hr.
  - destruct (parse_text _); cbn in H; simplify_eq. exact Hr.
  - destruct (parse_text _); cbn in H; simplify_eq. exact Hr.
  - simplify_eq. exact Hr.
Qed.

Lemma parse_lines_range (lines : list string) (r r' : Analysis) :
  parse_lines r lines = Some r' -> in_range r -> in_range r'.
Proof.
  revert r. induction lines as [|line lines IH]; intros r H Hr; cbn in H.
  - congruence.
  - destruct (parse_line r line) as [r1|] eqn:E; [|discriminate].
    eapply IH; [exact H|]. eapply parse_line_range; eauto.
Qed.

(** No line starts with two of the prefixes. *)
Lemma field_prefixes_disjoint (p q s : string) :
  p ∈ field_prefixes -> q ∈ field_prefixes -> p <> q ->
  Py.startswith p s = true -> Py.startswith q s = false.
Proof.
  intros Hp Hq Hne H. destruct (Py.startswith q s) eqn:E; [|reflexivity].
  exfalso. destruct (startswith_both _ _ _ H E) as [F|F]; revert F;
    unfold field_prefixes in Hp, Hq;
    repeat (apply elem_of_cons in Hp as [->|Hp]);
    repeat (apply elem_of_cons in Hq as [->|Hq]);
    try (inversion Hp; fail); try (inversion Hq; fail);
    try congruence; discriminate.
Qed.

Lemma quality_set (r : Analysis) (line : string) (score : Z) :
  Py.startswith "Quality:" (Py.strip line) = true ->
  parse_score (Py.strip line) = Some score ->
  parse_line r line = Some (with_quality_score (clamp score) r).
Proof. intros H E. unfold parse_line. rewrite H, E. reflexivity. Qed.

Lemma relevance_set (r : Analysis) (line : string) (score : Z) :
  Py.startswith "Relevance:" (Py.strip line) = true ->
  parse_score (Py.strip line) = Some score ->
  parse_line r line = Some (with_relevance_score (clamp score) r).
Proof.
  intros H E. unfold parse_line.
  rewrite (field_prefixes_disjoint "Relevance:" "Quality:" _
             ltac:(set_solver) ltac:(set_solver) ltac:(discriminate) H).
  rewrite H, E. reflexivity.
Qed.

Lemma category_set (r : Analysis) (line v : string) :
  Py.strip line = "Category:" +:+ v ->
  parse_line r line = Some (with_category (Py.strip v) r).
Proof.
  intros E. pose proof (startswith_app "Category:" v) as H. rewrite <- E in H.
  unfold parse_line.
  rewrite (field_prefixes_disjoint "Category:" "Quality:" _
             ltac:(set_solver) ltac:(set_solver) ltac:(discriminate) H).
  rewrite (field_prefixes_disjoint "Category:" "Relevance:" _
             ltac:(set_solver) ltac:(set_solver) ltac:(discriminate) H).
  rewrite H, E. reflexivity.
Qed.

Lemma insights_set (r : Analysis) (line v : string) :
  Py.strip line = "Insights:" +:+ v ->
  parse_line r line = Some (with_insights [Py.strip v] r).
Proof.
  intros E. pose proof (startswith_app "Insights:" v) as H. rewrite <- E in H.
  unfold parse_line.
  rewrite (field_prefixes_disjoint "Insights:" "Quality:" _
             ltac:(set_solver) ltac:(set_solver) ltac:(discriminate) H).
  rewrite (field_prefixes_disjoint "Insights:" "Relevance:" _
             ltac:(set_solver) ltac:(set_solver) ltac:(discriminate) H).
  rewrite (field_prefixes_disjoint "Insights:" "Category:" _
             ltac:(set_solver) ltac:(set_solver) ltac:(discriminate) H).
  rewrite H, E. reflexivity.
Qed.

Lemma reason_set (r : Analysis) (line v : string) :
  Py.strip line = "Reason:" +:+ v ->
  parse_line r line = Some (with_reason (Py.strip v) r).
Proof.
  intros E. pose proof (startswith_app "Reason:" v) as H. rewrite <- E in H.
  unfold parse_line.
  rewrite (field_prefixes_disjoint "Reason:" "Quality:" _
             ltac:(set_solver) ltac:(set_solver) ltac:(discriminate) H).
  rewrite (field_prefixes_disjoint "Reason:" "Relevance:" _
             ltac:(set_solver) ltac:(set_solver) ltac:(discriminate) H).
  rewrite (field_prefixes_disjoint "Reason:" "Category:" _
             ltac:(set_solver) ltac:(set_solver) ltac:(discriminate) H).
  rewrite (field_prefixes_disjoint "Reason:" "Insights:" _
             ltac:(set_solver) ltac:(set_solver) ltac:(discriminate) H).
  rewrite H, E. reflexivity.
Qed.

(** A line that starts with none of the prefixes changes nothing. *)
Lemma parse_line_unrecognised (r : Analysis) (line : string) :
  (forall p, p ∈ field_prefixes -> Py.startswith p (Py.strip line) = false) ->
  parse_line r line = Some r.
Proof.
  intros H. unfold parse_line.
  rewrite !H by (unfold field_prefixes; set_solver). reflexivity.
Qed.

Lemma quality_kept (r r' : Analysis) (line : string) :
  spares_quality line -> parse_line r line = Some r' ->
  quality_score r' = quality_score r.
Proof.
  unfold spares_quality. intros Hk. parse_cases line; intros H.
  - rewrite Hk in H by reflexivity. congruence.
  - destruct (parse_score _); simplify_eq; reflexivity.
  - destruct (parse_text _); cbn in H; simplify_eq; reflexivity.
  - destruct (parse_text _); cbn in H; simplify_eq; reflexivity.
  - destruct (parse_text _); cbn in H; simplify_eq; reflexivity.
  - congruence.
Qed.

Lemma relevance_kept (r r' : Analysis) (line : string) :
  spares_relevance line -> parse_line r line = Some r' ->
  relevance_score r' = relevance_score r.
Proof.
  unfold spares_relevance. intros Hk. parse_cases line; intros H.
  - destruct (parse_score _); simplify_eq; reflexivity.
  - rewrite Hk in H by reflexivity. congruence.
  - destruct (parse_text _); cbn in H; simplify_eq; reflexivity.
  - destruct (parse_text _); cbn in H; simplify_eq; reflexivity.
  - destruct (parse_text _); cbn in H; simplify_eq; reflexivity.
  - congruence.
Qed.

Lemma category_kept (r r' : Analysis) (line : string) :
  spares "Category:" line -> parse_line r line = Some r' ->
  category r' = category r.
Proof.
  unfold spares. intros Hk. parse_cases line; intros H.
  - destruct (parse_score _); simplify_eq; reflexivity.
  - destruct (parse_score _); simplify_eq; reflexivity.
  - congruence.
  - destruct (parse_text _); cbn in H; simplify_eq; reflexivity.
  - destruct (parse_text _); cbn in H; simplify_eq; reflexivity.
  - congruence.
Qed.

Lemma insights_kept (r r' : Analysis) (line : string) :
  spares "Insights:" line -> parse_line r line = Some r' ->
  insights r' = insights r.
Proof.
  unfold spares. intros Hk. parse_cases line; intros H.
  - destruct (parse_score _); simplify_eq; reflexivity.
  - destruct (parse_score _); simplify_eq; reflexivity.
  - destruct (parse_text _); cbn in H; simplify_eq; reflexivity.
  - congruence.
  - destruct (parse_text _); cbn in H; simplify_eq; reflexivity.
  - congruence.
Qed.

Lemma reason_kept (r r' : Analysis) (line : string) :
  spares "Reason:" line -> parse_line r line = Some r' ->
  reason r' = reason r.
Proof.
  unfold spares. intros Hk. parse_cases line; intros H.
  - destruct (parse_score _); simplify_eq; reflexivity.
  - destruct (parse_score _); simplify_eq; reflexivity.
  - destruct (parse_text _); cbn in H; simplify_eq; reflexivity.
  - destruct (parse_text _); cbn in H; simplify_eq; reflexivity.
  - congruence.
  - congruence.
Qed.

Lemma raw_response_kept (r r' : Analysis) (line : string) :
  parse_line r line = Some r' -> raw_response r' = raw_response r.
Proof.
  parse_cases line; intros H.
  - destruct (parse_score _); simplify_eq; reflexivity.
  - destruct (parse_score _); simplify_eq; reflexivity.
  - destruct (parse_text _); cbn in H; simplify_eq; reflexivity.
  - destruct (parse_text _); cbn in H; simplify_eq; reflexivity.
  - destruct (parse_text _); cbn in H; simplify_eq; reflexivity.
  - congruence.
Qed.

(** A field that every line of a run spares is the same after the run. *)
Lemma parse_lines_kept {X} (f : Analysis -> X) (keeps : string -> Prop) :
  (forall r r' l, keeps l -> parse_line r l = Some r' -> f r' = f r) ->
  forall lines r r',
    Forall keeps lines -> parse_lines r lines = Some r' -> f r' = f r.
Proof.
  intros Hstep lines. induction lines as [|l lines IH]; intros r r' Hall H.
  - cbn in H. congruence.
  - cbn in H. destruct (parse_line r l) as [r1|] eqn:E; [|discriminate].
    cbn in H. inversion Hall; subst.
    rewrite (IH _ _ ltac:(assumption) H). eauto.
Qed.

(** The field after a run whose line [line] sets it and whose later lines
    spare it. *)
Lemma parse_lines_last {X} (f : Analysis -> X) (keeps : string -> Prop)
      (pre post : list string) (line : string) (v : X) (r r' : Analysis) :
  (forall r r' l, keeps l -> parse_line r l = Some r' -> f r' = f r) ->
  (forall r0, exists r1, parse_line r0 line = Some r1 /\ f r1 = v) ->
  Forall keeps post ->
  parse_lines r (pre ++ line :: post) = Some r' -> f r' = v.
Proof.
  intros Hkeep Hset Hpost H. rewrite parse_lines_app in H.
  destruct (parse_lines r pre) as [r0|]; [|discriminate]. cbn in H.
  destruct (Hset r0) as (r1 & E & <-). rewrite E in H. cbn in H.
  eapply parse_lines_kept; eauto.
Qed.

(** Where the scores of a run come from: the value before the run, or the
    clamped number of one of its lines. *)
Lemma parse_lines_quality_origin (lines : list string) (r r' : Analysis) :
  parse_lines r lines = Some r' ->
  quality_score r' = quality_score r \/
  exists line score, line ∈ lines
    /\ Py.startswith "Quality:" (Py.strip line) = true
    /\ parse_score (Py.strip line) = Some score
    /\ quality_score r' = clamp score.
Proof.
  revert r. induction lines as [|l lines IH]; intros r H; cbn in H.
  - left. congruence.
  - destruct (parse_line r l) as [r1|] eqn:E; [|discriminate]. cbn in H.
    destruct (IH _ H) as [Hsame|(line & score & Hin & Hp & Hs & Hq)].
    + rewrite Hsame.
      destruct (Py.startswith "Quality:" (Py.strip l)) eqn:HQ.
      * destruct (parse_score (Py.strip l)) as [score|] eqn:Es.
        -- right. exists l, score. rewrite (quality_set r l score HQ Es) in E.
           simplify_eq. split_and!; auto. set_solver.
        -- left. eapply quality_kept; [|exact E]. intros _. exact Es.
      * left. eapply quality_kept; [|exact E]. intros ?. congruence.
    + right. exists line, score. split_and!; auto. set_solver.
Qed.

Lemma parse_lines_relevance_origin (lines : list string) (r r' : Analysis) :
  parse_lines r lines = Some r' ->
  relevance_score r' = relevance_score r \/
  exists line score, line ∈ lines
    /\ Py.startswith "Relevance:" (Py.strip line) = true
    /\ parse_score (Py.strip line) = Some score
    /\ relevance_score r' = clamp score.
Proof.
  revert r. induction lines as [|l lines IH]; intros r H; cbn in H.
  - left. congruence.
  - destruct (parse_line r l) as [r1|] eqn:E; [|discriminate]. cbn in H.
    destruct (IH _ H) as [Hsame|(line & score & Hin & Hp & Hs & Hq)].
    + rewrite Hsame.
      destruct (Py.startswith "Relevance:" (Py.strip l)) eqn:HQ.
      * destruct (parse_score (Py.strip l)) as [score|] eqn:Es.
        -- right. exists l, score. rewrite (relevance_set r l score HQ Es) in E.
           simplify_eq. split_and!; auto. set_solver.
        -- left. eapply relevance_kept; [|exact E]. intros _. exact Es.
      * left. eapply relevance_kept; [|exact E]. intros ?. congruence.
    + right. exists line, score. split_and!; auto. set_solver.
Qed.

(** The parser returns what the loop computed: its [except] branch is
    never taken. *)
Lemma parse_quality_analysis_loop (response : string) (article : Article) :
  parse_lines (initial_result response) (reply_lines response)
  = Some (_parse_quality_analysis response article).
Proof.
  unfold _parse_quality_analysis.
  destruct (parse_lines_defined (reply_lines response) (initial_result response))
    as [r ->]. reflexivity.
Qed.

End Parser.

(** ** Scores, fallbacks and repeated fields *)

Section Scoring.
Import llm_test.

Variable generate_response : nat -> string -> option string.

Lemma fallback_in_range : in_range fallback_result.
Proof. unfold in_range. cbn. lia. Qed.

Lemma parsed_in_range (response : string) (article : Article) :
  in_range (_parse_quality_analysis response article).
Proof.
  eapply parse_lines_range; [apply parse_quality_analysis_loop|].
  unfold in_range. cbn. lia.
Qed.

Lemma analyzed_in_range (call : nat) (article : Article) :
  in_range (analyze_article_quality generate_response call article).
Proof.
  unfold analyze_article_quality.
  destruct (generate_response call _) as [response|];
    [destruct (Py.is_empty response)|];
    auto using fallback_in_range, parsed_in_range.
Qed.

End Scoring.

(** C1: whatever the generation service returns for an article, the
    quality score and the relevance score of the analysis that
    [analyze_article_quality] attaches are integers from 1 to 10, and when
    the service gives a reply that is not empty the analysis is the one
    the parser reads from it.  For the parser itself, on every reply: both
    scores are from 1 to 10; each is the default 5 or the number of one of
    the reply's lines of that field, clamped to 1..10; it is 5 when no
    line of the field carries a number that parses; and a line of the
    field whose number parses has that number stored, clamped to 1..10,
    unless a later line of the field has a number that parses too. *)
Theorem C1_scores_between_1_and_10
  (generate_response : nat -> string -> option string)
  (call : nat) (article : Article) :
  let analysis := llm_test.analyze_article_quality generate_response call article in
  (1 <= quality_score analysis <= 10 /\ 1 <= relevance_score analysis <= 10)
  /\ (forall response : string,
        generate_response call (llm_test.quality_prompt article) = Some response ->
        response <> EmptyString ->
        analysis = llm_test._parse_quality_analysis response article)
  /\ forall response : string,
      let parsed := llm_test._parse_quality_analysis response article in
      let lines := llm_test.reply_lines response in
      (1 <= quality_score parsed <= 10 /\ 1 <= relevance_score parsed <= 10)
      /\ (quality_score parsed = 5 \/
          exists line score, line ∈ lines
            /\ Py.startswith "Quality:" (Py.strip line) = true
            /\ llm_test.parse_score (Py.strip line) = Some score
            /\ quality_score parsed = Z.max 1 (Z.min 10 score))
      /\ (relevance_score parsed = 5 \/
          exists line score, line ∈ lines
            /\ Py.startswith "Relevance:" (Py.strip line) = true
            /\ llm_test.parse_score (Py.strip line) = Some score
            /\ relevance_score parsed = Z.max 1 (Z.min 10 score))
      /\ ((forall line, line ∈ lines ->
             Py.startswith "Quality:" (Py.strip line) = true ->
             llm_test.parse_score (Py.strip line) = None) ->
          quality_score parsed = 5)
      /\ ((forall line, line ∈ lines ->
             Py.startswith "Relevance:" (Py.strip line) = true ->
             llm_test.parse_score (Py.strip line) = None) ->
          relevance_score parsed = 5)
      /\ (forall pre line post score,
            lines = pre ++ line :: post ->
            Py.startswith "Quality:" (Py.strip line) = true ->
            llm_test.parse_score (Py.strip line) = Some score ->
            Forall (fun later => Py.startswith "Quality:" (Py.strip later) = true ->
                                 llm_test.parse_score (Py.strip later) = None) post ->
            quality_score parsed = Z.max 1 (Z.min 10 score))
      /\ (forall pre line post score,
            lines = pre ++ line :: post ->
            Py.startswith "Relevance:" (Py.strip line) = true ->
            llm_test.parse_score (Py.strip line) = Some score ->
            Forall (fun later => Py.startswith "Relevance:" (Py.strip later) = true ->
                                 llm_test.parse_score (Py.strip later) = None) post ->
            relevance_score parsed = Z.max 1 (Z.min 10 score)).
Proof.
  cbv zeta. split; [apply analyzed_in_range|]. split.
  { intros response Hreply Hne. unfold llm_test.analyze_article_quality.
    rewrite Hreply. destruct response; [contradiction|reflexivity]. }
  intros response.
  pose proof (parse_quality_analysis_loop response article) as Hloop.
  split; [apply parsed_in_range|].
  assert (Hlast :
    (forall pre line post score,
        llm_test.reply_lines response = pre ++ line :: post ->
        Py.startswith "Quality:" (Py.strip line) = true ->
        llm_test.parse_score (Py.strip line) = Some score ->
        Forall (fun later => Py.startswith "Quality:" (Py.strip later) = true ->
                             llm_test.parse_score (Py.strip later) = None) post ->
        quality_score (llm_test._parse_quality_analysis response article)
        = Z.max 1 (Z.min 10 score))
    /\ (forall pre line post score,
        llm_test.reply_lines response = pre ++ line :: post ->
        Py.startswith "Relevance:" (Py.strip line) = true ->
        llm_test.parse_score (Py.strip line) = Some score ->
        Forall (fun later => Py.startswith "Relevance:" (Py.strip later) = true ->
                             llm_test.parse_score (Py.strip later) = None) post ->
        relevance_score (llm_test._parse_quality_analysis response article)
        = Z.max 1 (Z.min 10 score))).
  { split; intros pre line post score Hlines Hp Hs Hpost; rewrite Hlines in Hloop.
    - eapply (parse_lines_last quality_score _ pre post line);
        [apply quality_kept| |exact Hpost|exact Hloop].
      intros r0. eexists. split; [apply quality_set; eassumption|reflexivity].
    - eapply (parse_lines_last relevance_score _ pre post line);
        [apply relevance_kept| |exact Hpost|exact Hloop].
      intros r0. eexists. split; [apply relevance_set; eassumption|reflexivity]. }
  destruct Hlast as [Hlastq Hlastr].
  destruct (parse_lines_quality_origin _ _ _ Hloop) as [Hq|Hq];
    destruct (parse_lines_relevance_origin _ _ _ Hloop) as [Hr|Hr];
    cbn in Hq, Hr.
  all: split_and!; auto.
  all: intros Hnone.
  all: try (destruct Hq as (line & score & Hin & Hp & Hs & _);
            rewrite (Hnone line Hin Hp) in Hs; discriminate).
  all: try (destruct Hr as (line & score & Hin & Hp & Hs & _);
            rewrite (Hnone line Hin Hp) in Hs; discriminate).
Qed.

Lemma C1_witness :
  quality_score (llm_test.analyze_article_quality sample_service 2 sample_article) = 8
  /\ relevance_score (llm_test.analyze_article_quality sample_service 2 sample_article)
     = 10.
Proof.
  destruct (C1_scores_between_1_and_10 sample_service 2 sample_article)
    as (_ & Hreply & Hparser).
  rewrite (Hreply sample_reply eq_refl ltac:(discriminate)).
  destruct (Hparser sample_reply) as (_ & _ & _ & _ & _ & Hq & Hr).
  split.
  - apply (Hq ["Quality: 3/10"; "Category: Tools"] "Quality: 8/10"
              ["Relevance: 12"; "Category: Research"; "Reason: first";
               "Quality: high"; "Reason: second"] 8 eq_refl eq_refl eq_refl).
    repeat constructor; intros H; try discriminate H; reflexivity.
  - apply (Hr ["Quality: 3/10"; "Category: Tools"; "Quality: 8/10"] "Relevance: 12"
              ["Category: Research"; "Reason: first"; "Quality: high";
               "Reason: second"] 12 eq_refl eq_refl eq_refl).
    repeat constructor; intros H; discriminate H.
Defined.

Lemma unrecognised_reply_parses_to_default (response : string) :
  (forall line p, line ∈ llm_test.reply_lines response ->
                  p ∈ llm_test.field_prefixes ->
                  Py.startswith p (Py.strip line) = false) ->
  llm_test.parse_lines (llm_test.initial_result response)
                       (llm_test.reply_lines response)
  = Some (llm_test.initial_result response).
Proof.
  generalize (llm_test.initial_result response) as r.
  induction (llm_test.reply_lines response) as [|l lines IH]; intros r H.
  - reflexivity.
  - cbn. rewrite parse_line_unrecognised
      by (intros; apply H; [apply list_elem_of_here|assumption]).
    cbn. apply IH. intros; apply H; [apply list_elem_of_further|]; assumption.
Qed.

(** C2: if the generation call gives no response, or the reply has no
    line that starts with one of the five field prefixes, the analysis has
    quality 5 and relevance 5 and the round of [curate_articles] stores it
    with final score 5.0; nothing raises (the parser's loop returns a
    result).  When the call gives nothing the analysis is the fallback
    dict: category AI/ML, the one insight, the reason LLM analysis failed. *)
Theorem C2_failed_or_unrecognised_reply_scores_5
  (generate_response : nat -> string -> option string)
  (call : nat) (h : store) (article : loc) (curated_articles : list loc) :
  let reply := generate_response call (llm_test.quality_prompt (h article)) in
  (reply = None \/
   exists response, reply = Some response /\
     forall line p, line ∈ llm_test.reply_lines response ->
                    p ∈ llm_test.field_prefixes ->
                    Py.startswith p (Py.strip line) = false) ->
  let analysis := llm_test.analyze_article_quality generate_response call (h article) in
  let h' := (llm_test.curate_step generate_response
               (call, h, curated_articles) article).1.2 in
  quality_score analysis = 5 /\ relevance_score analysis = 5
  /\ article_llm_analysis (h' article) = Some analysis
  /\ final_score (h' article) = Some 5%Q
  /\ (reply = None ->
      analysis = mkAnalysis 5 5 "AI/ML" ["Unable to analyze with LLM"]
                            "LLM analysis failed" false None)
  /\ (forall response, reply = Some response -> response <> EmptyString ->
      llm_test.parse_lines (llm_test.initial_result response)
                           (llm_test.reply_lines response)
      = Some analysis
      /\ analysis = mkAnalysis 5 5 "AI/ML" [] "" true (Some response)).
Proof.
  cbv zeta. intros Hreply.
  assert (Hcases :
    llm_test.analyze_article_quality generate_response call (h article)
      = llm_test.fallback_result
    \/ exists response,
         generate_response call (llm_test.quality_prompt (h article)) = Some response
         /\ response <> EmptyString
         /\ llm_test.analyze_article_quality generate_response call (h article)
            = llm_test.initial_result response
         /\ llm_test.parse_lines (llm_test.initial_result response)
                                 (llm_test.reply_lines response)
            = Some (llm_test.initial_result response)).
  { unfold llm_test.analyze_article_quality.
    destruct Hreply as [->|(response & -> & Hno)]; [left; reflexivity|].
    destruct response as [|c response]; [left; reflexivity|]. right.
    exists (String c response). split_and!; try done.
    - cbn [Py.is_empty]. unfold llm_test._parse_quality_analysis.
      rewrite unrecognised_reply_parses_to_default by exact Hno. reflexivity.
    - apply unrecognised_reply_parses_to_default, Hno. }
  cbn [llm_test.curate_step fst snd].
  rewrite fn_lookup_insert. cbn [article_llm_analysis final_score llm_test.set_analysis].
  destruct Hcases as [E|(response & Eg & Hne & E & Hp)]; rewrite E.
  - split_and!; try reflexivity.
    intros response Eg Hne. exfalso.
    unfold llm_test.analyze_article_quality in E. rewrite Eg in E.
    destruct response; [done|]. cbn [Py.is_empty] in E.
    pose proof (parse_quality_analysis_loop (String a response) (h article)) as Hl.
    rewrite E in Hl. clear E.
    pose proof (parse_lines_kept raw_response (fun _ => True)
                  ltac:(eauto using raw_response_kept)
                  _ _ _ ltac:(apply Forall_true; auto) Hl).
    discriminate.
  - split_and!; try reflexivity.
    + intros En. congruence.
    + intros response' Eg' _. assert (response' = response) as -> by congruence.
      split; [exact Hp|reflexivity].
Qed.

Lemma C2_witness :
  final_score ((llm_test.curate_step sample_service (0%nat, sample_store, []) 0%nat).1.2 0%nat)
    = Some 5%Q
  /\ final_score ((llm_test.curate_step sample_service (1%nat, sample_store, []) 0%nat).1.2 0%nat)
    = Some 5%Q.
Proof.
  split.
  - refine (proj1 (proj2 (proj2 (proj2
      (C2_failed_or_unrecognised_reply_scores_5
         sample_service 0%nat sample_store 0%nat [] _))))).
    left. reflexivity.
  - refine (proj1 (proj2 (proj2 (proj2
      (C2_failed_or_unrecognised_reply_scores_5
         sample_service 1%nat sample_store 0%nat [] _))))).
    right. exists "I cannot rate this article.". split; [reflexivity|].
    intros line p Hl Hp.
    change (llm_test.reply_lines "I cannot rate this article.")
      with ["I cannot rate this article."] in Hl.
    apply list_elem_of_singleton in Hl as ->.
    unfold llm_test.field_prefixes in Hp.
    repeat (apply elem_of_cons in Hp as [->|Hp]; [reflexivity|]).
    inversion Hp.
Defined.

(** C10: when several lines of a reply start with the same field prefix,
    the parser keeps the value of the last of them that yields one: for
    any line of the reply, whatever lines stand before it, if no later
    line of the field yields a value, the field holds the value parsed
    from that line.  A text field (Category, Insights, Reason) takes a
    value from every line with its prefix; a score (Quality, Relevance)
    from every line with its prefix whose number parses. *)
Theorem C10_last_line_of_a_field_wins
  (response : string) (article : Article)
  (pre post : list string) (line : string) :
  llm_test.reply_lines response = pre ++ line :: post ->
  let parsed := llm_test._parse_quality_analysis response article in
  (forall score,
      Py.startswith "Quality:" (Py.strip line) = true ->
      llm_test.parse_score (Py.strip line) = Some score ->
      Forall (fun later => Py.startswith "Quality:" (Py.strip later) = true ->
                           llm_test.parse_score (Py.strip later) = None) post ->
      quality_score parsed = Z.max 1 (Z.min 10 score))
  /\ (forall score,
      Py.startswith "Relevance:" (Py.strip line) = true ->
      llm_test.parse_score (Py.strip line) = Some score ->
      Forall (fun later => Py.startswith "Relevance:" (Py.strip later) = true ->
                           llm_test.parse_score (Py.strip later) = None) post ->
      relevance_score parsed = Z.max 1 (Z.min 10 score))
  /\ (forall v,
      Py.strip line = "Category:" +:+ v ->
      Forall (fun later => Py.startswith "Category:" (Py.strip later) = false) post ->
      category parsed = Py.strip v)
  /\ (forall v,
      Py.strip line = "Insights:" +:+ v ->
      Forall (fun later => Py.startswith "Insights:" (Py.strip later) = false) post ->
      insights parsed = [Py.strip v])
  /\ (forall v,
      Py.strip line = "Reason:" +:+ v ->
      Forall (fun later => Py.startswith "Reason:" (Py.strip later) = false) post ->
      reason parsed = Py.strip v).
Proof.
  intros Hlines parsed.
  pose proof (parse_quality_analysis_loop response article) as Hloop.
  fold parsed in Hloop. rewrite Hlines in Hloop. clearbody parsed.
  split_and!.
  - intros score Hp Hs Hpost.
    eapply (parse_lines_last quality_score _ pre post line);
      [apply quality_kept| |exact Hpost|exact Hloop].
    intros r0. eexists. split; [apply quality_set; eassumption|reflexivity].
  - intros score Hp Hs Hpost.
    eapply (parse_lines_last relevance_score _ pre post line);
      [apply relevance_kept| |exact Hpost|exact Hloop].
    intros r0. eexists. split; [apply relevance_set; eassumption|reflexivity].
  - intros v Hv Hpost.
    eapply (parse_lines_last category _ pre post line);
      [apply category_kept| |exact Hpost|exact Hloop].
    intros r0. eexists. split; [apply category_set; eassumption|reflexivity].
  - intros v Hv Hpost.
    eapply (parse_lines_last insights _ pre post line);
      [apply insights_kept| |exact Hpost|exact Hloop].
    intros r0. eexists. split; [apply insights_set; eassumption|reflexivity].
  - intros v Hv Hpost.
    eapply (parse_lines_last reason _ pre post line);
      [apply reason_kept| |exact Hpost|exact Hloop].
    intros r0. eexists. split; [apply reason_set; eassumption|reflexivity].
Qed.

Lemma C10_witness :
  quality_score (llm_test._parse_quality_analysis sample_reply sample_article) = 8
  /\ category (llm_test._parse_quality_analysis sample_reply sample_article) = "Research".
Proof.
  split.
  - refine (proj1 (C10_last_line_of_a_field_wins sample_reply sample_article
              ["Quality: 3/10"; "Category: Tools"]
              ["Relevance: 12"; "Category: Research"; "Reason: first";
               "Quality: high"; "Reason: second"]
              "Quality: 8/10" eq_refl) 8 eq_refl eq_refl _).
    repeat constructor; intros H; try discriminate H; reflexivity.
  - refine (proj1 (proj2 (proj2 (C10_last_line_of_a_field_wins
              sample_reply sample_article
              ["Quality: 3/10"; "Category: Tools"; "Quality: 8/10"; "Relevance: 12"]
              ["Reason: first"; "Quality: high"; "Reason: second"]
              "Category: Research" eq_refl))) " Research" eq_refl _).
    repeat constructor.
Defined.

(** C6 (amended): the parser matches the field prefixes in their exact
    letter case.  A line whose stripped text starts with Quality:,
    Relevance:, Category:, Insights: or Reason: spelled exactly so is
    recognized and its value stored; a line that starts with one of them in
    another letter case is not recognized and leaves the result as it
    was. *)
Theorem C6_prefixes_match_in_exact_case_only (result : Analysis) (line : string) :
  (forall p, p ∈ llm_test.field_prefixes ->
     Py.startswith (Py.lower p) (Py.lower (Py.strip line)) = true ->
     Py.startswith p (Py.strip line) = false ->
     llm_test.parse_line result line = Some result)
  /\ (forall score,
     Py.startswith "Quality:" (Py.strip line) = true ->
     llm_test.parse_score (Py.strip line) = Some score ->
     llm_test.parse_line result line
     = Some (llm_test.with_quality_score (Z.max 1 (Z.min 10 score)) result))
  /\ (forall score,
     Py.startswith "Relevance:" (Py.strip line) = true ->
     llm_test.parse_score (Py.strip line) = Some score ->
     llm_test.parse_line result line
     = Some (llm_test.with_relevance_score (Z.max 1 (Z.min 10 score)) result))
  /\ (forall v, Py.strip line = "Category:" +:+ v ->
     llm_test.parse_line result line
     = Some (llm_test.with_category (Py.strip v) result))
  /\ (forall v, Py.strip line = "Insights:" +:+ v ->
     llm_test.parse_line result line
     = Some (llm_test.with_insights [Py.strip v] result))
  /\ (forall v, Py.strip line = "Reason:" +:+ v ->
     llm_test.parse_line result line
     = Some (llm_test.with_reason (Py.strip v) result)).
Proof.
  split_and!.
  - intros p Hp Hlow Hexact. apply parse_line_unrecognised. intros q Hq.
    destruct (decide (q = p)) as [->|Hne]; [exact Hexact|].
    destruct (Py.startswith q (Py.strip line)) eqn:E; [|reflexivity]. exfalso.
    apply startswith_lower in E.
    destruct (startswith_both _ _ _ Hlow E) as [F|F]; revert F;
      unfold llm_test.field_prefixes in Hp, Hq;
      repeat (apply elem_of_cons in Hp as [->|Hp]);
      repeat (apply elem_of_cons in Hq as [->|Hq]);
      try (inversion Hp; fail); try (inversion Hq; fail);
      try congruence; discriminate.
  - intros score. apply quality_set.
  - intros score. apply relevance_set.
  - intros v. apply category_set.
  - intros v. apply insights_set.
  - intros v. apply reason_set.
Qed.

Lemma C6_witness :
  llm_test.parse_line (llm_test.initial_result "QUALITY: 8/10") "QUALITY: 8/10"
  = Some (llm_test.initial_result "QUALITY: 8/10").
Proof.
  refine (proj1 (C6_prefixes_match_in_exact_case_only
                   (llm_test.initial_result "QUALITY: 8/10") "QUALITY: 8/10")
                "Quality:" _ eq_refl eq_refl).
  unfold llm_test.field_prefixes. apply list_elem_of_here.
Defined.

(** C6, as stated, fails: a line with the prefix in lower case or in upper
    case is not recognized, and the score stays at its default, whereas the
    same line with the exact prefix stores 8. *)
Lemma C6_counterexample :
  quality_score (llm_test._parse_quality_analysis "quality: 8/10" sample_article)
    <> quality_score (llm_test._parse_quality_analysis "Quality: 8/10" sample_article)
  /\ quality_score (llm_test._parse_quality_analysis "quality: 8/10" sample_article) = 5
  /\ quality_score (llm_test._parse_quality_analysis "QUALITY: 8/10" sample_article) = 5
  /\ quality_score (llm_test._parse_quality_analysis "Quality: 8/10" sample_article) = 8.
Proof. split; [discriminate|repeat split; reflexivity]. Qed.

(** ** The stable descending sort *)

Section SortDesc.
Context {A : Type} (leb : A -> A -> bool).

Lemma insert_desc_perm (x : A) (l : list A) : Py.insert_desc leb x l ≡ₚ x :: l.
Proof.
  induction l as [|y l IH]; cbn; [reflexivity|].
  destruct (leb y x); [reflexivity|].
  rewrite IH. apply Permutation_swap.
Qed.

Lemma sort_desc_perm (l : list A) : Py.sort_desc leb l ≡ₚ l.
Proof.
  induction l as [|x l IH]; [reflexivity|].
  change (Py.sort_desc leb (x :: l))
    with (Py.insert_desc leb x (Py.sort_desc leb l)).
  rewrite insert_desc_perm. f_equiv. exact IH.
Qed.

(** Elements that the order does not tell apart keep their places. *)
Lemma insert_desc_filter (P : A -> bool) (x : A) (l : list A) :
  (forall y, P x = true -> P y = true -> leb y x = true) ->
  List.filter P (Py.insert_desc leb x l) = List.filter P (x :: l).
Proof.
  intros HP. induction l as [|y l IH]; cbn; [reflexivity|].
  destruct (leb y x) eqn:E; [reflexivity|].
  cbn. rewrite IH. cbn.
  destruct (P x) eqn:Ex, (P y) eqn:Ey; try reflexivity.
  rewrite (HP y eq_refl Ey) in E. discriminate.
Qed.

Lemma sort_desc_stable (P : A -> bool) (l : list A) :
  (forall x y, P x = true -> P y = true -> leb y x = true) ->
  List.filter P (Py.sort_desc leb l) = List.filter P l.
Proof.
  intros HP. induction l as [|x l IH]; [reflexivity|].
  change (Py.sort_desc leb (x :: l))
    with (Py.insert_desc leb x (Py.sort_desc leb l)).
  rewrite insert_desc_filter by (intros; apply HP; assumption).
  cbn [List.filter]. rewrite IH. reflexivity.
Qed.

Hypothesis leb_total : forall x y, leb x y = true \/ leb y x = true.
Hypothesis leb_trans : forall x y z, leb x y = true -> leb y z = true -> leb x z = true.

Lemma insert_desc_sorted (x : A) (l : list A) :
  StronglySorted (fun a b => leb b a = true) l ->
  StronglySorted (fun a b => leb b a = true) (Py.insert_desc leb x l).
Proof.
  induction l as [|y l IH]; intros Hs; cbn.
  - repeat constructor.
  - apply StronglySorted_cons in Hs as [Hy Hl].
    destruct (leb y x) eqn:E.
    + apply StronglySorted_cons. split; [|apply StronglySorted_cons; auto].
      constructor; [exact E|].
      eapply Forall_impl; [exact Hy|]. cbn. intros z Hz. eauto.
    + apply StronglySorted_cons. split; [|auto].
      rewrite insert_desc_perm. constructor; [|exact Hy].
      destruct (leb_total x y); [assumption|congruence].
Qed.

Lemma sort_desc_sorted (l : list A) :
  StronglySorted (fun a b => leb b a = true) (Py.sort_desc leb l).
Proof.
  induction l as [|x l IH]; [constructor|].
  change (Py.sort_desc leb (x :: l))
    with (Py.insert_desc leb x (Py.sort_desc leb l)).
  apply insert_desc_sorted, IH.
Qed.

Lemma leb_refl (x : A) : leb x x = true.
Proof. destruct (leb_total x x); assumption. Qed.

Lemma ranked_with_head (k x : A) (l : list A) :
  List.filter (ranked_with leb k) (x :: l)
  = if ranked_with leb k x then x :: List.filter (ranked_with leb k) l
    else List.filter (ranked_with leb k) l.
Proof. reflexivity. Qed.

Lemma ranked_with_self_nonempty (x : A) (l : list A) :
  x ∈ l -> List.filter (ranked_with leb x) l <> [].
Proof.
  intros Hin E. apply list_elem_of_In in Hin.
  assert (In x (List.filter (ranked_with leb x) l)) as Hx
    by (apply filter_In; split; [exact Hin|unfold ranked_with; rewrite leb_refl; reflexivity]).
  rewrite E in Hx. exact Hx.
Qed.

(** A stable sort has one result: two lists ranked highest first that
    agree on the order of the elements of every rank are equal. *)
Lemma stable_sorted_unique (l1 l2 : list A) :
  StronglySorted (fun a b => leb b a = true) l1 ->
  StronglySorted (fun a b => leb b a = true) l2 ->
  (forall k, List.filter (ranked_with leb k) l1 = List.filter (ranked_with leb k) l2) ->
  l1 = l2.
Proof.
  revert l2. induction l1 as [|x t IH]; intros l2 H1 H2 Hf.
  - destruct l2 as [|y u]; [reflexivity|]. exfalso.
    apply (ranked_with_self_nonempty y (y :: u)); [apply list_elem_of_here|].
    symmetry. apply Hf.
  - destruct l2 as [|y u].
    { exfalso. apply (ranked_with_self_nonempty x (x :: t)); [apply list_elem_of_here|].
      apply Hf. }
    apply StronglySorted_cons in H1 as [Hx H1].
    apply StronglySorted_cons in H2 as [Hy H2].
    assert (Hxy : leb x y = true).
    { assert (Hin : x ∈ y :: u).
      { apply list_elem_of_In.
        apply (proj1 (filter_In (ranked_with leb x) x (y :: u))).
        rewrite <- Hf, ranked_with_head. unfold ranked_with at 1.
        rewrite leb_refl. left. reflexivity. }
      apply elem_of_cons in Hin as [->|Hin]; [apply leb_refl|].
      rewrite Forall_forall in Hy. apply Hy, Hin. }
    assert (Hyx : leb y x = true).
    { assert (Hin : y ∈ x :: t).
      { apply list_elem_of_In.
        apply (proj1 (filter_In (ranked_with leb y) y (x :: t))).
        rewrite Hf, ranked_with_head. unfold ranked_with at 1.
        rewrite leb_refl. left. reflexivity. }
      apply elem_of_cons in Hin as [->|Hin]; [apply leb_refl|].
      rewrite Forall_forall in Hx. apply Hx, Hin. }
    assert (x = y) as <-.
    { pose proof (Hf x) as E. rewrite !ranked_with_head in E.
      assert (ranked_with leb x x = true) as Exx
        by (unfold ranked_with; rewrite leb_refl; reflexivity).
      assert (ranked_with leb x y = true) as Exy
        by (unfold ranked_with; rewrite Hxy, Hyx; reflexivity).
      rewrite Exx, Exy in E. congruence. }
    f_equal. apply IH; [assumption..|].
    intros k. pose proof (Hf k) as E. rewrite !ranked_with_head in E.
    destruct (ranked_with leb k x); congruence.
Qed.

(** So the insertion sort computes what any stable descending sort of
    the list computes. *)
Lemma sort_desc_unique (l sorted : list A) :
  StronglySorted (fun a b => leb b a = true) sorted ->
  (forall k, List.filter (ranked_with leb k) sorted = List.filter (ranked_with leb k) l) ->
  sorted = Py.sort_desc leb l.
Proof.
  intros Hs Hf. apply stable_sorted_unique; [exact Hs|apply sort_desc_sorted|].
  intros k. rewrite Hf. symmetry. apply sort_desc_stable.
  unfold ranked_with. intros x y Hx Hy.
  apply andb_true_iff in Hx as [_ Hx], Hy as [Hy _]. eauto.
Qed.

End SortDesc.

Lemma StronglySorted_weaken {A} (R S : A -> A -> Prop) (l : list A) :
  (forall x y, R x y -> S x y) -> StronglySorted R l -> StronglySorted S l.
Proof.
  intros HRS. induction 1 as [|x l Hl IH Hx]; constructor; [exact IH|].
  eapply Forall_impl; [exact Hx|]. auto.
Qed.

Lemma sublist_bool_filter {A} (P : A -> bool) (l : list A) :
  sublist (List.filter P l) l.
Proof.
  induction l as [|x l IH]; cbn; [constructor|].
  destruct (P x); [apply sublist_skip|apply sublist_cons]; exact IH.
Qed.

Lemma Forall_bool_filter {A} (P : A -> bool) (l : list A) :
  Forall (fun x => P x = true) (List.filter P l).
Proof.
  induction l as [|x l IH]; cbn; [constructor|].
  destruct (P x) eqn:E; [constructor|]; assumption.
Qed.

(** ** Curation: scoring, ranking, selection *)

Section Curation.
Import llm_test.

Variable generate_response : nat -> string -> option string.

Lemma half_sum_value (analysis : Analysis) :
  (half_sum analysis
   == inject_Z (quality_score analysis + relevance_score analysis) / 2)%Q.
Proof.
  unfold half_sum. rewrite Qred_correct.
  unfold Qeq, Qdiv, Qmult, Qinv, inject_Z. cbn. lia.
Qed.

Lemma curate_step_scored (i : nat) (h : nat -> Article) (acc : list nat) (a : nat) :
  let '(i', h', acc') := curate_step generate_response (i, h, acc) a in
  i' = S i /\ acc' = acc ++ [a] /\ scored h' a
  /\ (forall b, scored h b -> scored h' b).
Proof.
  cbn. split_and!; try reflexivity.
  - unfold scored. rewrite fn_lookup_insert. cbn. eauto.
  - intros b Hb. destruct (decide (a = b)) as [->|Hne].
    + unfold scored. rewrite fn_lookup_insert. cbn. eauto.
    + unfold scored. rewrite fn_lookup_insert_ne by exact Hne. exact Hb.
Qed.

Lemma curate_loop_scored (articles : list nat) (i : nat) (h : nat -> Article)
      (acc : list nat) :
  let '(i', h', acc') := foldl (curate_step generate_response) (i, h, acc) articles in
  acc' = acc ++ articles
  /\ (forall a, a ∈ articles -> scored h' a)
  /\ (forall b, scored h b -> scored h' b).
Proof.
  revert i h acc. induction articles as [|a articles IH]; intros i h acc.
  - cbn. rewrite app_nil_r. split_and!; auto. intros a Ha. inversion Ha.
  - cbn [foldl].
    pose proof (curate_step_scored i h acc a) as Hstep.
    destruct (curate_step generate_response (i, h, acc) a) as [[i1 h1] acc1].
    destruct Hstep as (-> & -> & Ha & Hkeep).
    specialize (IH (S i) h1 (acc ++ [a])).
    destruct (foldl _ _ articles) as [[i2 h2] acc2].
    destruct IH as (-> & Hall & Hkeep2).
    split_and!.
    + rewrite <- app_assoc. reflexivity.
    + intros b Hb. apply elem_of_cons in Hb as [->|Hb]; auto.
    + auto.
Qed.

End Curation.

Lemma score_leb_total (h : nat -> Article) (x y : nat) :
  Qle_bool (llm_test.score h x) (llm_test.score h y) = true
  \/ Qle_bool (llm_test.score h y) (llm_test.score h x) = true.
Proof.
  rewrite !Qle_bool_iff.
  destruct (Qlt_le_dec (llm_test.score h y) (llm_test.score h x)) as [H|H];
    [right; apply Qlt_le_weak|left]; exact H.
Qed.

Lemma score_leb_trans (h : nat -> Article) (x y z : nat) :
  Qle_bool (llm_test.score h x) (llm_test.score h y) = true ->
  Qle_bool (llm_test.score h y) (llm_test.score h z) = true ->
  Qle_bool (llm_test.score h x) (llm_test.score h z) = true.
Proof. rewrite !Qle_bool_iff. apply Qle_trans. Qed.

(** What [curate_articles] returns: the input list, sorted, and the store
    the loop leaves. *)
Lemma curate_articles_unfold
  (generate_response : nat -> string -> option string)
  (articles : list nat) (h : nat -> Article) :
  exists h',
    llm_test.curate_articles generate_response articles h
    = (Py.sort_desc (fun y x => Qle_bool (llm_test.score h' y) (llm_test.score h' x))
                    articles, h')
    /\ forall a, a ∈ articles -> scored h' a.
Proof.
  destruct articles as [|a0 articles].
  - exists h. split; [reflexivity|]. intros a Ha. inversion Ha.
  - unfold llm_test.curate_articles.
    pose proof (curate_loop_scored generate_response (a0 :: articles) O h []) as H.
    destruct (foldl _ _ (a0 :: articles)) as [[i' h'] acc'].
    destruct H as (-> & Hall & _). exists h'. split; [reflexivity|exact Hall].
Qed.

(** [l[:count]] for a count that is not negative, and for one that is. *)
Remark slice_to_nonnegative {X} (count : Z) (l : list X) :
  0 <= count -> Py.slice_to count l = take (Z.to_nat count) l.
Proof.
  intros H. unfold Py.slice_to.
  replace (0 <=? count) with true by (symmetry; apply Z.leb_le; exact H).
  reflexivity.
Qed.

Remark slice_to_negative {X} (count : Z) (l : list X) :
  count < 0 -> Py.slice_to count l = take (length l - Z.to_nat (- count)) l.
Proof.
  intros H. unfold Py.slice_to.
  replace (0 <=? count) with false by (symmetry; apply Z.leb_gt; exact H).
  reflexivity.
Qed.

Lemma Forall_of_sublist {X} (P : X -> Prop) (l1 l2 : list X) :
  sublist l1 l2 -> Forall P l2 -> Forall P l1.
Proof.
  rewrite !Forall_forall. intros Hsub H x Hx.
  apply H. eapply elem_of_sublist; eauto.
Qed.

Lemma slice_to_sublist {X} (count : Z) (l : list X) : sublist (Py.slice_to count l) l.
Proof. unfold Py.slice_to. destruct (0 <=? count); apply sublist_take. Qed.

(** A dict listed twice is one object: both places of the result show
    the analysis of the later call. *)
Example curate_articles_shared_dict :
  (llm_test.curate_articles sample_service [0; 1; 0]%nat sample_store).1
    = [0; 0; 1]%nat
  /\ final_score
       ((llm_test.curate_articles sample_service [0; 1; 0]%nat sample_store).2 0%nat)
     = Some 9%Q.
Proof. split; vm_compute; reflexivity. Qed.

(** C3: [curate_articles] gives every article of the list the final score
    (quality_score + relevance_score) / 2 of the analysis it stores with
    it, and returns the list sorted by final score, highest first, articles
    of equal final score in their original relative order.
    [select_top_articles] returns, from that sorted list and in its order,
    only articles with final score at least 6.0, and for a requested
    [count] (a number that is not negative) the first [count] of them, so
    at most [count] articles. *)
Theorem C3_curation_sorts_and_selects
  (generate_response : nat -> string -> option string)
  (articles : list loc) (count : Z) (h : store) :
  let curated := (llm_test.curate_articles generate_response articles h).1 in
  let h' := (llm_test.curate_articles generate_response articles h).2 in
  let selected := (llm_test.select_top_articles generate_response articles count h).1 in
  let high_quality := List.filter (fun a => Qle_bool 6 (llm_test.score h' a)) curated in
  (forall a, a ∈ articles ->
     exists analysis v,
       article_llm_analysis (h' a) = Some analysis
       /\ final_score (h' a) = Some v
       /\ (v == inject_Z (quality_score analysis + relevance_score analysis) / 2)%Q)
  /\ curated ≡ₚ articles
  /\ StronglySorted (fun x y => (llm_test.score h' y <= llm_test.score h' x)%Q) curated
  /\ (forall k : Q,
       List.filter (fun a => Qeq_bool (llm_test.score h' a) k) curated
       = List.filter (fun a => Qeq_bool (llm_test.score h' a) k) articles)
  /\ Forall (fun a => (6 <= llm_test.score h' a)%Q) selected
  /\ sublist selected high_quality
  /\ sublist selected curated
  /\ (0 <= count ->
      selected = take (Z.to_nat count) high_quality
      /\ Z.of_nat (length selected) <= count)
  /\ (llm_test.select_top_articles generate_response articles count h).2 = h'.
Proof.
  unfold llm_test.select_top_articles.
  destruct (curate_articles_unfold generate_response articles h) as (h' & -> & Hall).
  cbn [fst snd].
  split_and!.
  - intros a Ha. destruct (Hall a Ha) as (analysis & Ea & Ef).
    exists analysis, (llm_test.half_sum analysis).
    split_and!; auto using half_sum_value.
  - apply sort_desc_perm.
  - eapply StronglySorted_weaken;
      [|apply sort_desc_sorted; intros; eauto using score_leb_total, score_leb_trans].
    cbn. intros x y. apply Qle_bool_iff.
  - intros k. apply sort_desc_stable. intros x y Hx Hy.
    apply Qeq_bool_iff in Hx, Hy. apply Qle_bool_iff.
    rewrite Hx, Hy. apply Qle_refl.
  - eapply Forall_of_sublist; [apply slice_to_sublist|].
    eapply Forall_impl; [apply Forall_bool_filter|].
    cbn. intros a. apply Qle_bool_iff.
  - apply slice_to_sublist.
  - etransitivity; [apply slice_to_sublist|apply sublist_bool_filter].
  - intros Hcount. rewrite slice_to_nonnegative by exact Hcount.
    split; [reflexivity|]. rewrite length_take. lia.
  - reflexivity.
Qed.

Lemma C3_witness :
  (llm_test.select_top_articles sample_service [0; 1; 2; 3]%nat 5 sample_store).1
  = take 5 (List.filter
              (fun a => Qle_bool 6 (llm_test.score
                 (llm_test.curate_articles sample_service [0; 1; 2; 3]%nat sample_store).2 a))
              (llm_test.curate_articles sample_service [0; 1; 2; 3]%nat sample_store).1)
  /\ (llm_test.curate_articles sample_service [0; 1; 2; 3]%nat sample_store).1
     = [2; 0; 1; 3]%nat
  /\ (llm_test.select_top_articles sample_service [0; 1; 2; 3]%nat 5 sample_store).1
     = [2]%nat.
Proof.
  split; [|split; vm_compute; reflexivity].
  refine (proj1 (proj1 (proj2 (proj2 (proj2 (proj2 (proj2 (proj2 (proj2
    (C3_curation_sorts_and_selects sample_service [0; 1; 2; 3]%nat 5 sample_store))))))))
    _)).
  lia.
Defined.

(** ** Keeping the first article of every key *)

Section FirstOccurrence.
Context {A : Type} (key : A -> string) (keep : A -> bool).

Lemma foldl_dedup_step (l : list A) (seen : gset string) (unique : list A) :
  (foldl (dedup_step key keep) (seen, unique) l).2 = unique ++ first_kept key keep seen l.
Proof.
  revert seen unique. induction l as [|a l IH]; intros seen unique; cbn.
  - rewrite app_nil_r. reflexivity.
  - destruct (keep a && bool_decide (key a ∉ seen)).
    + rewrite IH, <- app_assoc. reflexivity.
    + apply IH.
Qed.

Lemma first_kept_sublist (l : list A) (seen : gset string) :
  sublist (first_kept key keep seen l) l.
Proof.
  revert seen. induction l as [|a l IH]; intros seen; cbn; [constructor|].
  destruct (keep a && bool_decide (key a ∉ seen));
    [apply sublist_skip|apply sublist_cons]; apply IH.
Qed.

Lemma first_kept_Forall (l : list A) (seen : gset string) :
  Forall (fun a => keep a = true /\ key a ∉ seen) (first_kept key keep seen l).
Proof.
  revert seen. induction l as [|a l IH]; intros seen; cbn; [constructor|].
  destruct (keep a && bool_decide (key a ∉ seen)) eqn:E; [|apply IH].
  apply andb_true_iff in E as [Hk Hs]. apply bool_decide_eq_true in Hs.
  constructor; [auto|].
  eapply Forall_impl; [apply IH|]. cbn. intros b [Hb Hn]. split; [exact Hb|].
  intros Hin. apply Hn. apply elem_of_union. right. exact Hin.
Qed.

Lemma first_kept_NoDup (l : list A) (seen : gset string) :
  NoDup (key <$> first_kept key keep seen l).
Proof.
  revert seen. induction l as [|a l IH]; intros seen; cbn; [constructor|].
  destruct (keep a && bool_decide (key a ∉ seen)); [|apply IH].
  cbn. constructor; [|apply IH].
  intros Hin. apply list_elem_of_fmap in Hin as (b & Hb & Hin).
  pose proof (first_kept_Forall l ({[key a]} ∪ seen)) as HF.
  rewrite Forall_forall in HF. destruct (HF b Hin) as [_ Hn].
  apply Hn. apply elem_of_union. left. apply elem_of_singleton. auto.
Qed.

(** The article kept for a key is the first one of the input that has
    the key and is to be kept. *)
Lemma first_kept_find (k : string) (l : list A) (seen : gset string) :
  k ∉ seen ->
  List.find (fun b => bool_decide (key b = k)) (first_kept key keep seen l)
  = List.find (fun b => keep b && bool_decide (key b = k)) l.
Proof.
  revert seen. induction l as [|a l IH]; intros seen Hk; cbn; [reflexivity|].
  destruct (keep a) eqn:Ea; cbn.
  - destruct (bool_decide (key a ∉ seen)) eqn:Es; cbn.
    + destruct (bool_decide (key a = k)) eqn:Ek; [reflexivity|].
      apply IH. apply bool_decide_eq_false in Ek.
      intros Hin. apply elem_of_union in Hin as [Hin|Hin]; [|auto].
      apply elem_of_singleton in Hin. auto.
    + destruct (bool_decide (key a = k)) eqn:Ek; [|apply IH; exact Hk].
      apply bool_decide_eq_true in Ek. apply bool_decide_eq_false in Es.
      subst k. contradiction.
  - apply IH. exact Hk.
Qed.

(** A list with pairwise distinct fresh keys, all to be kept, is kept
    whole. *)
Lemma first_kept_fixed (l : list A) (seen : gset string) :
  Forall (fun a => keep a = true /\ key a ∉ seen) l ->
  NoDup (key <$> l) ->
  first_kept key keep seen l = l.
Proof.
  revert seen. induction l as [|a l IH]; intros seen HF HN; cbn; [reflexivity|].
  apply Forall_cons in HF as [[Hk Hs] HF].
  cbn in HN. apply NoDup_cons in HN as [Ha HN].
  rewrite Hk, (bool_decide_eq_true_2 _ Hs). cbn. f_equal.
  apply IH; [|exact HN].
  rewrite Forall_forall in HF |- *. intros b Hb.
  destruct (HF b Hb) as [Hkb Hsb]. split; [exact Hkb|].
  intros Hin. apply elem_of_union in Hin as [Hin|Hin]; [|auto].
  apply elem_of_singleton in Hin. apply Ha. rewrite <- Hin.
  apply list_elem_of_fmap. eauto.
Qed.

Lemma first_kept_idempotent (l : list A) :
  first_kept key keep ∅ (first_kept key keep ∅ l) = first_kept key keep ∅ l.
Proof. apply first_kept_fixed; [apply first_kept_Forall|apply first_kept_NoDup]. Qed.

End FirstOccurrence.

(** ** The URL pass and the title pass *)

Section Deduplication.
Import news_extractor.

Lemma url_step_shape (st : gset string * list Article) (a : Article) :
  url_step st a = dedup_step url_key url_keep st a.
Proof.
  destruct st as [seen unique]. unfold url_step, dedup_step, url_key, url_keep.
  destruct (url a) as [u|]; reflexivity.
Qed.

Lemma title_step_shape (st : gset string * list Article) (a : Article) :
  title_step st a = dedup_step title_key title_keep st a.
Proof.
  destruct st as [seen unique]. unfold title_step, dedup_step, title_key, title_keep.
  rewrite andb_comm. reflexivity.
Qed.

Lemma foldl_ext_step {S X} (f g : S -> X -> S) (l : list X) (s : S) :
  (forall s x, f s x = g s x) -> foldl f s l = foldl g s l.
Proof.
  intros H. revert s. induction l as [|x l IH]; intros s; cbn; [reflexivity|].
  rewrite H. apply IH.
Qed.

Lemma unique_articles_by_url_first_kept (articles : list Article) :
  unique_articles_by_url articles = first_kept url_key url_keep ∅ articles.
Proof.
  unfold unique_articles_by_url. destruct articles as [|a articles]; [reflexivity|].
  rewrite (foldl_ext_step _ _ _ _ url_step_shape).
  apply (foldl_dedup_step url_key url_keep (a :: articles) ∅ []).
Qed.

Lemma unique_articles_by_title_first_kept (articles : list Article) :
  unique_articles_by_title articles = first_kept title_key title_keep ∅ articles.
Proof.
  unfold unique_articles_by_title.
  rewrite (foldl_ext_step _ _ _ _ title_step_shape).
  apply (foldl_dedup_step title_key title_keep articles ∅ []).
Qed.

Lemma length_lower (s : string) : String.length (Py.lower s) = String.length s.
Proof. induction s as [|c s IH]; cbn; [reflexivity|]. rewrite IH. reflexivity. Qed.

Lemma find_ext_in {X} (P Q : X -> bool) (l : list X) :
  (forall x, x ∈ l -> P x = Q x) -> List.find P l = List.find Q l.
Proof.
  induction l as [|x l IH]; intros H; cbn; [reflexivity|].
  rewrite (H x) by apply list_elem_of_here.
  destruct (Q x); [reflexivity|]. apply IH.
  intros y Hy. apply H. apply list_elem_of_further. exact Hy.
Qed.

End Deduplication.

(** C4: on candidates that all have a non-empty URL, the URL pass returns
    a subsequence of its input (so no longer than it, and in input order)
    in which no two articles have the same URL, and for every URL the
    article kept is the first of the input with that URL. *)
Theorem C4_url_pass_keeps_first_of_each_url (articles : list Article) :
  Forall (fun a => exists u, url a = Some u /\ u <> EmptyString) articles ->
  let unique := news_extractor.unique_articles_by_url articles in
  sublist unique articles
  /\ (length unique <= length articles)%nat
  /\ NoDup (url <$> unique)
  /\ forall u : string,
       List.find (fun a => bool_decide (url a = Some u)) unique
       = List.find (fun a => bool_decide (url a = Some u)) articles.
Proof.
  intros Hurl unique. subst unique.
  rewrite unique_articles_by_url_first_kept.
  pose proof (first_kept_sublist url_key url_keep articles ∅) as Hsub.
  assert (Hall : forall a, a ∈ articles ->
            forall u, bool_decide (url a = Some u)
                      = url_keep a && bool_decide (url_key a = u)).
  { rewrite Forall_forall in Hurl. intros a Ha u.
    destruct (Hurl a Ha) as (v & Ev & Hv).
    unfold url_keep, url_key. rewrite Ev. cbn.
    destruct v; [contradiction|]. cbn.
    apply bool_decide_ext. split; congruence. }
  split_and!.
  - exact Hsub.
  - apply sublist_length, Hsub.
  - apply (NoDup_fmap_1 (default EmptyString)).
    rewrite <- list_fmap_compose. apply (first_kept_NoDup url_key url_keep).
  - intros u.
    rewrite (find_ext_in _ (fun b => url_keep b && bool_decide (url_key b = u))
                         articles) by (intros a Ha; apply Hall, Ha).
    rewrite <- (first_kept_find url_key url_keep u articles ∅)
      by apply not_elem_of_empty.
    apply find_ext_in. intros a Ha.
    rewrite Hall by (eapply elem_of_sublist; eauto).
    pose proof (first_kept_Forall url_key url_keep articles ∅) as HF.
    rewrite Forall_forall in HF. destruct (HF a Ha) as [-> _]. reflexivity.
Qed.

Lemma C4_witness :
  sublist (news_extractor.unique_articles_by_url sample_candidates) sample_candidates
  /\ news_extractor.unique_articles_by_url sample_candidates
     = [ candidate "Agents in production: lessons" "https://example.org/agents";
         candidate "Vector databases compared" "https://example.org/vectors";
         candidate "Short" "https://example.org/short";
         candidate "VECTOR DATABASES COMPARED" "https://example.org/vectors-2" ].
Proof.
  split; [|vm_compute; reflexivity].
  refine (proj1 (C4_url_pass_keeps_first_of_each_url sample_candidates _)).
  repeat constructor; eexists; (split; [reflexivity|discriminate]).
Defined.

(** C5 (amended): the title pass keeps an article only if its title is
    longer than 15 characters; an article whose title has 15 characters or
    fewer is dropped.  Among the articles with longer titles the first of
    each title, compared without regard to letter case, is kept and the
    later ones are removed; the articles kept stand in input order. *)
Theorem C5_title_pass_drops_short_titles (articles : list Article) :
  let unique := news_extractor.unique_articles_by_title articles in
  sublist unique articles
  /\ Forall (fun a => (15 < String.length (title a))%nat) unique
  /\ (forall a, (String.length (title a) <= 15)%nat -> a ∉ unique)
  /\ NoDup ((fun a => Py.lower (title a)) <$> unique)
  /\ forall t : string, (15 < String.length t)%nat ->
       List.find (fun a => bool_decide (Py.lower (title a) = t)) unique
       = List.find (fun a => bool_decide (Py.lower (title a) = t)) articles.
Proof.
  intros unique. subst unique. rewrite unique_articles_by_title_first_kept.
  pose proof (first_kept_Forall title_key title_keep articles ∅) as HF.
  assert (Hlong : Forall (fun a => (15 < String.length (title a))%nat)
                         (first_kept title_key title_keep ∅ articles)).
  { eapply Forall_impl; [exact HF|]. intros a [Hk _].
    unfold title_keep in Hk. rewrite length_lower in Hk.
    apply Nat.ltb_lt in Hk. exact Hk. }
  split_and!.
  - apply first_kept_sublist.
  - exact Hlong.
  - intros a Hshort Hin. rewrite Forall_forall in Hlong.
    specialize (Hlong a Hin). lia.
  - apply (first_kept_NoDup title_key title_keep).
  - intros t Ht.
    rewrite (first_kept_find title_key title_keep t articles ∅)
      by apply not_elem_of_empty.
    apply find_ext_in. intros a _. unfold title_keep, title_key.
    destruct (bool_decide (Py.lower (title a) = t)) eqn:E;
      [|rewrite andb_false_r; reflexivity].
    apply bool_decide_eq_true in E. rewrite E.
    apply Nat.ltb_lt in Ht. rewrite Ht. reflexivity.
Qed.

Lemma C5_witness :
  news_extractor.unique_articles_by_title sample_candidates
  = [ candidate "Agents in production: lessons" "https://example.org/agents";
      candidate "Vector databases compared" "https://example.org/vectors";
      candidate "Agents in production (feed)" "https://example.org/agents" ]
  /\ candidate "Short" "https://example.org/short"
     ∉ news_extractor.unique_articles_by_title sample_candidates.
Proof.
  split; [vm_compute; reflexivity|].
  refine (proj1 (proj2 (proj2 (C5_title_pass_drops_short_titles sample_candidates))) _ _).
  cbn. lia.
Defined.

(** C5, as stated, fails: an article whose title has five characters is
    dropped by the title pass, not kept. *)
Lemma C5_counterexample :
  (String.length (title (candidate "Short" "https://example.org/short")) <= 15)%nat
  /\ news_extractor.unique_articles_by_title
       [candidate "Short" "https://example.org/short"] = []
  /\ news_extractor.unique_articles_by_title
       [candidate "Short" "https://example.org/short"]
     <> [candidate "Short" "https://example.org/short"].
Proof.
  split_and!.
  - cbn. lia.
  - vm_compute. reflexivity.
  - vm_compute. discriminate.
Qed.

(** C9: the title pass is idempotent: applied to its own output it
    returns that output, every article in its place. *)
Theorem C9_title_pass_idempotent (articles : list Article) :
  news_extractor.unique_articles_by_title
    (news_extractor.unique_articles_by_title articles)
  = news_extractor.unique_articles_by_title articles.
Proof.
  rewrite !unique_articles_by_title_first_kept.
  apply first_kept_idempotent.
Qed.

(** ** Trend detection *)

Section Trends.
Import chroma_db.

Lemma foldl_append_if {X Y} (p : X -> bool) (f : X -> Y) (l : list X) (acc : list Y) :
  foldl (fun acc x => if p x then acc ++ [f x] else acc) acc l
  = acc ++ (f <$> List.filter p l).
Proof.
  revert acc. induction l as [|x l IH]; intros acc; cbn.
  - rewrite app_nil_r. reflexivity.
  - rewrite IH. destruct (p x); [|reflexivity].
    cbn. rewrite <- app_assoc. reflexivity.
Qed.

(** The dict of counts holds, in vocabulary order, the terms that occur
    at least twice. *)
Lemma term_counts_filter (text : string) :
  term_counts text
  = (fun term => (term, Py.count (Py.lower term) (Py.lower text)))
      <$> List.filter (fun term => (2 <=? Py.count (Py.lower term) (Py.lower text))%nat)
                      ai_terms.
Proof.
  unfold term_counts.
  apply (foldl_append_if
           (fun term => (2 <=? Py.count (Py.lower term) (Py.lower text))%nat)
           (fun term => (term, Py.count (Py.lower term) (Py.lower text)))
           ai_terms []).
Qed.

Lemma detect_trends_unfold (articles : list Article) :
  detect_trends articles
  = describe <$> take 3 (Py.sort_desc (fun y x => (y.2 <=? x.2)%nat)
                                      (term_counts (total_text articles))).
Proof. destruct articles; reflexivity. Qed.

Lemma count_leb_total (x y : string * nat) :
  (x.2 <=? y.2)%nat = true \/ (y.2 <=? x.2)%nat = true.
Proof. rewrite !Nat.leb_le. lia. Qed.

Lemma count_leb_trans (x y z : string * nat) :
  (x.2 <=? y.2)%nat = true -> (y.2 <=? z.2)%nat = true -> (x.2 <=? z.2)%nat = true.
Proof. rewrite !Nat.leb_le. lia. Qed.

(** With GPT counted three times and every other term less than twice,
    GPT alone qualifies. *)
Lemma only_gpt_qualifies (cnt : string -> nat) :
  cnt "GPT" = 3%nat ->
  (forall term, term ∈ ai_terms -> term <> "GPT" -> (cnt term < 2)%nat) ->
  (fun term => (term, cnt term))
    <$> List.filter (fun term => (2 <=? cnt term)%nat) ai_terms
  = [("GPT", 3%nat)].
Proof.
  intros Hgpt Hother.
  assert (Hno : forall term, term ∈ ai_terms -> term <> "GPT" ->
                             (2 <=? cnt term)%nat = false)
    by (intros; apply Nat.leb_gt; auto).
  unfold ai_terms in Hno |- *. cbn [List.filter].
  rewrite Hgpt. change (2 <=? 3)%nat with true. cbv iota.
  rewrite !Hno
    by first [discriminate
             |repeat first [apply list_elem_of_here|apply list_elem_of_further]].
  cbn. rewrite Hgpt. reflexivity.
Qed.

End Trends.

(** C7: [detect_trends] returns at most three trends.  It counts, for
    every term of the vocabulary, the occurrences of the lower-cased term
    in the lower-cased concatenation of the articles' title and summary
    texts, keeps the terms that occur at least twice, ranks them by count,
    highest first, terms of equal count in vocabulary order, and describes
    the first three as [<term> developments (mentioned <count> times)].
    When GPT occurs three times, NLP once and no other term twice, the
    result is the single trend of GPT. *)
Theorem C7_detect_trends_top_three (articles : list Article) :
  let text := Py.lower (chroma_db.total_text articles) in
  let occurrences := fun term => Py.count (Py.lower term) text in
  let qualifying :=
    (fun term => (term, occurrences term))
      <$> List.filter (fun term => (2 <=? occurrences term)%nat) chroma_db.ai_terms in
  let trends := chroma_db.detect_trends articles in
  (length trends <= 3)%nat
  /\ (exists ranked : list (string * nat),
        trends = chroma_db.describe <$> take 3 ranked
        /\ ranked ≡ₚ qualifying
        /\ StronglySorted (fun x y => (y.2 <= x.2)%nat) ranked
        /\ forall c : nat,
             List.filter (fun x => (x.2 =? c)%nat) ranked
             = List.filter (fun x => (x.2 =? c)%nat) qualifying)
  /\ (forall t, t ∈ trends ->
        exists term, term ∈ chroma_db.ai_terms
          /\ (2 <= occurrences term)%nat
          /\ t = term +:+ " developments (mentioned "
                   +:+ pretty (occurrences term) +:+ " times)")
  /\ (occurrences "GPT" = 3%nat -> occurrences "NLP" = 1%nat ->
      (forall term, term ∈ chroma_db.ai_terms -> term <> "GPT" ->
                    (occurrences term < 2)%nat) ->
      trends = ["GPT developments (mentioned 3 times)"]).
Proof.
  intros text occurrences qualifying trends.
  assert (Htrends : trends = chroma_db.describe <$> take 3
            (Py.sort_desc (fun y x => (y.2 <=? x.2)%nat) qualifying)).
  { subst trends qualifying occurrences text.
    rewrite detect_trends_unfold, term_counts_filter. reflexivity. }
  clearbody trends. subst trends.
  assert (Hperm := sort_desc_perm (fun y x : string * nat => (y.2 <=? x.2)%nat) qualifying).
  split_and!.
  - rewrite length_fmap, length_take. lia.
  - eexists. split_and!; [reflexivity|exact Hperm| |].
    + eapply StronglySorted_weaken;
        [|apply sort_desc_sorted;
          [intros x y; apply count_leb_total
          |intros x y z; apply count_leb_trans]].
      cbn. intros x y. apply Nat.leb_le.
    + intros c. apply sort_desc_stable. intros x y Hx Hy.
      apply Nat.eqb_eq in Hx, Hy. apply Nat.leb_le. lia.
  - intros t Ht. apply list_elem_of_fmap in Ht as ([term count] & -> & Hin).
    apply elem_of_take in Hin as (i & Hin & _).
    apply list_elem_of_lookup_2 in Hin. rewrite Hperm in Hin.
    subst qualifying. apply list_elem_of_fmap in Hin as (term' & E & Hin).
    inversion E; subst term' count; clear E.
    apply list_elem_of_In, filter_In in Hin as [Hin Hc].
    exists term. split_and!.
    + apply list_elem_of_In, Hin.
    + apply Nat.leb_le, Hc.
    + reflexivity.
  - intros Hgpt Hnlp Hother.
    assert (Hq : qualifying = [("GPT", 3%nat)])
      by (apply (only_gpt_qualifies occurrences); assumption).
    rewrite Hq. vm_compute. reflexivity.
Qed.

Lemma C7_witness :
  chroma_db.detect_trends sample_corpus = ["GPT developments (mentioned 3 times)"].
Proof.
  refine (proj2 (proj2 (proj2 (C7_detect_trends_top_three sample_corpus))) _ _ _).
  - vm_compute. reflexivity.
  - vm_compute. reflexivity.
  - intros term Hin Hne. apply Nat.ltb_lt.
    unfold chroma_db.ai_terms in Hin.
    repeat (apply elem_of_cons in Hin as [->|Hin];
            [first [congruence|vm_compute; reflexivity]|]).
    inversion Hin.
Defined.

(** ** Body-text extraction *)

Section Extraction.
Import enhanced_content_fetcher.

Lemma one_paragraph_text (separator : string) (classes : list string) (s : string) :
  Py.strip s <> EmptyString ->
  get_text separator true (Tag "p" classes [NavigableString s]) = Py.strip s.
Proof.
  intros Hne. unfold get_text. cbn.
  destruct (Py.strip s); [contradiction|reflexivity].
Qed.

(** Strategy 1 returns nothing when no element has more than 200
    characters of text. *)
Lemma strategy1_none (soup : node) (selectors : list selector) :
  (forall e, e ∈ descendants soup ->
             (String.length (get_text " " true e) <= 200)%nat) ->
  strategy1 soup selectors = None.
Proof.
  intros Hshort. induction selectors as [|sel rest IH]; [reflexivity|].
  cbn [strategy1].
  destruct (select_one sel soup) as [e|] eqn:E; [|exact IH].
  apply find_some in E as [Hin _]. apply list_elem_of_In in Hin.
  apply Hshort in Hin. apply Nat.ltb_ge in Hin. rewrite Hin. exact IH.
Qed.

End Extraction.

(** C8: for a document that holds nothing but one paragraph whose text
    has 60 characters, [_extract_article_text] returns that text as it is,
    through strategy 3: strategy 1 returns nothing, the text of strategy 2
    has no more than 200 characters, and the text is not the sentinel.  On
    every document the sentinel [No content extracted] comes from the last
    branch only: when the paragraphs give a non-empty text the result is
    text of the document, and the sentinel is returned when strategies 1
    and 2 give nothing and the paragraphs give the empty text. *)
Theorem C8_single_paragraph_is_returned_verbatim
  (classes : list string) (s : string) (soup : enhanced_content_fetcher.node) :
  (String.length (Py.strip s) = 60%nat ->
     let doc := one_paragraph classes s in
     enhanced_content_fetcher.strategy1 doc enhanced_content_fetcher.content_selectors = None
     /\ (String.length (enhanced_content_fetcher.full_text doc) <= 200)%nat
     /\ enhanced_content_fetcher.para_text doc = Py.strip s
     /\ enhanced_content_fetcher._extract_article_text doc = Py.strip s
     /\ enhanced_content_fetcher._extract_article_text doc
        <> enhanced_content_fetcher.no_content)
  /\ (enhanced_content_fetcher.para_text soup <> EmptyString ->
      enhanced_content_fetcher.strategy1 soup enhanced_content_fetcher.content_selectors
        = Some (enhanced_content_fetcher._extract_article_text soup)
      \/ (enhanced_content_fetcher._extract_article_text soup
            = enhanced_content_fetcher.full_text soup
          /\ (200 < String.length (enhanced_content_fetcher.full_text soup))%nat)
      \/ enhanced_content_fetcher._extract_article_text soup
           = enhanced_content_fetcher.para_text soup)
  /\ (enhanced_content_fetcher.strategy1 soup enhanced_content_fetcher.content_selectors = None ->
      (String.length (enhanced_content_fetcher.full_text soup) <= 200)%nat ->
      enhanced_content_fetcher.para_text soup = EmptyString ->
      enhanced_content_fetcher._extract_article_text soup
        = enhanced_content_fetcher.no_content).
Proof.
  split_and!.
  - intros Hlen doc.
    assert (Hne : Py.strip s <> EmptyString)
      by (intros E; rewrite E in Hlen; discriminate).
    assert (H1 : enhanced_content_fetcher.strategy1 doc
                   enhanced_content_fetcher.content_selectors = None).
    { apply strategy1_none. intros e He. subst doc. unfold one_paragraph in He.
      cbn in He. apply elem_of_cons in He as [->|He].
      - rewrite one_paragraph_text by exact Hne. lia.
      - apply list_elem_of_singleton in He as ->.
        unfold enhanced_content_fetcher.get_text. cbn.
        destruct (Py.strip s); cbn in *; lia. }
    assert (H2 : enhanced_content_fetcher.full_text doc = Py.strip s).
    { subst doc. unfold enhanced_content_fetcher.full_text, one_paragraph.
      cbn [enhanced_content_fetcher.find_all enhanced_content_fetcher.descendants
           enhanced_content_fetcher.document flat_map app List.filter existsb
           String.eqb Ascii.eqb Bool.eqb orb fmap list_fmap].
      rewrite one_paragraph_text by exact Hne.
      rewrite Hlen. reflexivity. }
    assert (H3 : enhanced_content_fetcher.para_text doc = Py.strip s).
    { subst doc. unfold enhanced_content_fetcher.para_text, one_paragraph.
      cbn [enhanced_content_fetcher.find_all enhanced_content_fetcher.descendants
           enhanced_content_fetcher.document flat_map app List.filter existsb
           String.eqb Ascii.eqb Bool.eqb orb fmap list_fmap].
      rewrite one_paragraph_text by exact Hne. reflexivity. }
    assert (H4 : enhanced_content_fetcher._extract_article_text doc = Py.strip s).
    { unfold enhanced_content_fetcher._extract_article_text.
      rewrite H1, H2, H3, Hlen. cbn.
      destruct (Py.strip s); [contradiction|reflexivity]. }
    split_and!; auto.
    + rewrite H2, Hlen. lia.
    + rewrite H4. intros E. rewrite E in Hlen. discriminate.
  - intros Hpara. unfold enhanced_content_fetcher._extract_article_text.
    destruct (enhanced_content_fetcher.strategy1 soup _) as [text|]; [left; reflexivity|].
    destruct (200 <? String.length (enhanced_content_fetcher.full_text soup))%nat eqn:E.
    + right. left. split; [reflexivity|apply Nat.ltb_lt, E].
    + right. right.
      destruct (enhanced_content_fetcher.para_text soup); [contradiction|reflexivity].
  - intros H1 H2 H3. unfold enhanced_content_fetcher._extract_article_text.
    rewrite H1, H3. apply Nat.ltb_ge in H2. rewrite H2. reflexivity.
Qed.

Lemma C8_witness :
  enhanced_content_fetcher._extract_article_text
    (one_paragraph ["content"] sample_paragraph)
  = "Researchers report a new sparse attention kernel for the GPU".
Proof.
  exact (proj1 (proj2 (proj2 (proj2
    (proj1 (C8_single_paragraph_is_returned_verbatim
              ["content"] sample_paragraph
              (enhanced_content_fetcher.document [])) eq_refl))))).
Defined.

(** * Further properties of the code *)

(** ** Curation leaves the articles' own keys alone *)

Section CurationFrame.
Import llm_test.

Variable generate_response : nat -> string -> option string.

Lemma curate_loop_frame (articles : list nat) (i : nat) (h : nat -> Article)
      (acc : list nat) :
  let '(i', h', acc') := foldl (curate_step generate_response) (i, h, acc) articles in
  (i' = i + length articles)%nat
  /\ (forall a, same_content (h' a) (h a))
  /\ (forall a, a ∉ articles -> h' a = h a).
Proof.
  revert i h acc. induction articles as [|x articles IH]; intros i h acc.
  - cbn. split_and!; [lia| |reflexivity]. intros a. repeat split.
  - cbn [foldl curate_step].
    specialize (IH (S i)
      (<[x := set_analysis (analyze_article_quality generate_response i (h x)) (h x)]> h)
      (acc ++ [x])).
    destruct (foldl _ _ articles) as [[i2 h2] acc2].
    destruct IH as (-> & Hsame & Hout). split_and!.
    + cbn. lia.
    + intros a. destruct (Hsame a) as (Ht & Hs & Hc & Hu).
      destruct (decide (x = a)) as [->|Hne].
      * rewrite fn_lookup_insert in Ht, Hs, Hc, Hu. cbn in Ht, Hs, Hc, Hu.
        repeat split; assumption.
      * rewrite fn_lookup_insert_ne in Ht, Hs, Hc, Hu by exact Hne.
        repeat split; assumption.
    + intros a Ha. apply not_elem_of_cons in Ha as [Hne Ha].
      rewrite (Hout a Ha). apply fn_lookup_insert_ne. congruence.
Qed.

(** The loop only appends: started with a list, it ends with that list
    followed by what it appends when started with the empty list. *)
Lemma curate_loop_acc (articles : list nat) (i : nat) (h : nat -> Article)
      (acc : list nat) :
  foldl (curate_step generate_response) (i, h, acc) articles
  = let '(i', h', out) := foldl (curate_step generate_response) (i, h, []) articles in
    (i', h', acc ++ out).
Proof.
  revert i h acc. induction articles as [|x articles IH]; intros i h acc.
  - cbn. rewrite app_nil_r. reflexivity.
  - cbn [foldl curate_step].
    rewrite (IH _ _ (acc ++ [x])), (IH _ _ ([] ++ [x])).
    destruct (foldl _ _ articles) as [[i2 h2] out]. cbn.
    rewrite <- app_assoc. reflexivity.
Qed.

End CurationFrame.

(** X1: [curate_articles] returns as many articles as it was given and
    changes nothing but the two keys it sets: at every location the title,
    summary, source and url are as before, and an article that is not in
    the list is left exactly as it was. *)
Theorem X1_curation_frame
  (generate_response : nat -> string -> option string)
  (articles : list loc) (h : store) :
  let curated := (llm_test.curate_articles generate_response articles h).1 in
  let h' := (llm_test.curate_articles generate_response articles h).2 in
  length curated = length articles
  /\ (forall a, title (h' a) = title (h a) /\ summary (h' a) = summary (h a)
               /\ source (h' a) = source (h a) /\ url (h' a) = url (h a))
  /\ (forall a, a ∉ articles -> h' a = h a).
Proof.
  cbv zeta. split.
  - destruct (curate_articles_unfold generate_response articles h) as (h' & -> & _).
    cbn. apply Permutation_length, sort_desc_perm.
  - unfold llm_test.curate_articles. destruct articles as [|a0 articles].
    + cbn. split; [intros; repeat split|reflexivity].
    + pose proof (curate_loop_frame generate_response (a0 :: articles) O h []) as H.
      destruct (foldl _ _ (a0 :: articles)) as [[i' h'] acc'].
      destruct H as (_ & Hsame & Hout). cbn [snd]. split; [exact Hsame|exact Hout].
Qed.

(** ** Analysis in batches *)

Section Batches.
Import llm_test.

Variable generate_response : nat -> string -> option string.

Lemma take_take_drop {X} (n m : nat) (l : list X) :
  take n l ++ take m (drop n l) = take (n + m) l.
Proof.
  revert l. induction n as [|n IH]; intros l; [reflexivity|].
  destruct l as [|x l]; [cbn; rewrite take_nil; reflexivity|].
  cbn. rewrite IH. reflexivity.
Qed.

(** One round of the outer loop runs the common loop body over the
    batch. *)
Lemma batch_step_loop (articles : list nat) (b : nat)
      (st : nat * (nat -> Article) * list nat) (i : nat) :
  batch_step generate_response articles b st i
  = foldl (curate_step generate_response) st (take b (drop i articles)).
Proof.
  destruct st as [[c h] acc]. unfold batch_step, PyMore.slice.
  replace (i + b - i)%nat with b by lia.
  rewrite (curate_loop_acc generate_response _ c h acc).
  destruct (foldl _ _ (take b (drop i articles))) as [[c' h'] out]. reflexivity.
Qed.

(** The batches, one after the other, are the list. *)
Lemma foldl_batches (articles : list nat) (b m : nat)
      (st : nat * (nat -> Article) * list nat) :
  foldl (batch_step generate_response articles b) st
        ((fun k => k * b)%nat <$> seq 0 m)
  = foldl (curate_step generate_response) st (take (m * b) articles).
Proof.
  induction m as [|m IH].
  - cbn. rewrite take_0. reflexivity.
  - rewrite seq_S, fmap_app, foldl_app, IH. cbn [fmap list_fmap foldl].
    rewrite batch_step_loop, <- foldl_app, take_take_drop.
    f_equal. f_equal. lia.
Qed.

Lemma batches_cover (n b : nat) : (0 < b)%nat -> (n <= (n + b - 1) / b * b)%nat.
Proof.
  intros Hb.
  pose proof (Nat.mul_succ_div_gt (n + b - 1) b ltac:(lia)) as H. nia.
Qed.

End Batches.

(** X2: with a positive batch size [batch_analyze_articles] returns what
    [curate_articles] returns, the same list in the same order and the
    articles scored by the same calls.  With a negative batch size it
    analyses no article and returns the empty list, and with a batch size
    of zero it raises, each on a list that is not empty. *)
Theorem X2_batches_agree_with_curation
  (generate_response : nat -> string -> option string)
  (articles : list loc) (batch_size : Z) (h : store) :
  (0 < batch_size ->
     llm_test.batch_analyze_articles generate_response articles batch_size h
     = Some (llm_test.curate_articles generate_response articles h))
  /\ (batch_size < 0 -> articles <> [] ->
     llm_test.batch_analyze_articles generate_response articles batch_size h
     = Some ([], h))
  /\ (batch_size = 0 -> articles <> [] ->
     llm_test.batch_analyze_articles generate_response articles batch_size h
     = None).
Proof.
  split_and!.
  - intros Hb. unfold llm_test.batch_analyze_articles, llm_test.curate_articles.
    destruct articles as [|a0 articles]; [reflexivity|].
    unfold PyMore.range_from_zero.
    replace (batch_size =? 0) with false by (symmetry; apply Z.eqb_neq; lia).
    replace (batch_size <? 0) with false by (symmetry; apply Z.ltb_ge; lia).
    cbn [mbind option_bind].
    rewrite foldl_batches.
    rewrite take_ge by (apply batches_cover; lia).
    destruct (foldl _ _ (a0 :: articles)) as [[i' h'] out]. reflexivity.
  - intros Hb Hne. unfold llm_test.batch_analyze_articles.
    destruct articles as [|a0 articles]; [contradiction|].
    unfold PyMore.range_from_zero.
    replace (batch_size =? 0) with false by (symmetry; apply Z.eqb_neq; lia).
    replace (batch_size <? 0) with true by (symmetry; apply Z.ltb_lt; lia).
    reflexivity.
  - intros -> Hne. unfold llm_test.batch_analyze_articles.
    destruct articles as [|a0 articles]; [contradiction|]. reflexivity.
Qed.

Lemma X2_witness :
  llm_test.batch_analyze_articles sample_service [0; 1; 2; 3]%nat 3 sample_store
  = Some (llm_test.curate_articles sample_service [0; 1; 2; 3]%nat sample_store).
Proof.
  refine (proj1 (X2_batches_agree_with_curation
                   sample_service [0; 1; 2; 3]%nat 3 sample_store) _).
  lia.
Defined.

(** ** The trend summary *)

Lemma trends_prompt_first_ten (articles : list Article) :
  llm_test.trends_prompt (take 10 articles) = llm_test.trends_prompt articles.
Proof. unfold llm_test.trends_prompt. rewrite take_take. reflexivity. Qed.

(** X3: [summarize_trends] never returns the empty string: a missing or
    empty reply is replaced by a fixed text.  Its result depends on the
    first ten articles only, and on an empty list it is a fixed text,
    whatever the service would answer. *)
Theorem X3_summarize_trends_total
  (generate_response : nat -> string -> option string)
  (call : nat) (articles : list Article) :
  llm_test.summarize_trends generate_response call articles <> EmptyString
  /\ llm_test.summarize_trends generate_response call (take 10 articles)
     = llm_test.summarize_trends generate_response call articles
  /\ forall other_service : nat -> string -> option string,
       llm_test.summarize_trends other_service call []
       = llm_test.summarize_trends generate_response call [].
Proof.
  split_and!.
  - unfold llm_test.summarize_trends. destruct articles; [discriminate|].
    destruct (generate_response call _) as [response|]; [|discriminate].
    destruct response; [discriminate|]. cbn. discriminate.
  - unfold llm_test.summarize_trends.
    rewrite trends_prompt_first_ten. destruct articles; reflexivity.
  - reflexivity.
Qed.

(** ** Trend detection reads the lower-cased text only *)

Section TrendsCase.
Import chroma_db.

Lemma lower_app (a b : string) : Py.lower (a +:+ b) = Py.lower a +:+ Py.lower b.
Proof.
  induction a as [|c a IH]; [reflexivity|].
  change (String c a +:+ b) with (String c (a +:+ b)). cbn [Py.lower].
  rewrite IH. reflexivity.
Qed.

Lemma total_text_lowered (l1 l2 : list Article) (acc : string) :
  Forall2 (fun a b => Py.lower (title a) = Py.lower (title b)
                      /\ Py.lower (summary a) = Py.lower (summary b)) l1 l2 ->
  foldl (fun total article =>
           total +:+ Py.lower (title article +:+ " " +:+ summary article) +:+ " ")
        acc l1
  = foldl (fun total article =>
             total +:+ Py.lower (title article +:+ " " +:+ summary article) +:+ " ")
          acc l2.
Proof.
  intros H. revert acc. induction H as [|a b l1 l2 [Ht Hs] _ IH]; intros acc.
  - reflexivity.
  - cbn [foldl]. rewrite !lower_app, Ht, Hs. apply IH.
Qed.

End TrendsCase.

(** X4: [detect_trends] reads nothing of an article but the lower-cased
    title and summary: two lists whose articles agree, place by place, on
    these give the same trends, whatever the letter case of their texts and
    whatever their other keys. *)
Theorem X4_detect_trends_ignores_case (articles1 articles2 : list Article) :
  Forall2 (fun a b => Py.lower (title a) = Py.lower (title b)
                      /\ Py.lower (summary a) = Py.lower (summary b))
          articles1 articles2 ->
  chroma_db.detect_trends articles1 = chroma_db.detect_trends articles2.
Proof.
  intros H. rewrite !detect_trends_unfold. unfold chroma_db.total_text.
  rewrite (total_text_lowered _ _ EmptyString H). reflexivity.
Qed.

Lemma X4_witness :
  chroma_db.detect_trends
    [ mkArticle "gpt-4 IS OUT" "the new gpt MODEL" "x" (Some "u") None None;
      mkArticle "nlp news" "WHY GPT MATTERS" "y" None None None ]
  = chroma_db.detect_trends sample_corpus.
Proof.
  apply X4_detect_trends_ignores_case.
  repeat constructor.
Defined.

(** ** The URL pass on any candidates, and the fetch chain *)

Section UrlPass.
Import news_extractor.

(** For a URL that is not empty, having it is being kept under its key. *)
Lemma url_kept_as (u : string) (a : Article) :
  u <> EmptyString ->
  bool_decide (url a = Some u) = url_keep a && bool_decide (url_key a = u).
Proof.
  intros Hu. unfold url_keep, url_key. destruct (url a) as [v|]; cbn.
  - destruct v as [|c v]; cbn.
    + apply bool_decide_eq_false_2. intros E. apply Hu. congruence.
    + apply bool_decide_ext. split; congruence.
  - apply bool_decide_eq_false_2. discriminate.
Qed.

Lemma url_keep_nonempty (a : Article) :
  url_keep a = true -> exists u, url a = Some u /\ u <> EmptyString.
Proof.
  unfold url_keep. destruct (url a) as [[|c v]|]; try discriminate.
  intros _. eexists. split; [reflexivity|discriminate].
Qed.

Lemma find_app_found {X} (P : X -> bool) (l1 l2 : list X) (x : X) :
  List.find P l1 = Some x -> List.find P (l1 ++ l2) = Some x.
Proof.
  induction l1 as [|y l1 IH]; cbn; [discriminate|].
  destruct (P y); auto.
Qed.

(** The article kept for a URL that is not empty is the first of the
    input with it. *)
Lemma unique_articles_by_url_find (articles : list Article) (u : string) :
  u <> EmptyString ->
  List.find (fun a => bool_decide (url a = Some u)) (unique_articles_by_url articles)
  = List.find (fun a => bool_decide (url a = Some u)) articles.
Proof.
  intros Hu. rewrite unique_articles_by_url_first_kept.
  rewrite (find_ext_in _ (fun b => url_keep b && bool_decide (url_key b = u))
                       articles) by (intros a _; apply url_kept_as, Hu).
  rewrite <- (first_kept_find url_key url_keep u articles ∅)
    by apply not_elem_of_empty.
  apply find_ext_in. intros a Ha. rewrite url_kept_as by exact Hu.
  pose proof (first_kept_Forall url_key url_keep articles ∅) as HF.
  rewrite Forall_forall in HF. destruct (HF a Ha) as [-> _]. reflexivity.
Qed.

End UrlPass.

(** X5: on any list of candidates, also ones without a URL, the URL pass
    returns a subsequence in which every article has a URL that is not
    empty and no two have the same; a candidate whose URL is missing or
    empty is dropped; for every URL that is not empty the article kept is
    the first of the input with it; and the pass applied to its own output
    changes nothing. *)
Theorem X5_url_pass_on_any_candidates (articles : list Article) :
  let unique := news_extractor.unique_articles_by_url articles in
  sublist unique articles
  /\ NoDup (url <$> unique)
  /\ Forall (fun a => exists u, url a = Some u /\ u <> EmptyString) unique
  /\ (forall a, url a = None \/ url a = Some EmptyString -> a ∉ unique)
  /\ (forall u, u <> EmptyString ->
        List.find (fun a => bool_decide (url a = Some u)) unique
        = List.find (fun a => bool_decide (url a = Some u)) articles)
  /\ news_extractor.unique_articles_by_url unique = unique.
Proof.
  intros unique. subst unique.
  split_and!; [| | | |apply unique_articles_by_url_find|];
    rewrite !unique_articles_by_url_first_kept.
  all: pose proof (first_kept_Forall url_key url_keep articles ∅) as HF.
  all: assert (Hurl : Forall (fun a => exists u, url a = Some u /\ u <> EmptyString)
                        (first_kept url_key url_keep ∅ articles))
    by (eapply Forall_impl; [exact HF|]; intros a [Hk _];
        apply url_keep_nonempty, Hk).
  - apply first_kept_sublist.
  - apply (NoDup_fmap_1 (default EmptyString)).
    rewrite <- list_fmap_compose. apply (first_kept_NoDup url_key url_keep).
  - exact Hurl.
  - intros a Ha Hin. rewrite Forall_forall in Hurl.
    destruct (Hurl a Hin) as (u & Eu & Hu). destruct Ha as [Ha|Ha]; congruence.
  - apply first_kept_idempotent.
Qed.

(** X6: in the fetch chain of [extract_from_website] the feed's articles
    always come first in the merged list; with five or more of them nothing
    else is merged, and with five or more after the static page the
    Selenium results play no part; a merged list of fewer than five holds
    the results of all three methods; a source without a known feed gets
    nothing from the feed reader; and an article of the feed with a URL
    that is not empty is the one the URL pass keeps for that URL, whatever
    the later methods found. *)
Theorem X6_fetch_chain_priority
  (extract_from_rss basic selenium : string -> string -> list Article)
  (site source_name : string) :
  let rss := match news_extractor.rss_urls !! source_name with
             | Some rss_url => extract_from_rss rss_url source_name
             | None => []
             end in
  let found := news_extractor.found_articles extract_from_rss basic selenium
                 site source_name in
  (exists rest, found = rss ++ rest)
  /\ ((5 <= length rss)%nat -> found = rss)
  /\ ((5 <= length (rss ++ basic site source_name))%nat ->
      forall other_selenium,
        news_extractor.found_articles extract_from_rss basic other_selenium
          site source_name = found)
  /\ ((length found < 5)%nat ->
      found = rss ++ basic site source_name ++ selenium site source_name)
  /\ (news_extractor.rss_urls !! source_name = None ->
      forall other_rss,
        news_extractor.found_articles other_rss basic selenium site source_name
        = found)
  /\ (forall u a, u <> EmptyString ->
        List.find (fun b => bool_decide (url b = Some u)) rss = Some a ->
        List.find (fun b => bool_decide (url b = Some u))
                  (news_extractor.unique_articles_by_url found) = Some a).
Proof.
  intros rss found.
  assert (Hfound : found =
    let articles := if (length rss <? 5)%nat then rss ++ basic site source_name else rss in
    if (length articles <? 5)%nat then articles ++ selenium site source_name
    else articles) by reflexivity.
  assert (Hprefix : exists rest, found = rss ++ rest).
  { rewrite Hfound. cbv zeta.
    destruct (length rss <? 5)%nat;
      destruct (length _ <? 5)%nat; eexists;
      rewrite <- ?app_assoc; try reflexivity; symmetry; apply app_nil_r. }
  split_and!.
  - exact Hprefix.
  - intros H5. rewrite Hfound. cbv zeta.
    apply Nat.ltb_ge in H5. rewrite H5, H5. reflexivity.
  - intros H5 other. unfold found, news_extractor.found_articles. fold rss.
    destruct (length rss <? 5)%nat eqn:E.
    + apply Nat.ltb_ge in H5. rewrite H5. reflexivity.
    + rewrite E. reflexivity.
  - intros Hlt. rewrite Hfound in Hlt |- *. cbv zeta in Hlt |- *.
    destruct (length rss <? 5)%nat eqn:E1.
    + destruct (length (rss ++ basic site source_name) <? 5)%nat eqn:E2.
      * rewrite <- app_assoc. reflexivity.
      * apply Nat.ltb_ge in E2. lia.
    + rewrite E1 in Hlt |- *. apply Nat.ltb_ge in E1. lia.
  - intros Hnone other. unfold found, news_extractor.found_articles.
    rewrite Hnone. reflexivity.
  - intros u a Hu Hfind. destruct Hprefix as [rest ->].
    rewrite (unique_articles_by_url_find _ u Hu). apply find_app_found, Hfind.
Qed.

(** ** utils.py: cleaning text *)

Section CleanText.

Lemma split_ws_cons (c : ascii) (s : string) :
  PyMore.split_ws (String c s)
  = if Py.is_space c then PyMore.split_ws s
    else match s with
         | EmptyString => [String c EmptyString]
         | String d _ =>
             if Py.is_space d then String c EmptyString :: PyMore.split_ws s
             else match PyMore.split_ws s with
                  | w :: ws => String c w :: ws
                  | [] => [String c EmptyString]
                  end
         end.
Proof. destruct s; reflexivity. Qed.

Lemma is_word_cons (c : ascii) (w : string) :
  Py.is_space c = false ->
  all_chars (fun c => negb (Py.is_space c)) w = true ->
  is_word (String c w).
Proof. intros Hc Hw. split; [discriminate|]. cbn. rewrite Hc, Hw. reflexivity. Qed.

(** [str.split()] gives words. *)
Lemma split_ws_words (s : string) : Forall is_word (PyMore.split_ws s).
Proof.
  induction s as [|c s IH]; [constructor|].
  rewrite split_ws_cons. destruct (Py.is_space c) eqn:Ec; [exact IH|].
  destruct s as [|d s'].
  - repeat constructor; [discriminate|]. cbn. rewrite Ec. reflexivity.
  - destruct (Py.is_space d) eqn:Ed.
    + constructor; [|exact IH]. apply is_word_cons; [exact Ec|reflexivity].
    + destruct (PyMore.split_ws (String d s')) as [|w ws].
      * repeat constructor; [discriminate|]. cbn. rewrite Ec. reflexivity.
      * apply Forall_cons in IH as [[_ Hw] Hws].
        constructor; [|exact Hws]. apply is_word_cons; assumption.
Qed.

(** A word followed by whitespace is the first word of the split. *)
Lemma split_ws_word_space (w rest : string) (sp : ascii) :
  is_word w -> Py.is_space sp = true ->
  PyMore.split_ws (w +:+ String sp rest) = w :: PyMore.split_ws rest.
Proof.
  intros [Hne Hw] Hsp. induction w as [|c w IH]; [contradiction|].
  cbn in Hw. apply andb_true_iff in Hw as [Hc Hw]. apply negb_true_iff in Hc.
  change (String c w +:+ String sp rest) with (String c (w +:+ String sp rest)).
  rewrite split_ws_cons, Hc. destruct w as [|d w'].
  - change (EmptyString +:+ String sp rest) with (String sp rest). cbv iota.
    rewrite Hsp, split_ws_cons, Hsp. reflexivity.
  - change (String d w' +:+ String sp rest) with (String d (w' +:+ String sp rest)).
    cbv iota.
    assert (Hd : Py.is_space d = false).
    { cbn in Hw. apply andb_true_iff in Hw as [Hd _]. apply negb_true_iff, Hd. }
    rewrite Hd.
    change (String d (w' +:+ String sp rest)) with (String d w' +:+ String sp rest).
    rewrite IH by (discriminate || exact Hw). reflexivity.
Qed.

Lemma split_ws_word (w : string) : is_word w -> PyMore.split_ws w = [w].
Proof.
  intros [Hne Hw]. induction w as [|c w IH]; [contradiction|].
  cbn in Hw. apply andb_true_iff in Hw as [Hc Hw]. apply negb_true_iff in Hc.
  rewrite split_ws_cons, Hc. destruct w as [|d w']; [reflexivity|].
  assert (Hd : Py.is_space d = false).
  { cbn in Hw. apply andb_true_iff in Hw as [Hd _]. apply negb_true_iff, Hd. }
  rewrite Hd, IH by (discriminate || exact Hw). reflexivity.
Qed.

Lemma join_cons2 (sep p q : string) (rest : list string) :
  Py.join sep (p :: q :: rest) = p +:+ sep +:+ Py.join sep (q :: rest).
Proof. reflexivity. Qed.

(** Splitting the words joined by single spaces gives the words back. *)
Lemma split_ws_join (ws : list string) :
  Forall is_word ws -> PyMore.split_ws (Py.join " " ws) = ws.
Proof.
  induction ws as [|w ws IH]; intros H; [reflexivity|].
  apply Forall_cons in H as [Hw Hws]. destruct ws as [|w2 ws].
  - apply split_ws_word, Hw.
  - rewrite join_cons2.
    change (w +:+ " " +:+ Py.join " " (w2 :: ws))
      with (w +:+ String " " (Py.join " " (w2 :: ws))).
    rewrite split_ws_word_space by (assumption || reflexivity).
    rewrite IH by exact Hws. reflexivity.
Qed.

Lemma all_chars_app (p : ascii -> bool) (a b : string) :
  all_chars p (a +:+ b) = all_chars p a && all_chars p b.
Proof.
  induction a as [|c a IH]; [reflexivity|].
  change (String c a +:+ b) with (String c (a +:+ b)). cbn.
  rewrite IH, andb_assoc. reflexivity.
Qed.

(** The only whitespace between joined words is the single space. *)
Lemma join_words_chars (ws : list string) :
  Forall is_word ws ->
  all_chars (fun c => negb (Py.is_space c) || Ascii.eqb c " ") (Py.join " " ws) = true.
Proof.
  assert (Hweak : forall w, all_chars (fun c => negb (Py.is_space c)) w = true ->
            all_chars (fun c => negb (Py.is_space c) || Ascii.eqb c " ") w = true).
  { induction w as [|c w IH]; [reflexivity|]. cbn. intros H.
    apply andb_true_iff in H as [Hc Hw]. rewrite Hc, IH by exact Hw. reflexivity. }
  induction ws as [|w ws IH]; intros H; [reflexivity|].
  apply Forall_cons in H as [[_ Hw] Hws]. destruct ws as [|w2 ws].
  - apply Hweak, Hw.
  - rewrite join_cons2, !all_chars_app, (Hweak w Hw), IH by exact Hws. reflexivity.
Qed.

Lemma replace_char_absent (p : ascii -> bool) (c : ascii) (new s : string) :
  p c = false -> all_chars p s = true -> PyMore.replace_char c new s = s.
Proof.
  intros Hc. induction s as [|d s IH]; [reflexivity|]. cbn. intros H.
  apply andb_true_iff in H as [Hd Hs].
  destruct (Ascii.eqb d c) eqn:E.
  - apply Ascii.eqb_eq in E. congruence.
  - rewrite IH by exact Hs. reflexivity.
Qed.

Lemma rstrip_ends_well (s : string) : ends_well s = true -> Py.rstrip s = s.
Proof.
  induction s as [|c s IH]; [reflexivity|]. intros H.
  destruct s as [|d s'].
  - cbn in H |- *. apply negb_true_iff in H. rewrite H. reflexivity.
  - change (ends_well (String c (String d s'))) with (ends_well (String d s')) in H.
    change (Py.rstrip (String c (String d s')))
      with (if Py.is_space c && Py.is_empty (Py.rstrip (String d s'))
            then EmptyString else String c (Py.rstrip (String d s'))).
    rewrite IH by exact H. cbn [Py.is_empty]. rewrite andb_false_r. reflexivity.
Qed.

Lemma ends_well_word (w : string) :
  all_chars (fun c => negb (Py.is_space c)) w = true -> ends_well w = true.
Proof.
  induction w as [|c w IH]; [reflexivity|]. cbn [all_chars]. intros H.
  apply andb_true_iff in H as [Hc Hw]. destruct w; [exact Hc|]. apply IH, Hw.
Qed.

Lemma ends_well_app (a b : string) :
  b <> EmptyString -> ends_well b = true -> ends_well (a +:+ b) = true.
Proof.
  intros Hb H. induction a as [|c a IH]; [exact H|].
  change (String c a +:+ b) with (String c (a +:+ b)).
  destruct (a +:+ b) eqn:E; [|exact IH].
  destruct a; [cbn in E; contradiction|discriminate].
Qed.

Lemma join_words_nonempty (w : string) (ws : list string) :
  is_word w -> Py.join " " (w :: ws) <> EmptyString.
Proof.
  intros [Hne _]. destruct w; [contradiction|]. destruct ws; discriminate.
Qed.

Lemma join_words_ends_well (ws : list string) :
  Forall is_word ws -> ends_well (Py.join " " ws) = true.
Proof.
  induction ws as [|w ws IH]; intros H; [reflexivity|].
  apply Forall_cons in H as [Hw Hws]. destruct ws as [|w2 ws].
  - apply ends_well_word, Hw.
  - rewrite join_cons2. apply Forall_cons in Hws as Hws'. destruct Hws' as [Hw2 _].
    apply ends_well_app.
    + discriminate.
    + change (" " +:+ Py.join " " (w2 :: ws))
        with (String " " (Py.join " " (w2 :: ws))).
      pose proof (join_words_nonempty w2 ws Hw2) as Hne.
      pose proof (IH Hws) as Hj.
      remember (Py.join " " (w2 :: ws)) as j eqn:Ej. clear Ej.
      destruct j; [contradiction|]. exact Hj.
Qed.

Lemma join_words_starts_well (w : string) (ws : list string) :
  is_word w -> Py.lstrip (Py.join " " (w :: ws)) = Py.join " " (w :: ws).
Proof.
  intros [Hne Hw]. destruct w as [|c w]; [contradiction|].
  cbn in Hw. apply andb_true_iff in Hw as [Hc _]. apply negb_true_iff in Hc.
  destruct ws as [|w2 ws].
  - cbn. rewrite Hc. reflexivity.
  - rewrite join_cons2.
    change (String c w +:+ " " +:+ Py.join " " (w2 :: ws))
      with (String c (w +:+ " " +:+ Py.join " " (w2 :: ws))).
    cbn [Py.lstrip]. rewrite Hc. reflexivity.
Qed.

(** Words joined by single spaces are what [clean_text] leaves as they
    are. *)
Lemma clean_text_joined (ws : list string) :
  Forall is_word ws -> utils.clean_text (Py.join " " ws) = Py.join " " ws.
Proof.
  intros H. unfold utils.clean_text.
  destruct (Py.is_empty (Py.join " " ws)) eqn:E.
  - destruct (Py.join " " ws); [reflexivity|discriminate].
  - assert (Hstrip : Py.strip (Py.join " " ws) = Py.join " " ws).
    { unfold Py.strip. destruct ws as [|w ws]; [reflexivity|].
      apply Forall_cons in H as H'. destruct H' as [Hw _].
      rewrite join_words_starts_well by exact Hw.
      apply rstrip_ends_well, join_words_ends_well, H. }
    rewrite Hstrip.
    rewrite (replace_char_absent _ "010" " " _ eq_refl (join_words_chars ws H)).
    rewrite (replace_char_absent _ "013" EmptyString _ eq_refl (join_words_chars ws H)).
    rewrite split_ws_join by exact H. reflexivity.
Qed.

Lemma clean_text_words (text : string) :
  exists ws, utils.clean_text text = Py.join " " ws /\ Forall is_word ws.
Proof.
  unfold utils.clean_text. destruct (Py.is_empty text).
  - exists []. split; [reflexivity|constructor].
  - eexists. split; [reflexivity|apply split_ws_words].
Qed.

Lemma clean_text_idempotent (text : string) :
  utils.clean_text (utils.clean_text text) = utils.clean_text text.
Proof.
  destruct (clean_text_words text) as (ws & -> & Hws).
  apply clean_text_joined, Hws.
Qed.

End CleanText.

(** X7: [clean_text] returns words joined by single spaces: every word
    is non-empty and free of whitespace, so the result has no line break,
    no tab, no blank at either end and no two blanks in a row.  Cleaning
    is idempotent, and text that is already in this form is returned as it
    is. *)
Theorem X7_clean_text_normal_form (text : string) :
  (exists words,
      utils.clean_text text = Py.join " " words
      /\ Forall (fun w => w <> EmptyString
                          /\ all_chars (fun c => negb (Py.is_space c)) w = true)
                words
      /\ PyMore.split_ws (utils.clean_text text) = words)
  /\ Py.strip (utils.clean_text text) = utils.clean_text text
  /\ utils.clean_text (utils.clean_text text) = utils.clean_text text.
Proof.
  destruct (clean_text_words text) as (ws & E & Hws). split_and!.
  - exists ws. split_and!; [exact E|exact Hws|].
    rewrite E. apply split_ws_join, Hws.
  - rewrite E. unfold Py.strip. destruct ws as [|w ws]; [reflexivity|].
    apply Forall_cons in Hws as H'. destruct H' as [Hw _].
    rewrite join_words_starts_well by exact Hw.
    apply rstrip_ends_well, join_words_ends_well, Hws.
  - apply clean_text_idempotent.
Qed.

(** ** utils.py: validation and deduplication *)

Section Validation.
Import utils.

Lemma clean_field_lookup (article : gmap string string) (field k : string) :
  clean_field article field !! k
  = if decide (k = field) then clean_text <$> article !! k else article !! k.
Proof.
  unfold clean_field. destruct (decide (k = field)) as [->|Hne].
  - destruct (article !! field) as [v|] eqn:E.
    + rewrite lookup_insert_eq. reflexivity.
    + rewrite E. reflexivity.
  - destruct (article !! field) as [v|] eqn:E; [|reflexivity].
    apply lookup_insert_ne. congruence.
Qed.

Lemma clean_fields_lookup (fields : list string) (article : gmap string string)
      (k : string) :
  NoDup fields ->
  foldl clean_field article fields !! k
  = if decide (k ∈ fields) then clean_text <$> article !! k else article !! k.
Proof.
  intros Hnd. revert article.
  induction Hnd as [|f fs Hf Hnd IH]; intros article.
  - cbn. destruct (decide (k ∈ [])) as [H|_]; [inversion H|reflexivity].
  - cbn [foldl]. rewrite IH, clean_field_lookup.
    destruct (decide (k = f)) as [->|Hne].
    + destruct (decide (f ∈ fs)); [contradiction|].
      destruct (decide (f ∈ f :: fs)) as [_|H]; [reflexivity|].
      exfalso. apply H, list_elem_of_here.
    + destruct (decide (k ∈ fs)) as [Hin|Hin].
      * destruct (decide (k ∈ f :: fs)) as [_|H]; [reflexivity|].
        exfalso. apply H, list_elem_of_further, Hin.
      * destruct (decide (k ∈ f :: fs)) as [H|_]; [|reflexivity].
        apply elem_of_cons in H as [H|H]; contradiction.
Qed.

Lemma checked_fields_NoDup : NoDup (required_fields ++ optional_fields).
Proof.
  unfold required_fields, optional_fields. cbn [app].
  repeat (apply NoDup_cons_2;
          [rewrite ?elem_of_cons, elem_of_nil; intros H;
           repeat (destruct H as [H|H]; [discriminate|]); exact H|]).
  apply NoDup_nil_2.
Qed.

Lemma validate_article_result (article : gmap string string) :
  validate_article article
  = if falsy article "title" then (false, article)
    else (true, foldl clean_field article (required_fields ++ optional_fields)).
Proof.
  unfold validate_article, required_fields at 1. cbn [existsb].
  rewrite orb_false_r. reflexivity.
Qed.

Lemma falsy_title (article : gmap string string) :
  falsy article "title" = false
  <-> exists v, article !! "title" = Some v /\ v <> EmptyString.
Proof.
  unfold falsy. destruct (article !! "title") as [v|].
  - destruct v; cbn; split; try discriminate.
    + intros (v & E & Hne). congruence.
    + intros _. eexists. split; [reflexivity|discriminate].
    + reflexivity.
  - split; [discriminate|]. intros (v & E & _). discriminate.
Qed.

Lemma clean_text_blank (v : string) : Py.strip v = EmptyString -> clean_text v = EmptyString.
Proof.
  intros H. unfold clean_text. destruct (Py.is_empty v); [reflexivity|].
  rewrite H. reflexivity.
Qed.

End Validation.

(** X8: [validate_article] returns True exactly when the title is
    present and not empty, and otherwise leaves the dict as it is.  It
    never adds or removes a key and never touches a key other than title,
    summary, url, source and date; on acceptance each of these five that
    is present holds its cleaned text, and validating the dict again
    changes nothing in it. *)
Theorem X8_validate_article_effect (article : gmap string string) :
  let result := utils.validate_article article in
  let checked := utils.required_fields ++ utils.optional_fields in
  (result.1 = true <-> exists v, article !! "title" = Some v /\ v <> EmptyString)
  /\ (result.1 = false -> result.2 = article)
  /\ dom result.2 = dom article
  /\ (forall k, k ∉ checked -> result.2 !! k = article !! k)
  /\ (result.1 = true ->
      forall k, k ∈ checked -> result.2 !! k = utils.clean_text <$> article !! k)
  /\ (utils.validate_article result.2).2 = result.2.
Proof.
  cbv zeta.
  assert (Hlook : forall a k,
    foldl utils.clean_field a (utils.required_fields ++ utils.optional_fields) !! k
    = if decide (k ∈ utils.required_fields ++ utils.optional_fields)
      then utils.clean_text <$> a !! k else a !! k)
    by (intros; apply clean_fields_lookup, checked_fields_NoDup).
  assert (Hidem : forall a,
    foldl utils.clean_field
      (foldl utils.clean_field a (utils.required_fields ++ utils.optional_fields))
      (utils.required_fields ++ utils.optional_fields)
    = foldl utils.clean_field a (utils.required_fields ++ utils.optional_fields)).
  { intros a. apply map_eq. intros k. rewrite !Hlook.
    destruct (decide (k ∈ _)); [|reflexivity].
    destruct (a !! k) as [v|]; [|reflexivity]. cbn.
    rewrite clean_text_idempotent. reflexivity. }
  rewrite validate_article_result.
  destruct (utils.falsy article "title") eqn:E; cbn [fst snd].
  - split_and!; try reflexivity; try discriminate.
    + split; [discriminate|]. intros H. apply falsy_title in H. congruence.
    + rewrite validate_article_result, E. reflexivity.
  - split_and!.
    + split; [intros _; apply falsy_title, E|reflexivity].
    + discriminate.
    + apply set_eq. intros k. rewrite !elem_of_dom, Hlook.
      destruct (decide (k ∈ _)); [|reflexivity].
      rewrite fmap_is_Some. reflexivity.
    + intros k Hk. rewrite Hlook. destruct (decide (k ∈ _)); [contradiction|reflexivity].
    + intros _ k Hk. rewrite Hlook. destruct (decide (k ∈ _)); [reflexivity|contradiction].
    + rewrite validate_article_result.
      destruct (utils.falsy (foldl _ _ _) "title"); cbn [snd];
        [reflexivity|apply Hidem].
Qed.

(** X9: an article whose title is not empty but holds only whitespace is
    accepted by [validate_article], leaves it with the empty title, and is
    rejected when validated again. *)
Theorem X9_blank_title_accepted_once (article : gmap string string) (v : string) :
  article !! "title" = Some v -> v <> EmptyString -> Py.strip v = EmptyString ->
  (utils.validate_article article).1 = true
  /\ (utils.validate_article article).2 !! "title" = Some EmptyString
  /\ (utils.validate_article (utils.validate_article article).2).1 = false.
Proof.
  intros Ht Hne Hblank.
  assert (E : utils.falsy article "title" = false)
    by (apply falsy_title; eauto).
  rewrite validate_article_result, E. cbn [fst snd].
  assert (Hafter :
    foldl utils.clean_field article (utils.required_fields ++ utils.optional_fields)
      !! "title" = Some EmptyString).
  { rewrite clean_fields_lookup by apply checked_fields_NoDup.
    destruct (decide ("title" ∈ _)) as [_|H].
    - rewrite Ht. cbn. rewrite clean_text_blank by exact Hblank. reflexivity.
    - exfalso. apply H. apply list_elem_of_here. }
  split_and!; [reflexivity|exact Hafter|].
  rewrite validate_article_result. unfold utils.falsy at 1. rewrite Hafter.
  reflexivity.
Qed.

Lemma X9_witness :
  (utils.validate_article {[ "title" := "   "; "url" := "https://example.org/a" ]}).1
    = true
  /\ (utils.validate_article
        (utils.validate_article
           {[ "title" := "   "; "url" := "https://example.org/a" ]}).2).1 = false.
Proof.
  pose proof (X9_blank_title_accepted_once
                {[ "title" := "   "; "url" := "https://example.org/a" ]} "   "
                eq_refl ltac:(discriminate) eq_refl) as (H1 & _ & H3).
  split; assumption.
Defined.

Section DictDedup.
Import utils.

Lemma deduplicate_step_shape (st : gset string * list (gmap string string))
      (article : gmap string string) :
  deduplicate_step st article = dedup_step dict_title_key dict_title_keep st article.
Proof. destruct st as [seen unique]. reflexivity. Qed.

Lemma deduplicate_articles_first_kept (articles : list (gmap string string)) :
  deduplicate_articles articles = first_kept dict_title_key dict_title_keep ∅ articles.
Proof.
  unfold deduplicate_articles.
  rewrite (foldl_ext_step _ _ _ _ deduplicate_step_shape).
  apply (foldl_dedup_step dict_title_key dict_title_keep articles ∅ []).
Qed.

End DictDedup.

(** X10: [deduplicate_articles] returns a subsequence of its input in
    which no two articles have the same title once lower-cased and
    stripped, and none has a blank one: an article without a title, or
    with a title of whitespace only, is dropped.  For every such title
    that is not empty the article kept is the first of the input with it,
    and the function applied to its own output returns it unchanged. *)
Theorem X10_deduplicate_articles_first_titles (articles : list (gmap string string)) :
  let norm := fun article : gmap string string =>
    Py.strip (Py.lower (default EmptyString (article !! "title"))) in
  let unique := utils.deduplicate_articles articles in
  sublist unique articles
  /\ NoDup (norm <$> unique)
  /\ Forall (fun article => norm article <> EmptyString) unique
  /\ (forall t, t <> EmptyString ->
        List.find (fun article => bool_decide (norm article = t)) unique
        = List.find (fun article => bool_decide (norm article = t)) articles)
  /\ utils.deduplicate_articles unique = unique.
Proof.
  cbv zeta. rewrite !deduplicate_articles_first_kept.
  change (fun article : gmap string string =>
            Py.strip (Py.lower (default EmptyString (article !! "title"))))
    with dict_title_key.
  pose proof (first_kept_Forall dict_title_key dict_title_keep articles ∅) as HF.
  split_and!.
  - apply first_kept_sublist.
  - apply (first_kept_NoDup dict_title_key dict_title_keep).
  - eapply Forall_impl; [exact HF|]. intros a [Hk _] E.
    change (dict_title_key a = EmptyString) in E.
    unfold dict_title_keep in Hk. rewrite E in Hk. discriminate.
  - intros t Ht.
    rewrite (first_kept_find dict_title_key dict_title_keep t articles ∅)
      by apply not_elem_of_empty.
    apply find_ext_in. intros a _. unfold dict_title_keep.
    change (Py.strip (Py.lower (default EmptyString (a !! "title"))))
      with (dict_title_key a).
    destruct (bool_decide (dict_title_key a = t)) eqn:E;
      [|rewrite andb_false_r; reflexivity].
    apply bool_decide_eq_true in E. rewrite E.
    destruct t; [contradiction|reflexivity].
  - apply first_kept_idempotent.
Qed.

(** ** enhanced_content_fetcher.py: title and summary *)

Section TitleAndSummary.
Import enhanced_content_fetcher.

Lemma title_loop_long (soup : node) (selectors : list selector) (t : string) :
  title_loop soup selectors = Some t -> (10 < String.length t)%nat.
Proof.
  induction selectors as [|sel rest IH]; cbn [title_loop]; [discriminate|].
  destruct (select_one sel soup) as [elem|]; [|exact IH].
  destruct (10 <? String.length (get_text EmptyString true elem))%nat eqn:E;
    [|exact IH].
  intros [= <-]. apply Nat.ltb_lt, E.
Qed.

Lemma title_loop_first (soup : node) (pre : list selector) (sel : selector)
      (post : list selector) (elem : node) :
  Forall (no_title_from soup) pre ->
  select_one sel soup = Some elem ->
  (10 < String.length (get_text EmptyString true elem))%nat ->
  title_loop soup (pre ++ sel :: post) = Some (get_text EmptyString true elem).
Proof.
  intros Hpre Hsel Hlong.
  induction Hpre as [|s pre Hs _ IH]; cbn [title_loop app].
  - rewrite Hsel. apply Nat.ltb_lt in Hlong. rewrite Hlong. reflexivity.
  - unfold no_title_from in Hs. destruct (select_one s soup) as [e|]; [|exact IH].
    apply Nat.ltb_ge in Hs. rewrite Hs. exact IH.
Qed.

Lemma title_loop_none (soup : node) (selectors : list selector) :
  Forall (no_title_from soup) selectors -> title_loop soup selectors = None.
Proof.
  induction 1 as [|s rest Hs _ IH]; cbn [title_loop]; [reflexivity|].
  unfold no_title_from in Hs. destruct (select_one s soup) as [e|]; [|exact IH].
  apply Nat.ltb_ge in Hs. rewrite Hs. exact IH.
Qed.

Lemma length_append (a b : string) :
  String.length (a +:+ b) = (String.length a + String.length b)%nat.
Proof.
  induction a as [|c a IH]; [reflexivity|].
  change (String c a +:+ b) with (String c (a +:+ b)). cbn. rewrite IH. reflexivity.
Qed.

Lemma length_take_str (n : nat) (s : string) :
  String.length (PyMore.take_str n s) = Nat.min n (String.length s).
Proof.
  revert s. induction n as [|n IH]; intros [|c s]; cbn; try reflexivity.
  rewrite IH. reflexivity.
Qed.

Lemma is_empty_length (s : string) :
  Py.is_empty s = true <-> String.length s = 0%nat.
Proof. destruct s; cbn; split; congruence. Qed.

Lemma generate_summary_cases (content : string) :
  let good := List.filter good_sentence
                (Py.strip <$> PyMore.split_runs is_sentence_end false content) in
  let summary := Py.join ". " (take 3 good) in
  _generate_summary content
  = if Py.is_empty content || (String.length content <? 100)%nat
    then "No summary available"
    else if (300 <? String.length summary)%nat
         then PyMore.take_str 300 summary +:+ "..."
         else if Py.is_empty summary
              then PyMore.take_str 300 content +:+ "..."
              else summary.
Proof.
  cbv zeta. unfold _generate_summary.
  destruct (Py.is_empty content || (String.length content <? 100)%nat);
    [reflexivity|].
  set (summary := Py.join ". " _).
  destruct (300 <? String.length summary)%nat eqn:E; [|reflexivity].
  apply Nat.ltb_lt in E. destruct summary as [|c summary]; [cbn in E; lia|].
  reflexivity.
Qed.

Lemma extract_title_long (soup : node) :
  (10 < String.length (_extract_title soup))%nat.
Proof.
  unfold _extract_title.
  destruct (title_loop soup title_selectors) as [t|] eqn:E.
  - eapply title_loop_long, E.
  - cbn. lia.
Qed.

Lemma generate_summary_bounded (content : string) :
  _generate_summary content <> EmptyString
  /\ (String.length (_generate_summary content) <= 303)%nat.
Proof.
  rewrite generate_summary_cases. cbv zeta.
  set (summary := Py.join ". " _).
  assert (Hdots : forall s, PyMore.take_str 300 s +:+ "..." <> EmptyString).
  { intros s E. apply (f_equal String.length) in E.
    rewrite length_append in E.
    change (String.length "...") with 3%nat in E.
    change (String.length EmptyString) with 0%nat in E. lia. }
  assert (Hlen : forall s, (String.length (PyMore.take_str 300 s +:+ "...") <= 303)%nat).
  { intros s. rewrite length_append, length_take_str.
    change (String.length "...") with 3%nat. lia. }
  split.
  - destruct (Py.is_empty content || _); [discriminate|].
    destruct (300 <? String.length summary)%nat; [apply Hdots|].
    destruct (Py.is_empty summary) eqn:E; [apply Hdots|].
    intros ->. discriminate.
  - destruct (Py.is_empty content || _); [cbn; lia|].
    destruct (300 <? String.length summary)%nat eqn:E; [apply Hlen|].
    destruct (Py.is_empty summary); [apply Hlen|].
    apply Nat.ltb_ge in E. lia.
Qed.

End TitleAndSummary.

(** X11: [_extract_title] always returns a string of more than 10
    characters.  It is the text of the first match of the first selector,
    in the order h1, .article-title, .post-title, .entry-title, title,
    whose first match has a text of more than 10 characters; if no selector
    gives such a text, it is the sentinel. *)
Theorem X11_extract_title_first_long_text (soup : enhanced_content_fetcher.node) :
  (10 < String.length (enhanced_content_fetcher._extract_title soup))%nat
  /\ (forall pre sel post elem,
        enhanced_content_fetcher.title_selectors = pre ++ sel :: post ->
        Forall (no_title_from soup) pre ->
        enhanced_content_fetcher.select_one sel soup = Some elem ->
        (10 < String.length
                (enhanced_content_fetcher.get_text EmptyString true elem))%nat ->
        enhanced_content_fetcher._extract_title soup
        = enhanced_content_fetcher.get_text EmptyString true elem)
  /\ (Forall (no_title_from soup) enhanced_content_fetcher.title_selectors ->
      enhanced_content_fetcher._extract_title soup = "No title found").
Proof.
  split_and!; [apply extract_title_long|..];
    unfold enhanced_content_fetcher._extract_title.
  - intros pre sel post elem -> Hpre Hsel Hlong.
    rewrite (title_loop_first soup pre sel post elem Hpre Hsel Hlong). reflexivity.
  - intros H. rewrite (title_loop_none soup _ H). reflexivity.
Qed.

(** X12: [_generate_summary] never returns the empty string and never
    more than 303 characters.  A content of fewer than 100 characters gives
    the sentinel.  A content of at least 100 characters in which no
    sentence passes the filter gives the first 300 characters of the
    content followed by three dots, also when the content is shorter than
    300 characters. *)
Theorem X12_generate_summary_bounds (content : string) :
  let result := enhanced_content_fetcher._generate_summary content in
  result <> EmptyString
  /\ (String.length result <= 303)%nat
  /\ ((String.length content < 100)%nat -> result = "No summary available")
  /\ ((100 <= String.length content)%nat ->
      List.filter enhanced_content_fetcher.good_sentence
        (Py.strip <$>
           PyMore.split_runs enhanced_content_fetcher.is_sentence_end false content)
      = [] ->
      result = PyMore.take_str 300 content +:+ "...").
Proof.
  cbv zeta. split_and!; try apply generate_summary_bounded.
  - intros H. rewrite generate_summary_cases. cbv zeta.
    apply Nat.ltb_lt in H. rewrite H, orb_true_r. reflexivity.
  - intros H Hnone. rewrite generate_summary_cases. cbv zeta.
    assert (Py.is_empty content = false) as ->
      by (destruct content; [cbn in H; lia|reflexivity]).
    apply Nat.ltb_ge in H. rewrite H. cbn [orb].
    rewrite Hnone. reflexivity.
Qed.

(** ** enhanced_report_generator.py: the parser of the insights reply *)

Section InsightsParser.
Import enhanced_report_generator.

Lemma insights_step_header (sec : option section_name) (ins : Insights)
      (line : string) (s : section_name) :
  section_header (Py.strip line) = Some s ->
  insights_step (sec, ins) line = (Some s, ins).
Proof.
  unfold section_header, insights_step.
  destruct (PyMore.contains "TAKEAWAYS:" _); [congruence|].
  destruct (PyMore.contains "BUSINESS IMPACT:" _); [congruence|].
  destruct (PyMore.contains "TECHNICAL DETAILS:" _); [congruence|].
  destruct (PyMore.contains "ACTION ITEMS:" _); [congruence|discriminate].
Qed.

Lemma insights_step_plain (sec : option section_name) (ins : Insights)
      (line : string) :
  section_header (Py.strip line) = None ->
  insights_step (sec, ins) line
  = if is_bullet (Py.strip line) then
      match sec with
      | Some in_takeaways =>
          (sec, mkInsights (takeaways ins ++ [bullet_text line]) (business_impact ins)
                           (technical_details ins) (action_items ins)
                           (raw_response ins))
      | Some in_action_items =>
          (sec, mkInsights (takeaways ins) (business_impact ins)
                           (technical_details ins)
                           (action_items ins ++ [bullet_text line])
                           (raw_response ins))
      | _ => (sec, ins)
      end
    else if negb (Py.is_empty (Py.strip line)) then
      match sec with
      | Some in_business_impact =>
          (sec, mkInsights (takeaways ins)
                           (business_impact ins +:+ Py.strip line +:+ " ")
                           (technical_details ins) (action_items ins)
                           (raw_response ins))
      | Some in_technical_details =>
          (sec, mkInsights (takeaways ins) (business_impact ins)
                           (technical_details ins +:+ Py.strip line +:+ " ")
                           (action_items ins) (raw_response ins))
      | _ => (sec, ins)
      end
    else (sec, ins).
Proof.
  unfold section_header, insights_step, bullet_text.
  destruct (PyMore.contains "TAKEAWAYS:" _); [discriminate|].
  destruct (PyMore.contains "BUSINESS IMPACT:" _); [discriminate|].
  destruct (PyMore.contains "TECHNICAL DETAILS:" _); [discriminate|].
  destruct (PyMore.contains "ACTION ITEMS:" _); [discriminate|].
  intros _. reflexivity.
Qed.

(** What one line does to the two lists and to [raw_response]. *)
Lemma insights_step_items (sec : option section_name) (ins : Insights)
      (line : string) :
  let ins' := (insights_step (sec, ins) line).2 in
  raw_response ins' = raw_response ins
  /\ ((takeaways ins' = takeaways ins /\ action_items ins' = action_items ins)
      \/ (item_line line = true
          /\ takeaways ins' = takeaways ins ++ [bullet_text line]
          /\ action_items ins' = action_items ins)
      \/ (item_line line = true
          /\ takeaways ins' = takeaways ins
          /\ action_items ins' = action_items ins ++ [bullet_text line])).
Proof.
  cbv zeta. unfold item_line.
  destruct (section_header (Py.strip line)) as [s|] eqn:E.
  - rewrite (insights_step_header _ _ _ _ E). cbn. auto.
  - rewrite (insights_step_plain _ _ _ E).
    destruct (is_bullet (Py.strip line)).
    + destruct sec as [[]|]; cbn; auto 6.
    + destruct (negb _); [|cbn; auto].
      destruct sec as [[]|]; cbn; auto.
Qed.

Lemma insights_fold_items (lines : list string) (sec : option section_name)
      (ins : Insights) :
  let ins' := (foldl insights_step (sec, ins) lines).2 in
  raw_response ins' = raw_response ins
  /\ exists T A,
       takeaways ins' = takeaways ins ++ T
       /\ action_items ins' = action_items ins ++ A
       /\ sublist T (bullet_text <$> List.filter item_line lines)
       /\ sublist A (bullet_text <$> List.filter item_line lines)
       /\ (length T + length A <= length (List.filter item_line lines))%nat.
Proof.
  cbv zeta. revert sec ins.
  induction lines as [|line lines IH]; intros sec ins; cbn [foldl List.filter].
  - split; [reflexivity|]. exists [], []. rewrite !app_nil_r.
    split_and!; try reflexivity; cbn; lia.
  - pose proof (insights_step_items sec ins line) as [Hraw Hstep].
    destruct (insights_step (sec, ins) line) as [sec1 ins1]. cbn [snd] in Hraw, Hstep.
    destruct (IH sec1 ins1) as (Hraw' & T & A & HT & HA & HsT & HsA & Hlen).
    split; [congruence|].
    destruct Hstep as [[Et Ea]|[(Hi & Et & Ea)|(Hi & Et & Ea)]].
    + exists T, A. rewrite HT, HA, Et, Ea. split_and!; try reflexivity.
      * destruct (item_line line); [apply sublist_cons|]; exact HsT.
      * destruct (item_line line); [apply sublist_cons|]; exact HsA.
      * destruct (item_line line); cbn [length]; lia.
    + exists (bullet_text line :: T), A. rewrite HT, HA, Et, Ea, Hi, <- app_assoc.
      split_and!; try reflexivity.
      * apply sublist_skip, HsT.
      * apply sublist_cons, HsA.
      * cbn [length]. lia.
    + exists T, (bullet_text line :: A). rewrite HT, HA, Et, Ea, Hi, <- app_assoc.
      split_and!; try reflexivity.
      * apply sublist_cons, HsT.
      * apply sublist_skip, HsA.
      * cbn [length]. lia.
Qed.

Lemma insights_fold_before_header (pre : list string) (ins : Insights) :
  Forall (fun line => section_header (Py.strip line) = None) pre ->
  foldl insights_step (None, ins) pre = (None, ins).
Proof.
  induction 1 as [|line pre Hline _ IH]; cbn [foldl]; [reflexivity|].
  rewrite (insights_step_plain _ _ _ Hline).
  destruct (is_bullet _); [exact IH|]. destruct (negb _); exact IH.
Qed.

Lemma insights_step_raw (r : string) (sec : option section_name) (ins : Insights)
      (line : string) :
  insights_step (sec, with_raw r ins) line
  = ((insights_step (sec, ins) line).1, with_raw r (insights_step (sec, ins) line).2).
Proof.
  destruct (section_header (Py.strip line)) as [s|] eqn:E.
  - rewrite !(insights_step_header _ _ _ _ E). reflexivity.
  - rewrite !(insights_step_plain _ _ _ E).
    destruct (is_bullet _); [destruct sec as [[]|]; reflexivity|].
    destruct (negb _); [destruct sec as [[]|]; reflexivity|reflexivity].
Qed.

Lemma insights_fold_raw (r : string) (lines : list string)
      (sec : option section_name) (ins : Insights) :
  foldl insights_step (sec, with_raw r ins) lines
  = ((foldl insights_step (sec, ins) lines).1,
     with_raw r (foldl insights_step (sec, ins) lines).2).
Proof.
  revert sec ins. induction lines as [|line lines IH]; intros sec ins; cbn [foldl].
  - reflexivity.
  - rewrite insights_step_raw.
    destruct (insights_step (sec, ins) line) as [sec1 ins1]. apply IH.
Qed.

Lemma parse_detailed_insights_fold (response : string) :
  parse_detailed_insights response
  = let ins := (foldl insights_step (None, mkInsights [] EmptyString EmptyString [] response)
                      (Py.split "010" response)).2 in
    mkInsights (takeaways ins) (Py.strip (business_impact ins))
               (Py.strip (technical_details ins)) (action_items ins)
               (raw_response ins).
Proof.
  unfold parse_detailed_insights.
  destruct (foldl insights_step _ _) as [sec ins]. reflexivity.
Qed.

Lemma insights_step_section (sec : option section_name) (ins : Insights)
      (line : string) :
  (insights_step (sec, ins) line).1 = section_step sec line.
Proof.
  unfold section_step.
  destruct (section_header (Py.strip line)) as [s|] eqn:E.
  - rewrite (insights_step_header _ _ _ _ E). reflexivity.
  - rewrite (insights_step_plain _ _ _ E).
    destruct (is_bullet _); [destruct sec as [[]|]; reflexivity|].
    destruct (negb _); [destruct sec as [[]|]; reflexivity|reflexivity].
Qed.

Lemma insights_fold_section (lines : list string) (sec : option section_name)
      (ins : Insights) :
  (foldl insights_step (sec, ins) lines).1 = foldl section_step sec lines.
Proof.
  revert sec ins. induction lines as [|line lines IH]; intros sec ins; cbn [foldl].
  - reflexivity.
  - pose proof (insights_step_section sec ins line) as Hs.
    destruct (insights_step (sec, ins) line) as [sec1 ins1]. cbn [fst] in Hs.
    rewrite IH, Hs. reflexivity.
Qed.

(** A bullet line under one of the two list headers is stored, and stays
    stored whatever follows. *)
Lemma insights_fold_stores (pre post : list string) (line : string)
      (ins : Insights) :
  item_line line = true ->
  let ins' := (foldl insights_step (None, ins) (pre ++ line :: post)).2 in
  (current_section pre = Some in_takeaways ->
   bullet_text line ∈ takeaways ins')
  /\ (current_section pre = Some in_action_items ->
      bullet_text line ∈ action_items ins').
Proof.
  intros Hitem. cbv zeta. rewrite foldl_app. cbn [foldl].
  pose proof (insights_fold_section pre None ins) as Hsec.
  fold (current_section pre) in Hsec.
  destruct (foldl insights_step (None, ins) pre) as [sec1 ins1]. cbn [fst] in Hsec.
  unfold item_line in Hitem.
  destruct (section_header (Py.strip line)) as [s|] eqn:E; [discriminate|].
  rewrite (insights_step_plain _ _ _ E), Hitem.
  split; intros Hcur; rewrite Hsec, Hcur.
  - pose proof (insights_fold_items post (Some in_takeaways)
                  (mkInsights (takeaways ins1 ++ [bullet_text line])
                     (business_impact ins1) (technical_details ins1)
                     (action_items ins1) (raw_response ins1)))
      as (_ & T & A & HT & _).
    cbv zeta in HT. rewrite HT. cbn [takeaways].
    rewrite !elem_of_app, list_elem_of_singleton. auto.
  - pose proof (insights_fold_items post (Some in_action_items)
                  (mkInsights (takeaways ins1) (business_impact ins1)
                     (technical_details ins1)
                     (action_items ins1 ++ [bullet_text line]) (raw_response ins1)))
      as (_ & T & A & _ & HA & _).
    cbv zeta in HA. rewrite HA. cbn [action_items].
    rewrite !elem_of_app, list_elem_of_singleton. auto.
Qed.

Lemma drop_first_marker (rest : string) :
  PyMore.drop_first (bullet_marker +:+ rest)
  = String "226" (String "130" (String "172" (String "194" (String "162" rest)))).
Proof. reflexivity. Qed.

Lemma is_bullet_marker (rest : string) : is_bullet (bullet_marker +:+ rest) = true.
Proof. unfold is_bullet. rewrite startswith_app. reflexivity. Qed.

Lemma is_bullet_hyphen (rest : string) : is_bullet (String "-" rest) = true.
Proof.
  unfold is_bullet. change (String "-" rest) with ("-" +:+ rest).
  rewrite (startswith_app "-"). apply orb_true_r.
Qed.

(** Bullets of both markers on a reply: the line before the first header
    is not stored, the marker loses its first character only. *)
Example parse_detailed_insights_bullets :
  takeaways (parse_detailed_insights sample_bullets_reply)
  = [String "226" (String "130" (String "172" (String "194" (String "162" " First"))));
     "Second"]
  /\ action_items (parse_detailed_insights sample_bullets_reply) = ["Act"].
Proof. split; vm_compute; reflexivity. Qed.

End InsightsParser.

(** X13: [parse_detailed_insights] keeps the reply in raw_response.  A
    bullet line is a line that, stripped, starts with one of the two
    markers and holds none of the four headers.  The takeaways, and
    likewise the action items, are in reply order the stored texts
    [line.strip()[1:].strip()] of some of the bullet lines; together they
    are no more than there are such lines.  Every bullet line that stands
    under the takeaways header has its text among the takeaways, every one
    under the action items header among the action items.  A line of the
    three-character marker is a bullet line and is stored without the
    first character of the marker only; a marker line that holds a header
    opens a section and is never stored. *)
Theorem X13_insight_items_come_from_bullets (response : string) :
  let result := enhanced_report_generator.parse_detailed_insights response in
  let lines := Py.split "010" response in
  let items := bullet_text <$> List.filter item_line lines in
  enhanced_report_generator.raw_response result = response
  /\ sublist (enhanced_report_generator.takeaways result) items
  /\ sublist (enhanced_report_generator.action_items result) items
  /\ (length (enhanced_report_generator.takeaways result)
      + length (enhanced_report_generator.action_items result) <= length items)%nat
  /\ (forall pre line post,
        lines = pre ++ line :: post -> item_line line = true ->
        (current_section pre = Some enhanced_report_generator.in_takeaways ->
         bullet_text line ∈ enhanced_report_generator.takeaways result)
        /\ (current_section pre = Some enhanced_report_generator.in_action_items ->
            bullet_text line ∈ enhanced_report_generator.action_items result))
  /\ (forall line rest,
        Py.strip line = enhanced_report_generator.bullet_marker +:+ rest ->
        section_header (Py.strip line) = None ->
        item_line line = true
        /\ bullet_text line
           = Py.strip (String "226" (String "130" (String "172"
                         (String "194" (String "162" rest))))))
  /\ (forall line rest,
        Py.strip line = String "-" rest ->
        section_header (Py.strip line) = None ->
        item_line line = true
        /\ bullet_text line = Py.strip (PyMore.drop_first (String "-" rest))).
Proof.
  cbv zeta. rewrite parse_detailed_insights_fold. cbv zeta.
  pose proof (insights_fold_items (Py.split "010" response) None
                (enhanced_report_generator.mkInsights [] EmptyString EmptyString []
                   response))
    as (Hraw & T & A & HT & HA & HsT & HsA & Hlen).
  cbn [enhanced_report_generator.takeaways enhanced_report_generator.action_items
       enhanced_report_generator.raw_response] in *.
  split_and!.
  - exact Hraw.
  - rewrite HT. exact HsT.
  - rewrite HA. exact HsA.
  - rewrite HT, HA. cbn [app]. rewrite length_fmap. exact Hlen.
  - intros pre line post Hlines Hitem. rewrite Hlines.
    apply (insights_fold_stores pre post line _ Hitem).
  - intros line rest Hline Hhead. unfold item_line, bullet_text.
    rewrite Hhead, Hline, is_bullet_marker, drop_first_marker. split; reflexivity.
  - intros line rest Hline Hhead. unfold item_line, bullet_text.
    rewrite Hhead, Hline, is_bullet_hyphen. split; reflexivity.
Qed.

Lemma X13_witness :
  bullet_text (enhanced_report_generator.bullet_marker +:+ " First")
    ∈ enhanced_report_generator.takeaways
        (enhanced_report_generator.parse_detailed_insights sample_bullets_reply)
  /\ bullet_text "-Act"
       ∈ enhanced_report_generator.action_items
           (enhanced_report_generator.parse_detailed_insights sample_bullets_reply).
Proof.
  destruct (X13_insight_items_come_from_bullets sample_bullets_reply)
    as (_ & _ & _ & _ & Hstored & _).
  split.
  - apply (Hstored ["- too early"; "TAKEAWAYS:"]
                   (enhanced_report_generator.bullet_marker +:+ " First")
                   ["- Second"; "Action items:"; "-Act"]
                   ltac:(vm_compute; reflexivity) ltac:(vm_compute; reflexivity)).
    vm_compute. reflexivity.
  - apply (Hstored ["- too early"; "TAKEAWAYS:";
                    enhanced_report_generator.bullet_marker +:+ " First";
                    "- Second"; "Action items:"]
                   "-Act" []
                   ltac:(vm_compute; reflexivity) ltac:(vm_compute; reflexivity)).
    vm_compute. reflexivity.
Defined.

(** X14: lines before the first header are ignored.  If the lines of the
    reply are [pre ++ rest] and no line of [pre] holds a header, the four
    parsed fields are those of any reply whose lines are [rest]; with
    [rest] empty, that is a reply without a header, the two lists and the
    two texts are empty. *)
Theorem X14_lines_before_first_header_ignored
        (response : string) (pre rest : list string) :
  Py.split "010" response = pre ++ rest ->
  Forall (fun line => section_header (Py.strip line) = None) pre ->
  let result := enhanced_report_generator.parse_detailed_insights response in
  (rest = [] ->
   enhanced_report_generator.takeaways result = []
   /\ enhanced_report_generator.business_impact result = EmptyString
   /\ enhanced_report_generator.technical_details result = EmptyString
   /\ enhanced_report_generator.action_items result = [])
  /\ (forall response',
        Py.split "010" response' = rest ->
        same_insights result
          (enhanced_report_generator.parse_detailed_insights response')).
Proof.
  intros Hlines Hpre. cbv zeta. rewrite parse_detailed_insights_fold. cbv zeta.
  rewrite Hlines, foldl_app, (insights_fold_before_header _ _ Hpre). split.
  - intros ->. cbn. auto.
  - intros response' Hrest. rewrite parse_detailed_insights_fold. cbv zeta.
    rewrite Hrest.
    change (enhanced_report_generator.mkInsights [] EmptyString EmptyString [] response)
      with (with_raw response
              (enhanced_report_generator.mkInsights [] EmptyString EmptyString []
                 response')).
    rewrite insights_fold_raw. cbn [snd].
    unfold same_insights, with_raw. cbn. auto.
Qed.

Lemma X14_witness :
  same_insights
    (enhanced_report_generator.parse_detailed_insights sample_insights_reply)
    (enhanced_report_generator.parse_detailed_insights sample_insights_tail).
Proof.
  apply (proj2 (X14_lines_before_first_header_ignored
                  sample_insights_reply
                  ["- early bullet"; "a note"] ["Key Takeaways:"; "- first point"]
                  ltac:(vm_compute; reflexivity) ltac:(repeat constructor))).
  vm_compute. reflexivity.
Defined.

(** ** main_pipeline.py: processing the extraction results *)

Section Processing.

Variable generate_response : nat -> string -> option string.

Lemma collect_fold (extraction_results : list (string * main_pipeline.SourceResult))
      (all_articles : list loc) :
  foldl main_pipeline.collect_step all_articles extraction_results
  = all_articles ++ from_successful_sources extraction_results.
Proof.
  revert all_articles.
  induction extraction_results as [|[name result] rest IH]; intros all_articles.
  - cbn. rewrite app_nil_r. reflexivity.
  - cbn [foldl main_pipeline.collect_step]. rewrite IH.
    unfold from_successful_sources. cbn [fmap list_fmap concat snd].
    destruct (main_pipeline.success result); cbn [andb].
    + destruct (main_pipeline.articles result) as [|a l]; cbn [negb].
      * rewrite bool_decide_eq_true_2 by reflexivity. reflexivity.
      * rewrite bool_decide_eq_false_2 by discriminate. cbn [negb].
        rewrite <- app_assoc. reflexivity.
    + reflexivity.
Qed.

Lemma curate_articles_frame (articles : list loc) (h : store) (a : loc) :
  same_content ((llm_test.curate_articles generate_response articles h).2 a) (h a).
Proof.
  unfold llm_test.curate_articles. destruct articles as [|a0 articles].
  - cbn. repeat split.
  - pose proof (curate_loop_frame generate_response (a0 :: articles) O h []) as H.
    destruct (foldl _ _ (a0 :: articles)) as [[i' h'] acc'].
    destruct H as (_ & Hsame & _). cbn [snd]. apply Hsame.
Qed.

Lemma select_top_articles_parts (articles : list loc) (count : Z) (h : store) :
  exists h',
    (llm_test.curate_articles generate_response articles h).2 = h'
    /\ llm_test.select_top_articles generate_response articles count h
       = (Py.slice_to count
            (List.filter (fun art => Qle_bool 6 (llm_test.score h' art))
               (Py.sort_desc
                  (fun y x => Qle_bool (llm_test.score h' y) (llm_test.score h' x))
                  articles)), h')
    /\ forall a, a ∈ articles -> scored h' a.
Proof.
  unfold llm_test.select_top_articles.
  destruct (curate_articles_unfold generate_response articles h) as (h' & -> & Hall).
  exists h'. auto.
Qed.

End Processing.

(** X15: [process_and_filter_articles] returns at most 15 articles, all
    of them from sources that report success, and never changes title,
    summary, source or url of an article.  Whenever a successful source
    has an article, every collected article carries its analysis and final
    score afterwards, also when the write of the file fails; in that case
    the result is the first 10 collected articles in collection order,
    whatever their scores.  When the write succeeds the result is the
    selection of [select_top_articles] for 15, every article of it with a
    final score of at least 6.0.  Without an article from a successful
    source the result is empty, and the store is untouched. *)
Theorem X15_pipeline_selection_and_fallback
  (generate_response : nat -> string -> option string)
  (save_processed : list loc -> store -> bool)
  (extraction_results : list (string * main_pipeline.SourceResult)) (h : store) :
  let all_articles := from_successful_sources extraction_results in
  let selection :=
    llm_test.select_top_articles generate_response all_articles 15 h in
  let out := main_pipeline.process_and_filter_articles
               generate_response save_processed extraction_results h in
  (forall a, a ∈ out.1 -> a ∈ all_articles)
  /\ (length out.1 <= 15)%nat
  /\ (forall a, same_content (out.2 a) (h a))
  /\ (forall a, a ∈ all_articles -> scored out.2 a)
  /\ (all_articles = [] -> out = ([], h))
  /\ (all_articles <> [] -> save_processed selection.1 selection.2 = false ->
      out.1 = take 10 all_articles)
  /\ (all_articles <> [] -> save_processed selection.1 selection.2 = true ->
      out = selection /\ Forall (fun a => (6 <= llm_test.score out.2 a)%Q) out.1).
Proof.
  cbv zeta. unfold main_pipeline.process_and_filter_articles.
  rewrite collect_fold. cbn [app].
  set (all_articles := from_successful_sources extraction_results).
  destruct all_articles as [|a0 rest] eqn:Eall.
  { cbn [fst snd]. split_and!; try congruence; try (intros a Ha; inversion Ha).
    - cbn. lia.
    - intros a. repeat split. }
  rewrite <- Eall.
  destruct (select_top_articles_parts generate_response all_articles 15 h)
    as (h' & Eh & -> & Hscored).
  cbn [fst snd].
  assert (Hframe : forall a, same_content (h' a) (h a))
    by (intros a; rewrite <- Eh; apply curate_articles_frame).
  set (selected := Py.slice_to 15 _).
  assert (Hsub : sublist selected
                   (Py.sort_desc
                      (fun y x => Qle_bool (llm_test.score h' y) (llm_test.score h' x))
                      all_articles)).
  { etransitivity; [apply slice_to_sublist|apply sublist_bool_filter]. }
  assert (Hlen : (length selected <= 15)%nat).
  { unfold selected. rewrite slice_to_nonnegative by lia. rewrite length_take. lia. }
  assert (Hsix : Forall (fun a => (6 <= llm_test.score h' a)%Q) selected).
  { eapply Forall_of_sublist; [apply slice_to_sublist|].
    eapply Forall_impl; [apply Forall_bool_filter|].
    cbn. intros a. apply Qle_bool_iff. }
  destruct (save_processed selected h') eqn:Esave; cbn [fst snd].
  - split_and!; auto; try congruence.
    intros a Ha. eapply elem_of_sublist in Ha; [|exact Hsub].
    pose proof (sort_desc_perm
                  (fun y x => Qle_bool (llm_test.score h' y) (llm_test.score h' x))
                  all_articles) as Hperm.
    rewrite <- Hperm. exact Ha.
  - split_and!; auto; try congruence.
    + intros a Ha. eapply elem_of_sublist; [exact Ha|apply sublist_take].
    + rewrite length_take. lia.
Qed.

(** ** news_extractor.py: the results per source *)

Section SourceResults.
Import news_extractor.

Lemma dict_set_Forall {V} (P : string * V -> Prop) (d : list (string * V))
      (k : string) (v : V) :
  Forall P d -> P (k, v) -> Forall P (PyMore.dict_set d k v).
Proof.
  intros Hd Hkv. induction Hd as [|[k' v'] rest Hx Hrest IH]; cbn.
  - repeat constructor. exact Hkv.
  - destruct (String.eqb k' k) eqn:E.
    + apply String.eqb_eq in E. subst k'. constructor; assumption.
    + constructor; assumption.
Qed.

Lemma dict_set_keys {V} (d : list (string * V)) (k : string) (v : V) (x : string) :
  x ∈ (PyMore.dict_set d k v).*1 <-> x = k \/ x ∈ d.*1.
Proof.
  induction d as [|[k' v'] rest IH]; cbn.
  - rewrite list_elem_of_singleton, elem_of_nil. tauto.
  - destruct (String.eqb k' k) eqn:E; cbn.
    + apply String.eqb_eq in E. subst k'. rewrite !elem_of_cons. tauto.
    + rewrite !elem_of_cons, IH. tauto.
Qed.

Lemma dict_set_new {V} (d : list (string * V)) (k : string) (v : V) :
  k ∉ d.*1 -> PyMore.dict_set d k v = d ++ [(k, v)].
Proof.
  induction d as [|[k' v'] rest IH]; cbn; [reflexivity|].
  intros Hk. rewrite not_elem_of_cons in Hk. destruct Hk as [Hne Hk].
  destruct (String.eqb k' k) eqn:E.
  - apply String.eqb_eq in E. congruence.
  - rewrite IH by exact Hk. reflexivity.
Qed.

Lemma first_kept_none {A} (key : A -> string) (keep : A -> bool) (l : list A) :
  first_kept key keep ∅ l = [] <-> Forall (fun a => keep a = false) l.
Proof.
  induction l as [|a l IH]; cbn.
  - split; [constructor|reflexivity].
  - destruct (keep a) eqn:E; cbn [andb].
    + rewrite bool_decide_eq_true_2 by apply not_elem_of_empty.
      split; [discriminate|]. intros H. inversion H; congruence.
    + rewrite IH. split; [constructor; assumption|]. intros H. inversion H; assumption.
Qed.

End SourceResults.

(** X16: in the results of [extract_multiple_sources] every entry stands
    under the name of its source, its article_count is the length of its
    article list and its success flag says that this list is not empty.  A
    source is reported as failed exactly when every article fetched for it
    has a title of at most 15 characters, none fetched included.  The
    results hold exactly the names of the sources, and in their order when
    no name occurs twice. *)
Theorem X16_extraction_results_consistent
  (extract_from_rss extract_from_website_basic extract_from_website_selenium
     : string -> string -> list Article)
  (enhance_articles_with_content : list Article -> list Article)
  (sources : list (string * string)) :
  let fetched := news_extractor.extract_from_website
                   extract_from_rss extract_from_website_basic
                   extract_from_website_selenium enhance_articles_with_content in
  let results := news_extractor.extract_multiple_sources
                   extract_from_rss extract_from_website_basic
                   extract_from_website_selenium enhance_articles_with_content
                   sources in
  Forall (fun item : string * news_extractor.ExtractionResult =>
            news_extractor.result_source item.2 = item.1
            /\ news_extractor.article_count item.2
               = length (news_extractor.result_articles item.2)
            /\ (news_extractor.success item.2 = true
                <-> news_extractor.result_articles item.2 <> [])
            /\ (news_extractor.success item.2 = false
                <-> Forall (fun a => (String.length (title a) <= 15)%nat)
                           (fetched (news_extractor.result_url item.2) item.1)))
         results
  /\ (forall name, name ∈ results.*1 <-> name ∈ sources.*1)
  /\ (NoDup sources.*1 -> results.*1 = sources.*1).
Proof.
  cbv zeta. unfold news_extractor.extract_multiple_sources.
  set (step := news_extractor.source_step _ _ _ _).
  set (P := fun item : string * news_extractor.ExtractionResult => _).
  assert (Hstep : forall d name site,
            step d (name, site)
            = PyMore.dict_set d name
                (news_extractor.mkExtractionResult name site
                   (news_extractor.unique_articles_by_title
                      (news_extractor.extract_from_website
                         extract_from_rss extract_from_website_basic
                         extract_from_website_selenium enhance_articles_with_content
                         site name))
                   (length (news_extractor.unique_articles_by_title
                      (news_extractor.extract_from_website
                         extract_from_rss extract_from_website_basic
                         extract_from_website_selenium enhance_articles_with_content
                         site name)))
                   (0 <? length (news_extractor.unique_articles_by_title
                      (news_extractor.extract_from_website
                         extract_from_rss extract_from_website_basic
                         extract_from_website_selenium enhance_articles_with_content
                         site name)))%nat)) by reflexivity.
  assert (HP : forall srcs d, Forall P d -> Forall P (foldl step d srcs)).
  { induction srcs as [|[name site] rest IH]; intros d Hd; cbn [foldl];
      [exact Hd|].
    apply IH. rewrite Hstep. apply dict_set_Forall; [exact Hd|].
    unfold P. cbn [fst snd news_extractor.result_source news_extractor.article_count
                   news_extractor.success news_extractor.result_articles
                   news_extractor.result_url].
    set (fetched := news_extractor.extract_from_website _ _ _ _ site name).
    split_and!; try reflexivity.
    - destruct (news_extractor.unique_articles_by_title fetched); cbn;
        split; congruence.
    - transitivity (Forall (fun a => title_keep a = false) fetched).
      + rewrite <- (first_kept_none title_key title_keep fetched).
        rewrite <- unique_articles_by_title_first_kept.
        destruct (news_extractor.unique_articles_by_title fetched); cbn;
          split; congruence.
      + apply Forall_iff. intros a. unfold title_keep, title_key.
        rewrite length_lower. apply Nat.ltb_ge. }
  assert (Hk : forall srcs d name,
              name ∈ (foldl step d srcs).*1 <-> name ∈ d.*1 \/ name ∈ srcs.*1).
  { induction srcs as [|[n site] rest IH]; intros d name; cbn [foldl].
    - cbn. rewrite elem_of_nil. tauto.
    - rewrite IH, Hstep, dict_set_keys. cbn. rewrite elem_of_cons. tauto. }
  assert (Hn : forall srcs d, NoDup (d.*1 ++ srcs.*1) ->
                         (foldl step d srcs).*1 = d.*1 ++ srcs.*1).
  { induction srcs as [|[n site] rest IH]; intros d Hnd; cbn [foldl].
    - cbn. rewrite app_nil_r. reflexivity.
    - cbn [fmap list_fmap fst] in Hnd |- *.
      rewrite Hstep, dict_set_new.
      + rewrite IH; rewrite fmap_app, <- app_assoc; [reflexivity|exact Hnd].
      + apply NoDup_app in Hnd as (_ & Hdis & _). intros Hin.
        apply (Hdis n Hin), list_elem_of_here. }
  split_and!.
  - apply HP. constructor.
  - intros name. rewrite Hk. cbn. rewrite elem_of_nil. tauto.
  - intros Hnd. apply (Hn sources [] Hnd).
Qed.

(** ** enhanced_content_fetcher.py: fetching a page and enhancing articles *)

Section Enhancing.
Import enhanced_content_fetcher.

Variable fetch : nat -> string -> Page + string.
Variable _clean_text : string -> string.

Lemma nonempty_of_long (s : string) (n : nat) :
  (n < String.length s)%nat -> s <> EmptyString.
Proof. intros H ->. cbn in H. lia. Qed.

Lemma is_empty_false (s : string) : Py.is_empty s = false <-> s <> EmptyString.
Proof. destruct s; cbn; split; congruence. Qed.

(** What a successful call of [extract_full_article_content] returns. *)
Lemma extract_full_success (call : nat) (site given : string) :
  data_success (extract_full_article_content fetch _clean_text call site given) = true ->
  let d := extract_full_article_content fetch _clean_text call site given in
  data_title d <> EmptyString
  /\ (given <> EmptyString -> data_title d = given)
  /\ data_summary d <> EmptyString
  /\ (String.length (data_summary d) <= 303)%nat
  /\ data_url d = Some site.
Proof.
  cbv zeta. unfold extract_full_article_content.
  destruct (Py.is_empty site); [discriminate|].
  destruct (fetch call site) as [page|e]; [|discriminate].
  intros _. cbn [data_title data_summary data_url].
  split_and!; try apply generate_summary_bounded; try reflexivity.
  - destruct given; cbn [Py.is_empty]; [|discriminate].
    eapply nonempty_of_long, extract_title_long.
  - intros Hg. destruct given; [contradiction|reflexivity].
Qed.

Lemma enhance_step_facts (calls : nat) (h : store) (e : loc -> Enhancement)
      (acc : list loc) (a : loc) :
  let '(calls', h', e', acc') :=
    enhance_step fetch _clean_text (calls, h, e, acc) a in
  acc' = acc ++ [a]
  /\ (forall b, same_origin (h' b) (h b))
  /\ (forall b, title (h b) <> EmptyString -> title (h' b) = title (h b))
  /\ (forall b, b <> a \/ bad_url (h b) = true -> h' b = h b /\ e' b = e b)
  /\ (bad_url (h a) = false ->
      (content_extracted (e' a) = Some true /\ enhanced_ok (h' a))
      \/ content_extracted (e' a) = Some false).
Proof.
  unfold enhance_step, bad_url.
  destruct (Py.is_empty (default EmptyString (url (h a)))
            || PyMore.contains "/categories/" (default EmptyString (url (h a))))
    eqn:Ebad.
  { split_and!; try reflexivity; try discriminate; intros; repeat split. }
  pose proof (extract_full_success calls (default EmptyString (url (h a)))
                (title (h a))) as Hok.
  destruct (data_success _) eqn:Es.
  - specialize (Hok eq_refl). cbv zeta in Hok.
    destruct Hok as (Ht & Hgiven & Hs & Hlen & _).
    set (d := extract_full_article_content _ _ _ _ _) in *.
    assert (Et : (if Py.is_empty (data_title d) then title (h a) else data_title d)
                 = data_title d)
      by (destruct (data_title d); [contradiction|reflexivity]).
    rewrite Et. split_and!.
    + reflexivity.
    + intros b. destruct (decide (a = b)) as [->|Hne].
      * rewrite fn_lookup_insert. repeat split.
      * rewrite fn_lookup_insert_ne by exact Hne. repeat split.
    + intros b Hb. destruct (decide (a = b)) as [->|Hne].
      * rewrite fn_lookup_insert. cbn. apply Hgiven, Hb.
      * rewrite fn_lookup_insert_ne by exact Hne. reflexivity.
    + intros b [Hb|Hb].
      * rewrite !fn_lookup_insert_ne by congruence. split; reflexivity.
      * destruct (decide (a = b)) as [->|Hne]; [congruence|].
        rewrite !fn_lookup_insert_ne by exact Hne. split; reflexivity.
    + intros _. left. rewrite !fn_lookup_insert. cbn. repeat split; assumption.
  - split_and!.
    + reflexivity.
    + intros b. repeat split.
    + reflexivity.
    + intros b [Hb|Hb].
      * rewrite fn_lookup_insert_ne by congruence. split; reflexivity.
      * destruct (decide (a = b)) as [->|Hne]; [congruence|].
        rewrite fn_lookup_insert_ne by exact Hne. split; reflexivity.
    + intros _. right. rewrite fn_lookup_insert. reflexivity.
Qed.

Lemma bad_url_same_origin (a b : Article) :
  same_origin a b -> bad_url a = bad_url b.
Proof. intros (Hu & _). unfold bad_url. rewrite Hu. reflexivity. Qed.

Lemma same_origin_trans (a b c : Article) :
  same_origin a b -> same_origin b c -> same_origin a c.
Proof.
  intros (? & ? & ? & ?) (? & ? & ? & ?). repeat split; congruence.
Qed.

Lemma enhance_loop_facts (articles : list loc) (calls : nat) (h : store)
      (e : loc -> Enhancement) (acc : list loc) :
  let '(calls', h', e', acc') :=
    foldl (enhance_step fetch _clean_text) (calls, h, e, acc) articles in
  acc' = acc ++ articles
  /\ (forall b, same_origin (h' b) (h b))
  /\ (forall b, title (h b) <> EmptyString -> title (h' b) = title (h b))
  /\ (forall b, b ∉ articles \/ bad_url (h b) = true -> h' b = h b /\ e' b = e b)
  /\ (forall b, bad_url (h b) = false ->
        b ∈ articles
        \/ (content_extracted (e b) = Some true /\ enhanced_ok (h b))
        \/ content_extracted (e b) = Some false ->
        (content_extracted (e' b) = Some true /\ enhanced_ok (h' b))
        \/ content_extracted (e' b) = Some false).
Proof.
  revert calls h e acc.
  induction articles as [|a articles IH]; intros calls h e acc; cbn [foldl].
  - rewrite app_nil_r. split_and!.
    + reflexivity.
    + intros b. repeat split.
    + reflexivity.
    + intros b _. split; reflexivity.
    + intros b _ [Hb|Hb]; [inversion Hb|exact Hb].
  - pose proof (enhance_step_facts calls h e acc a) as Hstep.
    destruct (enhance_step fetch _clean_text (calls, h, e, acc) a)
      as [[[calls1 h1] e1] acc1].
    destruct Hstep as (-> & Ho1 & Ht1 & Hsame1 & Hnew1).
    specialize (IH calls1 h1 e1 (acc ++ [a])).
    destruct (foldl _ _ articles) as [[[calls2 h2] e2] acc2].
    destruct IH as (-> & Ho2 & Ht2 & Hsame2 & Hnew2).
    split_and!.
    + rewrite <- app_assoc. reflexivity.
    + intros b. eapply same_origin_trans; [apply Ho2|apply Ho1].
    + intros b Hb. rewrite Ht2 by (rewrite Ht1; assumption). apply Ht1, Hb.
    + intros b Hb.
      assert (H1 : h1 b = h b /\ e1 b = e b).
      { apply Hsame1. destruct Hb as [Hb|Hb]; [|right; exact Hb].
        left. intros ->. apply Hb, list_elem_of_here. }
      destruct H1 as [Eh Ee].
      assert (H2 : h2 b = h1 b /\ e2 b = e1 b).
      { apply Hsame2. destruct Hb as [Hb|Hb].
        - left. intros Hin. apply Hb, list_elem_of_further, Hin.
        - right. rewrite Eh. exact Hb. }
      destruct H2 as [Eh2 Ee2]. split; congruence.
    + intros b Hbad Hb.
      assert (Hbad1 : bad_url (h1 b) = false)
        by (rewrite (bad_url_same_origin _ _ (Ho1 b)); exact Hbad).
      apply (Hnew2 b Hbad1).
      destruct (decide (b = a)) as [->|Hne].
      * right. apply Hnew1, Hbad.
      * destruct (Hsame1 b (or_introl Hne)) as [Eh Ee]. rewrite Eh, Ee.
        destruct Hb as [Hb|Hb]; [|right; exact Hb].
        apply elem_of_cons in Hb as [Hb|Hb]; [contradiction|left; exact Hb].
Qed.

End Enhancing.

(** X17: [extract_full_article_content] reports success exactly when the
    url is not empty and the request gives a page; the content found on
    the page has no part in it.  On failure content and summary are empty
    and the title is the one passed in.  On success the title is not
    empty, and is the one passed in unless that is empty; the summary is
    not empty and has at most 303 characters.  With an empty url no
    request is made. *)
Theorem X17_content_fetch_outcome
  (fetch : nat -> string -> enhanced_content_fetcher.Page + string)
  (_clean_text : string -> string) (call : nat) (site given : string) :
  let d := enhanced_content_fetcher.extract_full_article_content
             fetch _clean_text call site given in
  (enhanced_content_fetcher.data_success d = true
   <-> site <> EmptyString /\ exists page, fetch call site = inl page)
  /\ (enhanced_content_fetcher.data_success d = false ->
      enhanced_content_fetcher.data_content d = EmptyString
      /\ enhanced_content_fetcher.data_summary d = EmptyString
      /\ enhanced_content_fetcher.data_title d = given
      /\ enhanced_content_fetcher.data_error d <> None)
  /\ (enhanced_content_fetcher.data_success d = true ->
      enhanced_content_fetcher.data_title d <> EmptyString
      /\ (given <> EmptyString -> enhanced_content_fetcher.data_title d = given)
      /\ enhanced_content_fetcher.data_summary d <> EmptyString
      /\ (String.length (enhanced_content_fetcher.data_summary d) <= 303)%nat
      /\ enhanced_content_fetcher.data_url d = Some site)
  /\ (site = EmptyString ->
      forall fetch' _clean_text',
        enhanced_content_fetcher.extract_full_article_content
          fetch' _clean_text' call site given = d).
Proof.
  cbv zeta. split_and!.
  - unfold enhanced_content_fetcher.extract_full_article_content.
    destruct site as [|c site]; cbn [Py.is_empty].
    + cbn. split; [discriminate|]. intros [H _]. contradiction.
    + destruct (fetch call (String c site)) as [page|e]; cbn.
      * split; [|reflexivity]. intros _. split; [discriminate|eauto].
      * split; [discriminate|]. intros (_ & page & H). discriminate.
  - unfold enhanced_content_fetcher.extract_full_article_content.
    destruct (Py.is_empty site); [cbn; intros _; repeat split; discriminate|].
    destruct (fetch call site) as [page|e]; cbn; [discriminate|].
    intros _; repeat split; discriminate.
  - apply extract_full_success.
  - intros -> fetch' clean'. reflexivity.
Qed.

(** X18: [enhance_articles_with_content] returns the articles it was
    given, the same dicts in the same order.  It never changes url, source,
    analysis or final score of an article, and never replaces a title that
    is not empty.  An article that is not in the list, or has no url or the
    url of a category page, is left exactly as it was.  Every other
    article of the list ends marked: as extracted, and then with a title
    and a summary that are not empty, the summary of at most 303
    characters, or as not extracted. *)
Theorem X18_enhancement_frame
  (fetch : nat -> string -> enhanced_content_fetcher.Page + string)
  (_clean_text : string -> string)
  (articles : list loc) (h : store)
  (e : loc -> enhanced_content_fetcher.Enhancement) :
  let out := enhanced_content_fetcher.enhance_articles_with_content
               fetch _clean_text articles h e in
  let h' := out.1.2 in
  let e' := out.2 in
  out.1.1 = articles
  /\ (forall b, same_origin (h' b) (h b))
  /\ (forall b, title (h b) <> EmptyString -> title (h' b) = title (h b))
  /\ (forall b, b ∉ articles \/ bad_url (h b) = true -> h' b = h b /\ e' b = e b)
  /\ (forall b, b ∈ articles -> bad_url (h b) = false ->
        (enhanced_content_fetcher.content_extracted (e' b) = Some true
         /\ enhanced_ok (h' b))
        \/ enhanced_content_fetcher.content_extracted (e' b) = Some false).
Proof.
  cbv zeta. unfold enhanced_content_fetcher.enhance_articles_with_content.
  pose proof (enhance_loop_facts fetch _clean_text articles O h e []) as H.
  destruct (foldl _ _ articles) as [[[calls' h'] e'] acc'].
  destruct H as (-> & Ho & Ht & Hsame & Hnew). cbn [fst snd app].
  split_and!; auto.
Qed.

(** ** enhanced_content_fetcher.py: removing unwanted elements *)

Section Decompose.
Import enhanced_content_fetcher.

Variable names : list string.

Lemma node_induction (P : node -> Prop) :
  (forall s, P (NavigableString s)) ->
  (forall name classes children,
      Forall P children -> P (Tag name classes children)) ->
  forall n, P n.
Proof.
  intros Hs Ht. fix IH 1. intros [s|name classes children]; [apply Hs|].
  apply Ht. induction children as [|c children IHc]; constructor;
    [apply IH|exact IHc].
Qed.

Lemma decompose_all_Tag (name : string) (classes : list string)
      (children : list node) :
  decompose_all names (Tag name classes children)
  = Tag name classes (flat_map (kept_child names) children).
Proof.
  cbn [decompose_all]. f_equal. apply flat_map_ext. intros [s|n c ch]; reflexivity.
Qed.

Lemma find_all_named (soup : node) :
  find_all names soup = List.filter (is_named names) (descendants soup).
Proof. reflexivity. Qed.

Lemma filter_nil_Forall {X} (p : X -> bool) (l : list X) :
  List.filter p l = [] <-> Forall (fun x => p x = false) l.
Proof.
  induction l as [|x l IH]; cbn.
  - split; [constructor|reflexivity].
  - destruct (p x) eqn:E.
    + split; [discriminate|]. intros H. inversion H; congruence.
    + rewrite IH. split; [constructor; assumption|].
      intros H. inversion H; assumption.
Qed.

Lemma is_named_decompose (n : node) :
  is_named names (decompose_all names n) = is_named names n.
Proof. destruct n; reflexivity. Qed.

Lemma decompose_all_clean (n : node) :
  Forall (fun x => is_named names x = false) (descendants (decompose_all names n)).
Proof.
  induction n as [s|name classes children IH] using node_induction.
  - constructor.
  - rewrite decompose_all_Tag. cbn [descendants].
    induction IH as [|c children Hc _ IHc]; cbn [flat_map]; [constructor|].
    rewrite flat_map_app. apply Forall_app. split; [|exact IHc].
    unfold kept_child. destruct (is_named names c) eqn:E; cbn [flat_map].
    + constructor.
    + rewrite app_nil_r. constructor; [|exact Hc].
      rewrite is_named_decompose. exact E.
Qed.

Lemma decompose_all_strings (n : node) :
  sublist (all_strings (decompose_all names n)) (all_strings n).
Proof.
  induction n as [s|name classes children IH] using node_induction.
  - reflexivity.
  - rewrite decompose_all_Tag. cbn [all_strings].
    induction IH as [|c children Hc _ IHc]; cbn [flat_map]; [constructor|].
    rewrite flat_map_app. apply sublist_app; [|exact IHc].
    unfold kept_child. destruct (is_named names c); cbn [flat_map].
    + apply sublist_nil_l.
    + rewrite app_nil_r. exact Hc.
Qed.

Lemma decompose_all_nothing (n : node) :
  Forall (fun x => is_named names x = false) (descendants n) ->
  decompose_all names n = n.
Proof.
  induction n as [s|name classes children IH] using node_induction.
  - reflexivity.
  - rewrite decompose_all_Tag. cbn [descendants]. intros H. f_equal.
    induction IH as [|c children Hc _ IHc]; cbn [flat_map] in *; [reflexivity|].
    apply Forall_app in H as [Hhead Hrest]. inversion Hhead as [|? ? Ec Hdesc]; subst.
    rewrite (IHc Hrest). unfold kept_child. rewrite Ec. cbn [app].
    rewrite (Hc Hdesc). reflexivity.
Qed.

End Decompose.

(** X19: after the removal of the elements with the given names no
    element with one of the names is left in the soup, at any depth.  The
    removal adds no text: the strings left are, in document order, among
    those of the soup.  A soup without such an element is left as it is,
    so removing twice is the same as removing once. *)
Theorem X19_decompose_removes_named_elements
  (names : list string) (soup : enhanced_content_fetcher.node) :
  let cleaned := enhanced_content_fetcher.decompose_all names soup in
  enhanced_content_fetcher.find_all names cleaned = []
  /\ sublist (enhanced_content_fetcher.all_strings cleaned)
             (enhanced_content_fetcher.all_strings soup)
  /\ (enhanced_content_fetcher.find_all names soup = [] -> cleaned = soup)
  /\ enhanced_content_fetcher.decompose_all names cleaned = cleaned.
Proof.
  cbv zeta. rewrite !find_all_named, !filter_nil_Forall. split_and!.
  - apply decompose_all_clean.
  - apply decompose_all_strings.
  - apply decompose_all_nothing.
  - apply decompose_all_nothing, decompose_all_clean.
Qed.

(** ** chroma_db.py: the batch handed to the collection *)

Section AddArticles.
Import chroma_db.

Variable today : nat -> string.

Lemma pretty_go_chars (P : ascii -> bool) (x : N) (s : string) :
  (forall y, P (pretty_N_char y) = true) ->
  all_chars P s = true -> all_chars P (pretty_N_go x s) = true.
Proof.
  intros HP. revert s. induction (N.lt_wf_0 x) as [x _ IH]. intros s Hs.
  destruct (decide (x = 0%N)) as [->|Hx].
  - rewrite pretty_N_go_0. exact Hs.
  - rewrite pretty_N_go_step by lia. apply IH.
    + apply N.div_lt; lia.
    + cbn [all_chars]. rewrite HP, Hs. reflexivity.
Qed.

Lemma pretty_char_not_underscore (y : N) :
  not_underscore (pretty_N_char y) = true.
Proof.
  unfold pretty_N_char.
  repeat match goal with
         | |- context [match ?v with _ => _ end] => destruct v
         end; reflexivity.
Qed.

Lemma str_of_nat_no_underscore (k : nat) :
  all_chars not_underscore (Py.str_of_nat k) = true.
Proof.
  unfold Py.str_of_nat, pretty, pretty_nat, pretty, pretty_N.
  destruct (decide (N.of_nat k = 0%N)); [reflexivity|].
  apply pretty_go_chars; [apply pretty_char_not_underscore|reflexivity].
Qed.

Lemma app_string_assoc (a b c : string) : (a +:+ b) +:+ c = a +:+ (b +:+ c).
Proof.
  induction a as [|x a IH]; [reflexivity|].
  change (String x a +:+ b) with (String x (a +:+ b)).
  change (String x (a +:+ b) +:+ c) with (String x ((a +:+ b) +:+ c)).
  change (String x a +:+ (b +:+ c)) with (String x (a +:+ (b +:+ c))).
  rewrite IH. reflexivity.
Qed.

Lemma underscore_inside (a d : string) :
  all_chars not_underscore (a +:+ String "_" d) = false.
Proof.
  rewrite all_chars_app. cbn. apply andb_false_r.
Qed.

(** What follows the last underscore is determined by the string. *)
Lemma last_segment_eq (a b d1 d2 : string) :
  all_chars not_underscore d1 = true ->
  all_chars not_underscore d2 = true ->
  a +:+ String "_" d1 = b +:+ String "_" d2 -> d1 = d2.
Proof.
  intros H1 H2. revert b.
  induction a as [|x a IH]; intros [|y b] E.
  - injection E. auto.
  - change (String y b +:+ String "_" d2) with (String y (b +:+ String "_" d2)) in E.
    injection E as _ E. rewrite E, underscore_inside in H1. discriminate.
  - change (String x a +:+ String "_" d1) with (String x (a +:+ String "_" d1)) in E.
    injection E as _ E. rewrite <- E, underscore_inside in H2. discriminate.
  - change (String x a +:+ String "_" d1) with (String x (a +:+ String "_" d1)) in E.
    change (String y b +:+ String "_" d2) with (String y (b +:+ String "_" d2)) in E.
    injection E as _ E. eapply IH, E.
Qed.

Lemma numbered_ids_differ (p q : string) (j k : nat) :
  p +:+ String "_" (Py.str_of_nat j) = q +:+ String "_" (Py.str_of_nat k) -> j = k.
Proof.
  intros E. apply last_segment_eq in E; try apply str_of_nat_no_underscore.
  unfold Py.str_of_nat in E. apply (inj pretty) in E. exact E.
Qed.

Lemma prepare_step_cases (b : Batch) (article : gmap string string) :
  prepare_step today b article
  = if titled article then
      mkBatch (S (index b)) (documents b ++ [doc_text article])
              (metadatas b ++
                 [mkMetadata (default EmptyString (article !! "title"))
                             (default EmptyString (article !! "source"))
                             (default EmptyString (article !! "author"))
                             (default EmptyString (article !! "date"))
                             (default EmptyString (article !! "url"))
                             (default "AI/ML" (article !! "category"))])
              (ids b ++
                 [(default "unknown" (article !! "source") +:+ "_"
                   +:+ today (index b))
                  +:+ String "_" (Py.str_of_nat (index b))])
              (S (added_count b)) (skipped_count b)
    else mkBatch (S (index b)) (documents b) (metadatas b) (ids b)
                 (added_count b) (S (skipped_count b)).
Proof.
  unfold prepare_step, titled, doc_text.
  destruct (Py.is_empty (default EmptyString (article !! "title"))); cbn [negb];
    [reflexivity|].
  f_equal. f_equal. f_equal. rewrite !app_string_assoc. reflexivity.
Qed.

Lemma prepare_fold (articles : list (gmap string string)) (b : Batch) :
  let b' := foldl (prepare_step today) b articles in
  documents b' = documents b ++ (doc_text <$> List.filter titled articles)
  /\ meta_title <$> metadatas b'
     = (meta_title <$> metadatas b)
       ++ ((fun a => default EmptyString (a !! "title")) <$> List.filter titled articles)
  /\ length (ids b') = (length (ids b) + length (List.filter titled articles))%nat
  /\ added_count b' = (added_count b + length (List.filter titled articles))%nat
  /\ (added_count b' + skipped_count b'
      = added_count b + skipped_count b + length articles)%nat.
Proof.
  cbv zeta. revert b.
  induction articles as [|a articles IH]; intros b; cbn [foldl List.filter].
  - cbn. rewrite !app_nil_r. repeat split; lia.
  - destruct (IH (prepare_step today b a)) as (Hd & Hm & Hi & Ha & Hs).
    rewrite Hs, Hd, Hm, Hi, Ha. rewrite prepare_step_cases.
    destruct (titled a); cbn [documents metadatas ids added_count skipped_count
                              fmap list_fmap length].
    + rewrite fmap_app, !length_app, <- !app_assoc. cbn. repeat split; lia.
    + repeat split; lia.
Qed.

Lemma prepare_fold_ids (articles : list (gmap string string)) (b : Batch) :
  NoDup (ids b) -> Forall (numbered_below (index b)) (ids b) ->
  NoDup (ids (foldl (prepare_step today) b articles)).
Proof.
  revert b. induction articles as [|a articles IH]; intros b Hnd Hnum; cbn [foldl].
  - exact Hnd.
  - apply IH; rewrite prepare_step_cases; destruct (titled a); cbn [ids index].
    + apply NoDup_app. split_and!; [exact Hnd| |apply NoDup_singleton].
      intros id Hid Hnew. apply list_elem_of_singleton in Hnew.
      rewrite Forall_forall in Hnum. destruct (Hnum id Hid) as (p & k & Hk & ->).
      apply numbered_ids_differ in Hnew. lia.
    + exact Hnd.
    + apply Forall_app. split.
      * eapply Forall_impl; [exact Hnum|].
        intros id (p & k & Hk & ->). exists p, k. split; [lia|reflexivity].
      * repeat constructor. eexists _, (index b). split; [lia|reflexivity].
    + eapply Forall_impl; [exact Hnum|].
      intros id (p & k & Hk & ->). exists p, k. split; [lia|reflexivity].
Qed.

End AddArticles.

(** X20: the batch that [add_articles] hands to the collection has one
    document, one metadata dict and one id for every article with a title
    that is not empty, in input order, and no two ids of it are equal;
    articles without a title are skipped, and added and skipped together
    count the input.  The call succeeds exactly when some article has a
    title and the collection raises nothing; without a titled article the
    collection is not called. *)
Theorem X20_add_articles_batch
  (today : nat -> string)
  (collection_add :
     list string -> list chroma_db.Metadata -> list string -> string + nat)
  (articles : list (gmap string string)) :
  let b := chroma_db.prepared today articles in
  let result := chroma_db.add_articles today collection_add articles in
  NoDup (chroma_db.ids b)
  /\ chroma_db.documents b = doc_text <$> List.filter titled articles
  /\ chroma_db.meta_title <$> chroma_db.metadatas b
     = (fun a => default EmptyString (a !! "title")) <$> List.filter titled articles
  /\ length (chroma_db.ids b) = length (chroma_db.documents b)
  /\ chroma_db.added_count b = length (chroma_db.documents b)
  /\ (chroma_db.added_count b + chroma_db.skipped_count b = length articles)%nat
  /\ (chroma_db.success result = true
      <-> List.filter titled articles <> []
          /\ exists total,
               collection_add (chroma_db.documents b) (chroma_db.metadatas b)
                              (chroma_db.ids b) = inr total)
  /\ (List.filter titled articles = [] ->
      forall collection_add',
        chroma_db.add_articles today collection_add' articles = result).
Proof.
  cbv zeta.
  pose proof (prepare_fold today articles (chroma_db.mkBatch O [] [] [] O O))
    as (Hd & Hm & Hi & Ha & Hs).
  cbn [chroma_db.documents chroma_db.metadatas chroma_db.ids chroma_db.added_count
       chroma_db.skipped_count app fmap list_fmap length] in Hd, Hm, Hi, Ha, Hs.
  fold (chroma_db.prepared today articles) in Hd, Hm, Hi, Ha, Hs.
  assert (Hres : forall ca,
    chroma_db.add_articles today ca articles
    = match List.filter titled articles with
      | [] => match articles with
              | [] => chroma_db.mkAddResult false (Some "No articles provided")
                        None None None None
              | _ => chroma_db.mkAddResult false (Some "No valid articles to add")
                        None None None None
              end
      | _ => match ca (chroma_db.documents (chroma_db.prepared today articles))
                      (chroma_db.metadatas (chroma_db.prepared today articles))
                      (chroma_db.ids (chroma_db.prepared today articles)) with
             | inr total =>
                 chroma_db.mkAddResult true None None
                   (Some (chroma_db.added_count (chroma_db.prepared today articles)))
                   (Some (chroma_db.skipped_count (chroma_db.prepared today articles)))
                   (Some total)
             | inl e => chroma_db.mkAddResult false None (Some e) None None None
             end
      end).
  { intros ca. unfold chroma_db.add_articles.
    destruct articles as [|a0 rest]; [reflexivity|].
    rewrite Hd. destruct (List.filter titled (a0 :: rest)); reflexivity. }
  split_and!.
  - apply prepare_fold_ids; cbn; constructor.
  - exact Hd.
  - exact Hm.
  - rewrite Hi, Hd, length_fmap. reflexivity.
  - rewrite Ha, Hd, length_fmap. reflexivity.
  - exact Hs.
  - rewrite Hres. destruct (List.filter titled articles) as [|t ts].
    + destruct articles; cbn; (split; [discriminate|intros [H _]; contradiction]).
    + destruct (collection_add _ _ _) as [e|total]; cbn.
      * split; [discriminate|]. intros (_ & total & H). discriminate.
      * split; [|reflexivity]. intros _. split; [discriminate|eauto].
  - intros Hnone ca. rewrite !Hres, Hnone. reflexivity.
Qed.

(** X21: an article with a usable url whose page gives a text of fewer
    than 100 characters, the sentinel for no content included, is marked as
    extracted all the same, and the summary it had is replaced by the
    sentinel [No summary available]. *)
Theorem X21_short_page_replaces_summary
  (fetch : nat -> string -> enhanced_content_fetcher.Page + string)
  (_clean_text : string -> string)
  (a : loc) (h : store) (e : loc -> enhanced_content_fetcher.Enhancement)
  (page : enhanced_content_fetcher.Page) :
  bad_url (h a) = false ->
  fetch O (default EmptyString (url (h a))) = inl page ->
  (String.length
     (enhanced_content_fetcher._extract_article_text
        (enhanced_content_fetcher.decompose_all
           enhanced_content_fetcher.unwanted_tags
           (enhanced_content_fetcher.page_soup page))) < 100)%nat ->
  let out := enhanced_content_fetcher.enhance_articles_with_content
               fetch _clean_text [a] h e in
  out.1.1 = [a]
  /\ summary (out.1.2 a) = "No summary available"
  /\ enhanced_content_fetcher.content_extracted (out.2 a) = Some true
  /\ enhanced_content_fetcher.extraction_error (out.2 a)
     = enhanced_content_fetcher.extraction_error (e a).
Proof.
  intros Hbad Hfetch Hshort. cbv zeta.
  unfold enhanced_content_fetcher.enhance_articles_with_content.
  cbn [foldl enhanced_content_fetcher.enhance_step].
  unfold bad_url in Hbad. rewrite Hbad.
  unfold enhanced_content_fetcher.extract_full_article_content.
  apply orb_false_iff in Hbad as [Hempty _]. rewrite Hempty, Hfetch.
  cbn [enhanced_content_fetcher.data_success enhanced_content_fetcher.data_summary
       enhanced_content_fetcher.data_title enhanced_content_fetcher.data_content
       fst snd app].
  rewrite !fn_lookup_insert.
  cbn [summary enhanced_content_fetcher.set_title_summary
       enhanced_content_fetcher.content_extracted
       enhanced_content_fetcher.extraction_error].
  split_and!; try reflexivity.
  rewrite generate_summary_cases. cbv zeta.
  apply Nat.ltb_lt in Hshort. rewrite Hshort, orb_true_r. reflexivity.
Qed.

Lemma X21_witness :
  summary
    ((enhanced_content_fetcher.enhance_articles_with_content
        sample_fetch (fun text => text) [0%nat] sample_store
        (fun _ => enhanced_content_fetcher.mkEnhancement None None None None None None)).1.2
       0%nat)
  = "No summary available".
Proof.
  refine (proj1 (proj2 (X21_short_page_replaces_summary
                          sample_fetch (fun text => text) 0%nat sample_store
                          (fun _ => enhanced_content_fetcher.mkEnhancement
                                      None None None None None None)
                          sample_page _ _ _))).
  - vm_compute. reflexivity.
  - reflexivity.
  - vm_compute. lia.
Defined.
